(** * The build script of the CyberUXcellence site (build.js)

    A shallow embedding of [build.js]: the script assembles component
    folders into one page.  Text is modelled as [string], the file system
    as a finite map from paths to nodes, and the script's synchronous,
    throwing I/O as a state-and-exception monad over that map. *)

From Stdlib Require Import String Ascii List Lia.
From stdpp Require Import base option gmap strings list.

Local Open Scope string_scope.
Local Open Scope list_scope.
Local Open Scope stdpp_scope.

(** ** Strings *)

Module Str.

(** [s.startsWith(p)] *)
Fixpoint startsWith (p s : string) : bool :=
  match p, s with
  | EmptyString, _ => true
  | String _ _, EmptyString => false
  | String a p', String b s' => if Ascii.eqb a b then startsWith p' s' else false
  end.

(** [s.substring(n)] *)
Fixpoint drop (n : nat) (s : string) : string :=
  match n, s with
  | O, _ => s
  | S _, EmptyString => EmptyString
  | S n', String _ s' => drop n' s'
  end.

(** [s.substring(0, n)] *)
Fixpoint take (n : nat) (s : string) : string :=
  match n, s with
  | O, _ => EmptyString
  | S _, EmptyString => EmptyString
  | S n', String c s' => String c (take n' s')
  end.

(** The text before and after the leftmost occurrence of [p] in [s]
    ([s.indexOf(p)] followed by the two [substring] calls). *)
Fixpoint splitFirst (p s : string) : option (string * string) :=
  if startsWith p s then Some (EmptyString, drop (String.length p) s)
  else match s with
       | EmptyString => None
       | String c s' =>
           match splitFirst p s' with
           | Some (a, b) => Some (String c a, b)
           | None => None
           end
       end.

(** [c] occurs in [s]. *)
Fixpoint mem (c : ascii) (s : string) : bool :=
  match s with
  | EmptyString => false
  | String d s' => if Ascii.eqb c d then true else mem c s'
  end.

(** [p] occurs somewhere in [s] ([s.includes(p)]). *)
Fixpoint includes (p s : string) : bool :=
  if startsWith p s then true
  else match s with
       | EmptyString => false
       | String _ s' => includes p s'
       end.

Definition dquote : ascii := "034"%char.
Definition newline : string := String "010"%char EmptyString.

End Str.

(** ** The JavaScript string built-ins the script calls *)

Module JS.

(** ECMAScript [GetSubstitution] for a call with a string pattern: there
    are no captures, so only [$$], [$&], [$`] and [$'] are special and
    every other [$] stands for itself. *)
Fixpoint getSubstitution (matched preceding following replacement : string) : string :=
  match replacement with
  | EmptyString => EmptyString
  | String c r =>
      if Ascii.eqb c "$" then
        match r with
        | EmptyString => String c EmptyString
        | String d r' =>
            if Ascii.eqb d "$" then String "$" (getSubstitution matched preceding following r')
            else if Ascii.eqb d "&" then matched +:+ getSubstitution matched preceding following r'
            else if Ascii.eqb d "`" then preceding +:+ getSubstitution matched preceding following r'
            else if Ascii.eqb d "'" then following +:+ getSubstitution matched preceding following r'
            else String c (getSubstitution matched preceding following r)
        end
      else String c (getSubstitution matched preceding following r)
  end.

(** [str.replace(searchValue, replaceValue)] with both arguments strings:
    the leftmost occurrence only. *)
Definition replace (str searchValue replaceValue : string) : string :=
  match Str.splitFirst searchValue str with
  | None => str
  | Some (preceding, following) =>
      preceding +:+ getSubstitution searchValue preceding following replaceValue +:+ following
  end.

(** The regular expressions of the script are sequences of literal
    characters and one optional character class (a quote of either kind,
    once or not at all). *)
Inductive RegExpAtom : Type :=
| Chr (c : ascii)
| OptSet (cs : list ascii).

Definition RegExp : Type := list RegExpAtom.

Fixpoint lit (s : string) : RegExp :=
  match s with
  | EmptyString => []
  | String c s' => Chr c :: lit s'
  end.

(** Backtracking match of [re] at the start of [s]; the result is the
    number of characters matched.  [?] is greedy. *)
Fixpoint matchHere (re : RegExp) (s : string) : option nat :=
  match re with
  | [] => Some 0
  | Chr c :: re' =>
      match s with
      | String d s' => if Ascii.eqb c d then S <$> matchHere re' s' else None
      | EmptyString => None
      end
  | OptSet cs :: re' =>
      match s with
      | String d s' =>
          if bool_decide (d ∈ cs) then
            match matchHere re' s' with
            | Some n => Some (S n)
            | None => matchHere re' s
            end
          else matchHere re' s
      | EmptyString => matchHere re' s
      end
  end.

(** [str.replace(/re/g, replaceValue)]: scan from the left; a match is
    replaced and the scan resumes after it; [skip] counts the characters
    of the current match still to be dropped and [preceding] is the part
    of the subject already scanned. *)
Fixpoint replaceAllFrom (re : RegExp) (replaceValue preceding : string)
    (skip : nat) (s : string) : string :=
  match s with
  | EmptyString =>
      match skip, matchHere re EmptyString with
      | O, Some _ => getSubstitution EmptyString preceding EmptyString replaceValue
      | _, _ => EmptyString
      end
  | String c s' =>
      match skip with
      | S k => replaceAllFrom re replaceValue (preceding +:+ String c EmptyString) k s'
      | O =>
          match matchHere re s with
          | Some (S n) =>
              getSubstitution (Str.take (S n) s) preceding (Str.drop (S n) s) replaceValue
              +:+ replaceAllFrom re replaceValue (preceding +:+ String c EmptyString) n s'
          | Some O =>
              getSubstitution EmptyString preceding s replaceValue
              +:+ String c (replaceAllFrom re replaceValue (preceding +:+ String c EmptyString) 0 s')
          | None =>
              String c (replaceAllFrom re replaceValue (preceding +:+ String c EmptyString) 0 s')
          end
      end
  end.

Definition replaceAll (str : string) (re : RegExp) (replaceValue : string) : string :=
  replaceAllFrom re replaceValue EmptyString 0 str.

End JS.

(** ** The file system and the script's I/O *)

(** A path is its list of segments: [path.join] normalises
    [./components/Header] to [components/Header]. *)
Abbreviation path := (list string).

Inductive node : Type :=
| File (content : string)
| Dir (entries : list string).

Inductive error : Type :=
| ENOENT (p : path)
| EISDIR (p : path)
| ENOTDIR (p : path)
| EEXIST (p : path).

(** The world the script runs in: the file system below the working
    directory (the working directory itself is the path [[]]) and the lines
    written by [console.log]. *)
Record World : Type := mkWorld {
  fs : gmap path node;
  console : list string
}.

(** A call either returns or throws; either way it leaves a world. *)
Inductive Outcome (A : Type) : Type :=
| Ok (a : A) (w : World)
| Throw (e : error) (w : World).
Arguments Ok {A} a w.
Arguments Throw {A} e w.

Definition M (A : Type) : Type := World → Outcome A.

#[global] Instance M_ret : MRet M := λ A a w, Ok a w.
#[global] Instance M_bind : MBind M := λ A B f m w,
  match m w with
  | Ok a w' => f a w'
  | Throw e w' => Throw e w'
  end.

Definition setFs (w : World) (m : gmap path node) : World :=
  mkWorld m (console w).

Module console.
Definition log (line : string) : M unit :=
  λ w, Ok tt (mkWorld (fs w) (console w ++ [line])%list).
End console.

Module path.
Definition join (p : path) (segments : list string) : path := (p ++ segments)%list.
End path.

Record Dirent : Type := mkDirent { name : string; isDirectory : bool }.

Module Fs.

(** A new entry [p] holding [n]: the parent must be a directory, and it
    lists the new name last. *)
Definition create (p : path) (n : node) (m : gmap path node) : error + gmap path node :=
  match m !! List.removelast p with
  | Some (Dir l) => inr (<[p := n]> (<[List.removelast p := Dir (l ++ [List.last p EmptyString])%list]> m))
  | Some (File _) => inl (ENOTDIR p)
  | None => inl (ENOENT p)
  end.

(** The effect of a write on the map. *)
Definition write (p : path) (content : string) (m : gmap path node) : error + gmap path node :=
  match m !! p with
  | Some (Dir _) => inl (EISDIR p)
  | Some (File _) => inr (<[p := File content]> m)
  | None => create p (File content) m
  end.

(** [mkdir -p]: create, from the working directory down, each missing
    directory of [pre/rest]. *)
Fixpoint mkdirFrom (pre : path) (rest : list string) (m : gmap path node)
  : error + gmap path node :=
  match rest with
  | [] => inr m
  | s :: rest' =>
      let q := (pre ++ [s])%list in
      match m !! q with
      | Some (Dir _) => mkdirFrom q rest' m
      | Some (File _) => inl (match rest' with [] => EEXIST q | _ => ENOTDIR q end)
      | None =>
          match create q (Dir []) m with
          | inl e => inl e
          | inr m' => mkdirFrom q rest' m'
          end
      end
  end.

Definition lift (f : gmap path node → error + gmap path node) : M unit :=
  λ w, match f (fs w) with
       | inl e => Throw e w
       | inr m => Ok tt (setFs w m)
       end.

Definition existsSync (p : path) : M bool :=
  λ w, Ok (bool_decide (is_Some (fs w !! p))) w.

(** [fs.readFileSync(p, 'utf8')] *)
Definition readFileSync (p : path) : M string :=
  λ w, match fs w !! p with
       | Some (File c) => Ok c w
       | Some (Dir _) => Throw (EISDIR p) w
       | None => Throw (ENOENT p) w
       end.

(** [fs.readdirSync(p)] *)
Definition readdirSync (p : path) : M (list string) :=
  λ w, match fs w !! p with
       | Some (Dir l) => Ok l w
       | Some (File _) => Throw (ENOTDIR p) w
       | None => Throw (ENOENT p) w
       end.

Definition isDir (m : gmap path node) (p : path) : bool :=
  match m !! p with
  | Some (Dir _) => true
  | _ => false
  end.

(** [fs.readdirSync(p, { withFileTypes: true })] *)
Definition readdirSyncWithFileTypes (p : path) : M (list Dirent) :=
  λ w, match fs w !! p with
       | Some (Dir l) => Ok (map (λ n, mkDirent n (isDir (fs w) (p ++ [n])%list)) l) w
       | Some (File _) => Throw (ENOTDIR p) w
       | None => Throw (ENOENT p) w
       end.

Definition writeFileSync (p : path) (content : string) : M unit :=
  lift (write p content).

(** [fs.mkdirSync(p, { recursive: true })] *)
Definition mkdirSync (p : path) : M unit :=
  lift (mkdirFrom [] p).

(** [fs.copyFileSync(src, dest)].  Where it throws the map is left as it
    was: Node may by then have removed a destination it had opened, but
    the script runs nothing after a throw. *)
Definition copyFileSync (src dest : path) : M unit :=
  λ w, match fs w !! src with
       | Some (File c) => writeFileSync dest c w
       | Some (Dir _) => Throw (EISDIR src) w
       | None => Throw (ENOENT src) w
       end.

End Fs.

(** [list.forEach(body)] where the body updates a local variable of the
    enclosing function: the variable is threaded through. *)
Fixpoint forEachAcc {A S : Type} (l : list A) (body : S → A → M S) (s : S) : M S :=
  match l with
  | [] => mret s
  | a :: l' => s' ← body s a; forEachAcc l' body s'
  end.

(** [list.forEach(body)] *)
Fixpoint forEach {A : Type} (l : list A) (body : A → M unit) : M unit :=
  match l with
  | [] => mret tt
  | a :: l' => body a;; forEach l' body
  end.

(** ** build.js *)

Module config.
Definition componentsDir : path := ["components"].
Definition coreStylesDir : path := ["core"; "styles"].
Definition coreScriptsDir : path := ["core"; "scripts"].
Definition buildDir : path := ["build"].
Definition templateFile : path := ["index-template.html"].
End config.

(** The four regular expressions of [updateAssetPaths] and their
    replacement texts. *)
Module Re.
Definition quotes : list ascii := ["'"%char; Str.dquote].

(** The global pattern for [src=] followed by a double quote and
    [core/assets/images/]. *)
Definition srcImages : JS.RegExp :=
  JS.lit ("src=" +:+ String Str.dquote "core/assets/images/").
(** The same for [href=]. *)
Definition hrefImages : JS.RegExp :=
  JS.lit ("href=" +:+ String Str.dquote "core/assets/images/").
(** The global pattern for [url(], then at most one quote of either
    kind, then [core/assets/images/]. *)
Definition urlImages : JS.RegExp :=
  (JS.lit "url(" ++ [JS.OptSet quotes] ++ JS.lit "core/assets/images/")%list.
(** The same for [core/assets/fonts/]. *)
Definition urlFonts : JS.RegExp :=
  (JS.lit "url(" ++ [JS.OptSet quotes] ++ JS.lit "core/assets/fonts/")%list.

Definition srcBuild : string := "src=" +:+ String Str.dquote "build/assets/images/".
Definition hrefBuild : string := "href=" +:+ String Str.dquote "build/assets/images/".
Definition urlBuildImages : string := "url('build/assets/images/".
Definition urlBuildFonts : string := "url('build/assets/fonts/".
End Re.

(** [String.prototype.toUpperCase] and [toLowerCase]: the script only
    needs them to be functions. *)
Class CaseMapping : Type := {
  toUpperCase : string → string;
  toLowerCase : string → string
}.

Section Build.

Context {caseMapping : CaseMapping}.

(** The directory names under the components root, in listing order: the
    expression of lines 26-28, 71-73 and 111-113. *)
Definition componentDirs : M (list string) :=
  dirents ← Fs.readdirSyncWithFileTypes config.componentsDir;
  mret (map name (List.filter isDirectory dirents)).

Definition placeholderOf (componentName : string) : string :=
  "<!-- " +:+ toUpperCase componentName +:+ " -->".

Definition componentFile (componentName extension : string) : path :=
  path.join config.componentsDir
    [componentName; toLowerCase componentName +:+ extension].

(** The body of the loop of [buildHTML] (lines 31-40); [template] is the
    variable it assigns to. *)
Definition insertComponent (template componentName : string) : M string :=
  let htmlFile := componentFile componentName ".html" in
  b ← Fs.existsSync htmlFile;
  if b : bool then
    componentHtml ← Fs.readFileSync htmlFile;
    let placeholder := placeholderOf componentName in
    mret (JS.replace template placeholder componentHtml)
  else mret template.

Definition buildHTML : M unit :=
  console.log "Building HTML...";;
  template ← Fs.readFileSync config.templateFile;
  componentDirs ← componentDirs;
  template ← forEachAcc componentDirs insertComponent template;
  Fs.writeFileSync (path.join config.buildDir ["index.html"]) template;;
  console.log "HTML build complete.".

Definition coreStyles : list string :=
  ["variables.css"; "reset.css"; "typography.css"; "layout.css"; "utilities.css"].

Definition coreScripts : list string := ["utils.js"; "main.js"].

(** The body of the loops over the core lists (lines 63-68 and 103-108):
    the same in [buildCSS] and [buildJS] but for the directory. *)
Definition appendCore (dir : path) (combined file : string) : M string :=
  let filePath := path.join dir [file] in
  b ← Fs.existsSync filePath;
  if b : bool then
    text ← Fs.readFileSync filePath;
    mret (combined +:+ text +:+ Str.newline)
  else mret combined.

(** The body of the loops over the components (lines 76-83 and 116-123):
    [extension] and [label] are [.css] and [Styles] in [buildCSS], [.js]
    and [Script] in [buildJS]. *)
Definition appendComponent (extension label : string) (combined componentName : string)
  : M string :=
  let file := componentFile componentName extension in
  b ← Fs.existsSync file;
  if b : bool then
    let combined :=
      combined +:+ "/* " +:+ componentName +:+ " Component " +:+ label +:+ " */" +:+ Str.newline in
    text ← Fs.readFileSync file;
    mret (combined +:+ text +:+ Str.newline)
  else mret combined.

Definition buildCSS : M unit :=
  console.log "Building CSS...";;
  let combinedCSS := EmptyString in
  combinedCSS ← forEachAcc coreStyles (appendCore config.coreStylesDir) combinedCSS;
  componentDirs ← componentDirs;
  combinedCSS ← forEachAcc componentDirs (appendComponent ".css" "Styles") combinedCSS;
  Fs.writeFileSync (path.join config.buildDir ["styles.css"]) combinedCSS;;
  console.log "CSS build complete.".

Definition buildJS : M unit :=
  console.log "Building JavaScript...";;
  let combinedJS := EmptyString in
  combinedJS ← forEachAcc coreScripts (appendCore config.coreScriptsDir) combinedJS;
  componentDirs ← componentDirs;
  combinedJS ← forEachAcc componentDirs (appendComponent ".js" "Script") combinedJS;
  Fs.writeFileSync (path.join config.buildDir ["scripts.js"]) combinedJS;;
  console.log "JavaScript build complete.".

(** One of the two blocks of [copyAssets] (lines 141-155 for the images,
    158-172 for the fonts). *)
Definition copyDir (sourceDir buildAssetsDir : path) (kind : string) : M unit :=
  b ← Fs.existsSync sourceDir;
  if b : bool then
    let destDir := path.join buildAssetsDir [kind] in
    b' ← Fs.existsSync destDir;
    (if negb b' then Fs.mkdirSync destDir else mret tt);;
    files ← Fs.readdirSync sourceDir;
    forEach files (λ file,
      Fs.copyFileSync (path.join sourceDir [file]) (path.join destDir [file]))
  else mret tt.

Definition imagesDir : path := ["core"; "assets"; "images"].
Definition fontsDir : path := ["core"; "assets"; "fonts"].

Definition copyAssets : M unit :=
  console.log "Copying assets...";;
  let buildAssetsDir := path.join config.buildDir ["assets"] in
  b ← Fs.existsSync buildAssetsDir;
  (if negb b then Fs.mkdirSync buildAssetsDir else mret tt);;
  copyDir imagesDir buildAssetsDir "images";;
  copyDir fontsDir buildAssetsDir "fonts";;
  console.log "Assets copied.".

(** The two rewrites of [updateAssetPaths] on the text (lines 187-188 and
    199-200). *)
Definition rewriteHtml (htmlContent : string) : string :=
  let htmlContent := JS.replaceAll htmlContent Re.srcImages Re.srcBuild in
  JS.replaceAll htmlContent Re.hrefImages Re.hrefBuild.

Definition rewriteCss (cssContent : string) : string :=
  let cssContent := JS.replaceAll cssContent Re.urlImages Re.urlBuildImages in
  JS.replaceAll cssContent Re.urlFonts Re.urlBuildFonts.

(** One of the two blocks of [updateAssetPaths] (lines 183-191 and
    195-203). *)
Definition rewriteFile (file : path) (rewrite : string → string) : M unit :=
  b ← Fs.existsSync file;
  if b : bool then
    content ← Fs.readFileSync file;
    Fs.writeFileSync file (rewrite content)
  else mret tt.

Definition updateAssetPaths : M unit :=
  console.log "Updating asset paths...";;
  rewriteFile (path.join config.buildDir ["index.html"]) rewriteHtml;;
  rewriteFile (path.join config.buildDir ["styles.css"]) rewriteCss;;
  console.log "Asset paths updated.".

Definition runBuild : M unit :=
  console.log "Starting build process...";;
  buildHTML;;
  buildCSS;;
  buildJS;;
  copyAssets;;
  updateAssetPaths;;
  console.log "Build completed successfully!".

(** The script as a whole: the build directory is made when the module
    loads (lines 14-16), then the build runs (line 222). *)
Definition main : M unit :=
  b ← Fs.existsSync config.buildDir;
  (if negb b then Fs.mkdirSync config.buildDir else mret tt);;
  runBuild.

End Build.

(** ** Case mapping on ASCII letters, for running the script on examples *)

Module AsciiCase.

Definition upperChar (c : ascii) : ascii :=
  let n := nat_of_ascii c in
  if (97 <=? n)%nat && (n <=? 122)%nat then ascii_of_nat (n - 32) else c.

Definition lowerChar (c : ascii) : ascii :=
  let n := nat_of_ascii c in
  if (65 <=? n)%nat && (n <=? 90)%nat then ascii_of_nat (n + 32) else c.

Fixpoint mapChars (f : ascii → ascii) (s : string) : string :=
  match s with
  | EmptyString => EmptyString
  | String c s' => String (f c) (mapChars f s')
  end.

Definition ascii : CaseMapping :=
  {| toUpperCase := mapChars upperChar; toLowerCase := mapChars lowerChar |}.

End AsciiCase.

(** The node at [p] once a call has returned ([None] too when it threw). *)
Definition nodeAfter {A : Type} (o : Outcome A) (p : path) : option node :=
  match o with
  | Ok _ w => fs w !! p
  | Throw _ _ => None
  end.

(** ** The builders as functions of the file map

    The three builders only read until their one write.  What they read
    and compute is spelled out here without the monad; the facts below
    prove the script equal to it. *)

Module Pure.

Definition run {A : Type} (r : error + A) : M A :=
  λ w, match r with
       | inl e => Throw e w
       | inr a => Ok a w
       end.

(** A round of a loop over optional files: [file a] is read if it
    exists. *)
Definition step {A S : Type} (file : A → path) (g : S → A → string → S)
    (m : gmap path node) (s : S) (a : A) : error + S :=
  match m !! file a with
  | None => inr s
  | Some (File text) => inr (g s a text)
  | Some (Dir _) => inl (EISDIR (file a))
  end.

Fixpoint fold {A S : Type} (file : A → path) (g : S → A → string → S)
    (m : gmap path node) (l : list A) (s : S) : error + S :=
  match l with
  | [] => inr s
  | a :: l' =>
      match step file g m s a with
      | inl e => inl e
      | inr s' => fold file g m l' s'
      end
  end.

Definition listing (m : gmap path node) (dir : path) : error + list string :=
  match m !! dir with
  | Some (Dir l) => inr l
  | Some (File _) => inl (ENOTDIR dir)
  | None => inl (ENOENT dir)
  end.

(** The entries of [dir] that are directories. *)
Definition dirNames (m : gmap path node) (dir : path) (entries : list string) : list string :=
  List.filter (λ n, Fs.isDir m (dir ++ [n])%list) entries.

Definition componentNames (m : gmap path node) : error + list string :=
  match listing m config.componentsDir with
  | inl e => inl e
  | inr entries => inr (dirNames m config.componentsDir entries)
  end.

Section WithCase.
Context {caseMapping : CaseMapping}.

Definition insertHtml (template componentName componentHtml : string) : string :=
  JS.replace template (placeholderOf componentName) componentHtml.

Definition htmlLoop (m : gmap path node) (names : list string) (template : string)
  : error + string :=
  fold (λ n, componentFile n ".html") insertHtml m names template.

Definition htmlText (m : gmap path node) : error + string :=
  match m !! config.templateFile with
  | Some (File template) =>
      match componentNames m with
      | inl e => inl e
      | inr names => htmlLoop m names template
      end
  | Some (Dir _) => inl (EISDIR config.templateFile)
  | None => inl (ENOENT config.templateFile)
  end.

Definition addCore (combined _file text : string) : string :=
  combined +:+ text +:+ Str.newline.

Definition addComponent (label combined componentName text : string) : string :=
  (combined +:+ "/* " +:+ componentName +:+ " Component " +:+ label +:+ " */" +:+ Str.newline)
  +:+ text +:+ Str.newline.

Definition coreLoop (dir : path) (m : gmap path node) (files : list string)
    (combined : string) : error + string :=
  fold (λ f, path.join dir [f]) addCore m files combined.

Definition componentLoop (extension label : string) (m : gmap path node)
    (names : list string) (combined : string) : error + string :=
  fold (λ n, componentFile n extension) (addComponent label) m names combined.

Definition bundleText (dir : path) (files : list string) (extension label : string)
    (m : gmap path node) : error + string :=
  match coreLoop dir m files EmptyString with
  | inl e => inl e
  | inr core =>
      match componentNames m with
      | inl e => inl e
      | inr names => componentLoop extension label m names core
      end
  end.

Definition cssText : gmap path node → error + string :=
  bundleText config.coreStylesDir coreStyles ".css" "Styles".

Definition jsText : gmap path node → error + string :=
  bundleText config.coreScriptsDir coreScripts ".js" "Script".

End WithCase.

(** A builder: a line on the console, the text from the files, the write
    to [out], a second line. *)
Definition emit (start finish : string) (text : gmap path node → error + string)
    (out : path) : M unit :=
  λ w,
    let w1 := mkWorld (fs w) (console w ++ [start])%list in
    match text (fs w) with
    | inl e => Throw e w1
    | inr t =>
        match Fs.write out t (fs w) with
        | inl e => Throw e w1
        | inr m' => Ok tt (mkWorld m' ((console w ++ [start]) ++ [finish])%list)
        end
    end.

End Pure.

(** ** The merged style sheet and script in the specification's words *)

Module Bundle.
Section WithCase.
Context {caseMapping : CaseMapping}.

(** The text of the regular file at [p], if there is one. *)
Definition fileText (m : gmap path node) (p : path) : option string :=
  match m !! p with
  | Some (File text) => Some text
  | _ => None
  end.

Definition banner (label componentName : string) : string :=
  "/* " +:+ componentName +:+ " Component " +:+ label +:+ " */" +:+ Str.newline.

(** Each core file that exists, followed by a newline. *)
Fixpoint coreSection (m : gmap path node) (dir : path) (files : list string) : string :=
  match files with
  | [] => EmptyString
  | f :: files' =>
      match fileText m (path.join dir [f]) with
      | Some text => text +:+ Str.newline +:+ coreSection m dir files'
      | None => coreSection m dir files'
      end
  end.

(** For each component whose file exists: the banner, the file's
    contents and a newline. *)
Fixpoint componentSection (m : gmap path node) (extension label : string)
    (names : list string) : string :=
  match names with
  | [] => EmptyString
  | n :: names' =>
      match fileText m (componentFile n extension) with
      | Some text =>
          banner label n +:+ text +:+ Str.newline
          +:+ componentSection m extension label names'
      | None => componentSection m extension label names'
      end
  end.

Definition merged (dir : path) (files : list string) (extension label : string)
    (m : gmap path node) (entries : list string) : string :=
  coreSection m dir files
  +:+ componentSection m extension label (Pure.dirNames m config.componentsDir entries).

(** No directory stands at any of [ps]: each is a regular file or
    absent. *)
Definition allRegular (m : gmap path node) (ps : list path) : bool :=
  forallb (λ p, negb (Fs.isDir m p)) ps.

(** The paths a bundle builder may read, and the one it writes. *)
Definition paths (dir : path) (files : list string) (extension out : string)
    (entries : list string) : list path :=
  (map (λ f, path.join dir [f]) files
   ++ map (λ n, componentFile n extension) entries
   ++ [path.join config.buildDir [out]])%list.

Definition cssPaths : list string → list path :=
  paths config.coreStylesDir coreStyles ".css" "styles.css".
Definition jsPaths : list string → list path :=
  paths config.coreScriptsDir coreScripts ".js" "scripts.js".
Definition htmlPaths (entries : list string) : list path :=
  (map (λ n, componentFile n ".html") entries
   ++ [path.join config.buildDir ["index.html"]])%list.

End WithCase.
End Bundle.

(** ** What a call may change *)

Module Frame.

Definition isFile (m : gmap path node) (p : path) : bool :=
  match m !! p with
  | Some (File _) => true
  | _ => false
  end.

(** Below the working directory and not in the build directory: where
    the script's inputs are. *)
Definition outside (p : path) : bool :=
  match p with
  | [] => false
  | s :: _ => negb (String.eqb s "build")
  end.

(** From [m] to [m'] files were written only at paths of [W] and
    directories made or listed anew only at paths of [D]; no node was
    removed, no file became a directory and no directory a file. *)
Definition change (W D : path → Prop) (m m' : gmap path node) : Prop :=
  ∀ q, m' !! q = m !! q
       ∨ (W q ∧ isFile m' q = true ∧ Fs.isDir m q = false)
       ∨ (D q ∧ Fs.isDir m' q = true ∧ isFile m q = false).

(** The same of a call started in [w], if it returns. *)
Definition changes {A : Type} (W D : path → Prop) (c : M A) (w : World) : Prop :=
  match c w with
  | Ok _ w' => change W D (fs w) (fs w')
  | Throw _ _ => True
  end.

Definition inBuild (q : path) : Prop := outside q = false.

(** Two maps with the same inputs. *)
Definition agree (m m' : gmap path node) : Prop :=
  ∀ q, outside q = true → m' !! q = m !! q.

(** The directories [mkdirFrom pre rest] may touch. *)
Definition between (pre : path) (rest : list string) (q : path) : Prop :=
  ∃ k, q = pre ++ take k rest.

End Frame.

(** ** Placeholders *)

Module Placeholder.

(** The marker for [NAME], as a template spells it. *)
Definition marker (NAME : string) : string := "<!-- " +:+ NAME +:+ " -->".

(** A name without angle brackets. *)
Definition plain (s : string) : bool := negb (Str.mem "<" s) && negb (Str.mem ">" s).

Section WithCase.
Context {caseMapping : CaseMapping}.

(** Every component of [names] that has an HTML file has a plain
    upper-case name other than [NAME]. *)
Definition apart (m : gmap path node) (names : list string) (NAME : string) : bool :=
  forallb (λ n, negb (Frame.isFile m (componentFile n ".html"))
                || (negb (String.eqb (toUpperCase n) NAME) && plain (toUpperCase n)))
    names.

End WithCase.
End Placeholder.

(** ** The asset copier in the specification's words *)

Module Assets.

Definition buildAssetsDir : path := path.join config.buildDir ["assets"].

(** The names [readdirSync] returns for [dir] ([[]] if there is no such
    directory). *)
Definition listed (m : gmap path node) (dir : path) : list string :=
  match m !! dir with
  | Some (Dir l) => l
  | _ => []
  end.

(** Where [copyAssets] puts the copy of [file] of the given kind. *)
Definition destination (kind file : string) : path :=
  path.join buildAssetsDir [kind; file].

(** The destinations of all the entries of the two source directories. *)
Definition destinations (m : gmap path node) : list path :=
  map (destination "images") (listed m imagesDir)
  ++ map (destination "fonts") (listed m fontsDir).

(** A source directory all of whose entries are regular files, none of
    them to be copied onto a directory; or no source directory. *)
Definition sourceReady (m : gmap path node) (dir : path) (kind : string) : bool :=
  match m !! dir with
  | None => true
  | Some (File _) => false
  | Some (Dir l) =>
      forallb (λ f, Frame.isFile m (path.join dir [f])
                    && negb (Fs.isDir m (destination kind f))) l
  end.

(** Nothing in the build directory is in the way: [build] is a
    directory and no regular file stands where [assets], [images] or
    [fonts] belong. *)
Definition buildReady (m : gmap path node) : bool :=
  Fs.isDir m config.buildDir
  && negb (Frame.isFile m buildAssetsDir)
  && negb (Frame.isFile m (path.join buildAssetsDir ["images"]))
  && negb (Frame.isFile m (path.join buildAssetsDir ["fonts"])).

Definition ready (m : gmap path node) : bool :=
  buildReady m && sourceReady m imagesDir "images" && sourceReady m fontsDir "fonts".

(** Every entry of the source directory is a regular file in [m] and
    its destination holds the same text in [m']. *)
Definition copied (m m' : gmap path node) (dir : path) (kind : string) : Prop :=
  ∀ f, f ∈ listed m dir →
    ∃ c, m !! path.join dir [f] = Some (File c) ∧ m' !! destination kind f = Some (File c).

(** If there is a source there is a destination for it. *)
Definition settled (m : gmap path node) (dir : path) (kind : string) : Prop :=
  is_Some (m !! dir) →
  (∃ l, m !! dir = Some (Dir l)) ∧ is_Some (m !! path.join buildAssetsDir [kind]).

(** The loop of a block of [copyAssets]. *)
Definition copyEach (sourceDir destDir : path) (files : list string) : M unit :=
  forEach files (λ file,
    Fs.copyFileSync (path.join sourceDir [file]) (path.join destDir [file])).

End Assets.

(** ** The path rewriter in the specification's words *)

Module Spec.

(** Substitution of literal texts: from the left, each occurrence of one
    of [patterns] (none of them empty) becomes [replacement]; [skip]
    counts the characters of the current occurrence still to be dropped. *)
Fixpoint substituteFrom (patterns : list string) (replacement : string)
    (skip : nat) (s : string) : string :=
  match s with
  | EmptyString => EmptyString
  | String c s' =>
      match skip with
      | S k => substituteFrom patterns replacement k s'
      | O =>
          match List.find (λ p, Str.startsWith p s) patterns with
          | Some p =>
              replacement +:+ substituteFrom patterns replacement (String.length p - 1) s'
          | None => String c (substituteFrom patterns replacement 0 s')
          end
      end
  end.

Definition substituteAll (patterns : list string) (replacement s : string) : string :=
  substituteFrom patterns replacement 0 s.

Definition srcImages : string := "src=" +:+ String Str.dquote "core/assets/images/".
Definition hrefImages : string := "href=" +:+ String Str.dquote "core/assets/images/".

(** The one literal the specification lists for a style sheet... *)
Definition urlQuoted (prefix : string) : string := "url('" +:+ prefix.

(** ... and the three texts the script's pattern stands for: the prefix
    after [url(] and a single quote, a double quote, or no quote. *)
Definition urlForms (prefix : string) : list string :=
  ["url('" +:+ prefix; "url(" +:+ String Str.dquote prefix; "url(" +:+ prefix].

(** The two of them the specification does not list: the prefix after a
    double quote, or no quote. *)
Definition urlOthers (prefix : string) : list string :=
  ["url(" +:+ String Str.dquote prefix; "url(" +:+ prefix].

End Spec.

(** What a call threw, if it did. *)
Definition thrown {A : Type} (o : Outcome A) : option error :=
  match o with
  | Ok _ _ => None
  | Throw e _ => Some e
  end.

(** The world a call leaves. *)
Definition worldAfter {A : Type} (o : Outcome A) : World :=
  match o with
  | Ok _ w => w
  | Throw _ w => w
  end.

(** ** Example sites *)

Module Example.

Definition componentNodes (c : string * list (string * string)) : list (path * node) :=
  (["components"; c.1], Dir (map fst c.2))
  :: map (λ f : string * string, (["components"; c.1; f.1], File f.2)) c.2.

(** A working directory with a template, component folders (each a
    name and its files) and an empty build directory; the nodes of
    [extra] come on top. *)
Definition site (template : string) (components : list (string * list (string * string)))
    (extra : list (path * node)) : World :=
  mkWorld
    (list_to_map
       (extra ++
        ([], Dir ["index-template.html"; "components"; "core"; "build"])
        :: (["index-template.html"], File template)
        :: (["components"], Dir (map fst components))
        :: (["build"], Dir [])
        :: flat_map componentNodes components)%list)
    [].

Definition buildHTML := @buildHTML AsciiCase.ascii.
Definition buildCSS := @buildCSS AsciiCase.ascii.
Definition buildJS := @buildJS AsciiCase.ascii.
Definition runBuild := @runBuild AsciiCase.ascii.
Definition main := @main AsciiCase.ascii.
Definition insertComponent := @insertComponent AsciiCase.ascii.
Definition appendComponent := @appendComponent AsciiCase.ascii.
Definition componentFile := @componentFile AsciiCase.ascii.

Definition indexHtml : path := ["build"; "index.html"].
Definition stylesCss : path := ["build"; "styles.css"].
Definition scriptsJs : path := ["build"; "scripts.js"].


(** A component whose markup contains a dollar sign followed by an
    ampersand. *)
Definition price : World :=
  site "<p><!-- PRICE --></p>" [("Price", [("price.html", "<b>US$&nbsp;5</b>")])] [].

(** Two components and a core style sheet and script; the footer has no
    markup and no script, and most core files are absent. *)
Definition bundle : World :=
  site "<body><!-- HEADER --><!-- FOOTER --></body>"
    [("Header", [("header.html", "<nav></nav>"); ("header.css", "nav{}"); ("header.js", "h()")]);
     ("Footer", [("footer.css", "footer{}")])]
    [(["core"], Dir ["styles"; "scripts"; "assets"]);
     (["core"; "styles"], Dir ["reset.css"; "layout.css"]);
     (["core"; "styles"; "reset.css"], File "*{}");
     (["core"; "styles"; "layout.css"], File "body{}");
     (["core"; "scripts"], Dir ["main.js"]);
     (["core"; "scripts"; "main.js"], File "init()");
     (["core"; "assets"], Dir ["images"]);
     (["core"; "assets"; "images"], Dir ["logo.png"]);
     (["core"; "assets"; "images"; "logo.png"], File "logo")].

(** A working directory without a template. *)
Definition noTemplate : World :=
  mkWorld (list_to_map [([], Dir ["components"]); (["components"], Dir [])]) [].

(** The markup of [A] is the placeholder of [B], which the template
    does not contain; the same site with and without [B]. *)
Definition chain : World :=
  site "<!-- A -->" [("A", [("a.html", "<!-- B -->")]); ("B", [("b.html", "hi")])] [].
Definition chainWithoutB : World :=
  site "<!-- A -->" [("A", [("a.html", "<!-- B -->")])] [].

(** A folder whose name ends like a comment: its placeholder contains
    the placeholder of [A], for which there is no component. *)
Definition nested : World :=
  site "<!-- A --> -->" [("A -->", [("a -->.html", "x")])] [].

(** A site with assets: the build directory already holds an older
    copy of the logo and a picture that has no source any more. *)
Definition assetNodes : list (path * node) :=
  [(["core"], Dir ["assets"]);
   (["core"; "assets"], Dir ["images"; "fonts"]);
   (["core"; "assets"; "images"], Dir ["logo.png"; "hero.jpg"]);
   (["core"; "assets"; "images"; "logo.png"], File "new logo");
   (["core"; "assets"; "images"; "hero.jpg"], File "hero");
   (["core"; "assets"; "fonts"], Dir ["text.woff"]);
   (["core"; "assets"; "fonts"; "text.woff"], File "font");
   (["build"], Dir ["assets"]);
   (["build"; "assets"], Dir ["images"]);
   (["build"; "assets"; "images"], Dir ["logo.png"; "gone.png"]);
   (["build"; "assets"; "images"; "logo.png"], File "old logo");
   (["build"; "assets"; "images"; "gone.png"], File "gone")].

Definition assets : World := site "<p></p>" [] assetNodes.

(** The same with a folder among the images. *)
Definition subfolder : World :=
  site "<p></p>" []
    ((["core"; "assets"; "images"], Dir ["logo.png"; "icons"; "hero.jpg"])
     :: (["core"; "assets"; "images"; "icons"], Dir [])
     :: assetNodes).

(** A build directory with a merged page and style sheet to rewrite. *)
Definition imgTag : string :=
  "<img src=" +:+ String Str.dquote ("core/assets/images/logo.png" +:+ String Str.dquote ">").
Definition linkTag : string :=
  "<link href=" +:+ String Str.dquote ("core/assets/images/icon.png" +:+ String Str.dquote ">").
Definition fontFace : string :=
  "@font-face{src:url('core/assets/fonts/text.woff')}".

Definition merged : World :=
  site "" []
    [(["build"], Dir ["index.html"; "styles.css"]);
     (["build"; "index.html"], File (imgTag +:+ linkTag));
     (["build"; "styles.css"], File fontFace)].

(** The same with paths that only look like the prefixes. *)
Definition lookalike : World :=
  site "" []
    [(["build"], Dir ["index.html"; "styles.css"]);
     (["build"; "index.html"], File "<p>src=core/assets/images-extra/x.png</p>");
     (["build"; "styles.css"], File "a{background:URL(core/assets/images/x.png)}")].

(** A placeholder without a component and a component without a
    placeholder. *)
Definition unmatched : World :=
  site "<!-- HEADER --><!-- SIDEBAR -->"
    [("Header", [("header.html", "<nav></nav>")]); ("Footer", [("footer.html", "<hr>")])]
    [].

(** A build directory whose style sheet has an unquoted [url(]. *)
Definition unquoted : World :=
  site "" []
    [(["build"], Dir ["styles.css"]);
     (["build"; "styles.css"], File "a{background:url(core/assets/images/x.png)}")].

End Example.


(** ** Texts that cannot overlap *)

Module Overlap.

(** [v] and [r] differ at a place both have: neither is the start of a
    text the other starts. *)
Fixpoint clash (v r : string) : bool :=
  match v, r with
  | String a v', String b r' => if Ascii.eqb a b then clash v' r' else true
  | _, _ => false
  end.

(** The texts [s] ends with, the empty one apart. *)
Fixpoint suffixes (s : string) : list string :=
  match s with
  | EmptyString => []
  | String _ s' => s :: suffixes s'
  end.

(** No occurrence of [q] can share a character with an occurrence of
    [r]: no end of [q] can run into [r] and [q] cannot start inside [r]. *)
Definition separate (q r : string) : bool :=
  forallb (λ v, clash v r) (suffixes q) && forallb (clash q) (suffixes r).

End Overlap.

(** ** What a call leaves alone, whatever its outcome *)

Module Footprint.

(** The call started in [w] returns or throws with the node at every
    path outside [W] as it was. *)
Definition only {A : Type} (W : path → Prop) (c : M A) (w : World) : Prop :=
  ∀ q, ¬ W q → fs (worldAfter (c w)) !! q = fs w !! q.

(** A builder's own: its output and the listing of the build directory. *)
Definition output (out : string) (q : path) : Prop :=
  q = path.join config.buildDir [out] ∨ q = config.buildDir.

(** The copier's own: [build/assets] and what is below it, and the
    directories above it, which it makes if it has to. *)
Definition assets (q : path) : Prop :=
  q = [] ∨ q = config.buildDir ∨ ∃ r, q = Assets.buildAssetsDir ++ r.

(** The rewriter's own: the merged page and the merged style sheet. *)
Definition rewritten (q : path) : Prop :=
  q = path.join config.buildDir ["index.html"]
  ∨ q = path.join config.buildDir ["styles.css"].

(** The call writes no line on the console. *)
Definition silent {A : Type} (c : M A) (w : World) : Prop :=
  console (worldAfter (c w)) = console w.

End Footprint.

(** ** The merged page *)

Module Page.
Section WithCase.
Context {caseMapping : CaseMapping}.

(** The template after a round for each of [names]: a component whose
    HTML file exists is put in by [replace], the others are passed over. *)
Fixpoint merged (m : gmap path node) (names : list string) (template : string) : string :=
  match names with
  | [] => template
  | n :: names' =>
      match Bundle.fileText m (componentFile n ".html") with
      | Some componentHtml =>
          merged m names' (JS.replace template (placeholderOf n) componentHtml)
      | None => merged m names' template
      end
  end.

End WithCase.
End Page.

(** ** Dollar signs in a replacement text *)

Module Dollar.

(** The characters that make a pattern of the dollar sign before them. *)
Definition patternChars : list ascii := ["$"; "&"; "`"; "'"]%char.

(** [r] contains a dollar sign followed by one of them. *)
Fixpoint special (r : string) : bool :=
  match r with
  | String c r' =>
      match r' with
      | String d _ =>
          (Ascii.eqb c "$" && bool_decide (d ∈ patternChars)) || special r'
      | EmptyString => false
      end
  | EmptyString => false
  end.

End Dollar.

(** ** A template as text and slots *)

Module Slots.

(** A template read as a sequence of texts and placeholders. *)
Inductive item : Type :=
| Text (text : string)
| Slot (NAME : string).

(** The template the items spell. *)
Fixpoint text (items : list item) : string :=
  match items with
  | [] => EmptyString
  | Text t :: items' => t +:+ text items'
  | Slot NAME :: items' => Placeholder.marker NAME +:+ text items'
  end.





Section WithCase.
Context {caseMapping : CaseMapping}.

(** The markup for the placeholder [NAME]: the HTML file of the first
    of [names] that has one and whose upper-case name is [NAME]. *)
Fixpoint markup (m : gmap path node) (names : list string) (NAME : string) : option string :=
  match names with
  | [] => None
  | n :: names' =>
      match Bundle.fileText m (componentFile n ".html") with
      | Some componentHtml =>
          if String.eqb (toUpperCase n) NAME then Some componentHtml
          else markup m names' NAME
      | None => markup m names' NAME
      end
  end.






End WithCase.
End Slots.

(** ** The order of the components *)

Module Order.
Section WithCase.
Context {caseMapping : CaseMapping}.

(** The upper-case names of the components that have an HTML file. *)
Definition withHtml (m : gmap path node) (names : list string) : list string :=
  map toUpperCase
    (List.filter (λ n, Frame.isFile m (componentFile n ".html")) names).


End WithCase.
End Order.

(** ** The console of a run *)

Module Log.

(** The lines of a run that returns. *)
Definition lines : list string :=
  ["Starting build process...";
   "Building HTML..."; "HTML build complete.";
   "Building CSS..."; "CSS build complete.";
   "Building JavaScript..."; "JavaScript build complete.";
   "Copying assets..."; "Assets copied.";
   "Updating asset paths..."; "Asset paths updated.";
   "Build completed successfully!"].

(** A stage writes its first line, and its second if it returns. *)
Definition stage {A : Type} (start finish : string) (c : M A) (w : World) : Prop :=
  match c w with
  | Ok _ w' => console w' = console w ++ [start; finish]
  | Throw _ w' => console w' = console w ++ [start]
  end.

End Log.

(** ** More example sites *)

Module Site.

(** A working directory before its first build: there is no build
    directory. *)
Definition fresh : World :=
  mkWorld
    (list_to_map
       [([], Dir ["index-template.html"; "components"; "core"]);
        (["index-template.html"], File "<body><!-- HEADER --></body>");
        (["components"], Dir ["Header"]);
        (["components"; "Header"], Dir ["header.html"; "header.css"]);
        (["components"; "Header"; "header.html"], File "<nav></nav>");
        (["components"; "Header"; "header.css"], File "nav{}");
        (["core"], Dir ["assets"]);
        (["core"; "assets"], Dir ["images"]);
        (["core"; "assets"; "images"], Dir ["logo.png"]);
        (["core"; "assets"; "images"; "logo.png"], File "logo")])
    [].

(** A working directory without a components directory. *)
Definition noComponents : World :=
  mkWorld
    (list_to_map
       [([], Dir ["index-template.html"; "build"]);
        (["index-template.html"], File "<p></p>");
        (["build"], Dir [])])
    [].

(** A folder where the style sheet of a component is looked for. *)
Definition folderForFile : World :=
  Example.site "<!-- HEADER -->"
    [("Header", [("header.html", "<nav></nav>"); ("header.css", "nav{}")])]
    [(["components"; "Header"; "header.css"], Dir [])].

(** A regular file by the name of the build directory. *)
Definition buildIsFile : World :=
  Example.site "<p></p>" [] [(["build"], File "notes")].

(** A stray file in the components directory, and the same site with
    the directory listed without it. *)
Definition stray : World :=
  Example.site "<!-- HEADER -->"
    [("Header", [("header.html", "<nav></nav>"); ("header.css", "nav{}")])]
    [(["components"], Dir ["README.md"; "Header"]);
     (["components"; "README.md"], File "notes")].

Definition tidy : World :=
  setFs stray (<[config.componentsDir := Dir ["Header"]]> (fs stray)).

(** The site [Example.bundle] with a page of an earlier build in its
    build directory. *)
Definition stale : World :=
  setFs Example.bundle
    (<[Example.indexHtml := File "<body>an older page</body>"]>
       (<[config.buildDir := Dir ["index.html"]]> (fs Example.bundle))).

(** A page with two components, listed in the other order, and a
    comment between their placeholders. *)
Definition page : World :=
  Example.site "<main><!-- HERO --><!-- intro --><!-- ABOUT --></main>"
    [("About", [("about.html", "<p>about</p>")]); ("Hero", [("hero.html", "<h1>hero</h1>")])]
    [].


End Site.


(** * Facts about the text operations *)

#[local] Arguments String.append !_ _.
#[local] Arguments Ascii.eqb : simpl never.

Module StrFacts.
Import Str.

Lemma app_nil_r s : s +:+ EmptyString = s.
Proof. induction s as [|c s IH]; simpl; [done | by f_equal]. Qed.

Lemma app_assoc s1 s2 s3 : (s1 +:+ s2) +:+ s3 = s1 +:+ s2 +:+ s3.
Proof. induction s1 as [|c s1 IH]; simpl; [done | by f_equal]. Qed.

Lemma length_app s1 s2 :
  String.length (s1 +:+ s2) = String.length s1 + String.length s2.
Proof. induction s1 as [|c s1 IH]; simpl; [done | by f_equal]. Qed.

Lemma startsWith_app p r : startsWith p (p +:+ r) = true.
Proof. induction p as [|c p IH]; simpl; [done | by rewrite Ascii.eqb_refl]. Qed.

Lemma startsWith_inv p s : startsWith p s = true → ∃ r, s = p +:+ r.
Proof.
  revert s. induction p as [|c p IH]; intros s H; simpl in *.
  - by exists s.
  - destruct s as [|d s]; [done|].
    destruct (Ascii.eqb_spec c d) as [->|]; [|done].
    destruct (IH _ H) as [r ->]. by exists r.
Qed.

Lemma startsWith_iff p s : startsWith p s = true ↔ ∃ r, s = p +:+ r.
Proof.
  split; [apply startsWith_inv | intros [r ->]; apply startsWith_app].
Qed.

Lemma drop_length_app p r : drop (String.length p) (p +:+ r) = r.
Proof. induction p as [|c p IH]; simpl; [by destruct r | done]. Qed.

(** [splitFirst] finds an occurrence... *)
Lemma splitFirst_sound p s a b :
  splitFirst p s = Some (a, b) → s = a +:+ p +:+ b.
Proof.
  revert a b. induction s as [|c s IH]; intros a b; simpl.
  - destruct (startsWith p EmptyString) eqn:E; [|done].
    intros [= <- <-]. by destruct p.
  - destruct (startsWith p (String c s)) eqn:E.
    + intros [= <- <-]. destruct (startsWith_inv _ _ E) as [r Hr].
      rewrite Hr, drop_length_app. done.
    + destruct (splitFirst p s) as [[a' b']|]; [|done].
      intros [= <- <-]. simpl. f_equal. by apply IH.
Qed.


Lemma splitFirst_includes p s :
  includes p s = bool_decide (is_Some (splitFirst p s)).
Proof.
  induction s as [|c s IH]; simpl.
  - by destruct (startsWith p EmptyString).
  - destruct (startsWith p (String c s)); [done|].
    rewrite IH. by destruct (splitFirst p s) as [[??]|].
Qed.



Lemma splitFirst_absent p s : includes p s = false → splitFirst p s = None.
Proof.
  rewrite splitFirst_includes. intros H%bool_decide_eq_false.
  destruct (splitFirst p s); [|done]. by destruct H.
Qed.

(** A replacement text without [$] is inserted as it is. *)
Lemma getSubstitution_plain matched preceding following r :
  mem "$" r = false → JS.getSubstitution matched preceding following r = r.
Proof.
  induction r as [|c r IH]; simpl; [done|].
  rewrite (Ascii.eqb_sym c).
  destruct (Ascii.eqb "$" c); [done|]. intros H. by rewrite IH.
Qed.

Lemma replace_absent s p r : includes p s = false → JS.replace s p r = s.
Proof. intros H. unfold JS.replace. by rewrite splitFirst_absent. Qed.

(** *** Occurrences that cannot overlap *)

Lemma mem_app c s t : mem c (s +:+ t) = mem c s || mem c t.
Proof.
  induction s as [|d s IH]; simpl; [done|]. by destruct (Ascii.eqb c d).
Qed.

Lemma app_eq_app a b c d :
  a +:+ b = c +:+ d →
  ∃ e, (a = c +:+ e ∧ d = e +:+ b) ∨ (c = a +:+ e ∧ b = e +:+ d).
Proof.
  revert c. induction a as [|x a IH]; intros c H; simpl in H.
  - exists c. right. by rewrite H.
  - destruct c as [|y c]; simpl in H.
    + exists (String x a). left. by rewrite <- H.
    + injection H as -> H. destruct (IH _ H) as [e [[-> ->]|[-> ->]]];
        exists e; [by left|by right].
Qed.

Lemma app_inv_tail s t u : s +:+ u = t +:+ u → s = t.
Proof.
  revert t. induction s as [|c s IH]; intros t H.
  - destruct t as [|d t]; [done|]. apply (f_equal String.length) in H.
    simpl in H. rewrite length_app in H. lia.
  - destruct t as [|d t].
    + apply (f_equal String.length) in H. simpl in H. rewrite length_app in H. lia.
    + simpl in H. injection H as -> H. f_equal. by apply IH.
Qed.

(** A character absent from [rest] is found in [String c rest] at the
    head only. *)
Lemma head_unique c rest e e' :
  mem c rest = false → String c rest = e +:+ String c e' → e = EmptyString.
Proof.
  intros Hrest H. destruct e as [|d e]; [done|]. simpl in H. injection H as _ H.
  rewrite H, mem_app in Hrest. simpl in Hrest. rewrite Ascii.eqb_refl in Hrest.
  by destruct (mem c e).
Qed.

(** Two texts that end at their only [c] and start at the same place
    are the same. *)
Lemma tail_unique c u v r r' :
  mem c u = false → mem c v = false →
  u +:+ String c r = v +:+ String c r' → u = v.
Proof.
  revert v. induction u as [|x u IH]; intros v Hu Hv H.
  - destruct v as [|y v]; [done|]. simpl in H, Hv. injection H as <- _.
    by rewrite Ascii.eqb_refl in Hv.
  - destruct v as [|y v]; simpl in H, Hu, Hv.
    + injection H as -> _. by rewrite Ascii.eqb_refl in Hu.
    + injection H as -> H. f_equal.
      destruct (Ascii.eqb c y); [done|]. by apply IH.
Qed.

End StrFacts.

Example replace_first : JS.replace "a-b-c" "-" "+" = "a+b-c".
Proof. reflexivity. Qed.

Example replace_dollar : JS.replace "a-b-c" "-" "[$&$$$`$'$1]" = "a[-$ab-c$1]b-c".
Proof. reflexivity. Qed.

Example replaceAll_lit : JS.replaceAll "a-b-c" (JS.lit "-") "+" = "a+b+c".
Proof. reflexivity. Qed.

Example replaceAll_opt :
  JS.replaceAll "url(x) url('x) url(''x)" (JS.lit "url(" ++ [JS.OptSet ["'"%char]] ++ JS.lit "x")%list "U"
  = "U) U) url(''x)".
Proof. reflexivity. Qed.


(** * The path rewriter *)

Module RewriteFacts.
Import Str StrFacts.

Lemma matchHere_lit p s :
  JS.matchHere (JS.lit p) s = if startsWith p s then Some (String.length p) else None.
Proof.
  revert s. induction p as [|c p IH]; intros s; simpl; [done|].
  destruct s as [|d s]; [done|].
  destruct (Ascii.eqb c d); [|done]. rewrite IH. by destruct (startsWith p s).
Qed.

Lemma startsWith_nil p : startsWith p EmptyString = true → p = EmptyString.
Proof. by destruct p. Qed.

(** The pattern [a], an optional [q1] or [q2], [b] matches what one of
    the three literal texts matches, when [b] starts with neither quote. *)
Lemma matchHere_opt a q1 q2 b0 b s :
  b0 ≠ q1 → b0 ≠ q2 →
  JS.matchHere (JS.lit a ++ JS.OptSet [q1; q2] :: JS.lit (String b0 b))%list s
  = String.length <$>
      List.find (λ p, startsWith p s)
        [a +:+ String q1 (String b0 b); a +:+ String q2 (String b0 b); a +:+ String b0 b].
Proof.
  intros H1 H2. revert s. induction a as [|c a IH]; intros s.
  - cbn [JS.lit app JS.matchHere String.append List.find].
    destruct s as [|d s]; [by cbn|].
    cbn [startsWith]. rewrite !matchHere_lit.
    apply Ascii.eqb_neq in H1, H2.
    destruct (Ascii.eqb_spec q1 d) as [->|Hq1].
    + rewrite bool_decide_eq_true_2 by (by left). rewrite H1.
      destruct s as [|e s]; [by destruct (Ascii.eqb q2 d)|].
      rewrite ?matchHere_lit.
      by destruct (Ascii.eqb b0 e), (startsWith b s), (Ascii.eqb q2 d).
    + destruct (Ascii.eqb_spec q2 d) as [->|Hq2].
      * rewrite bool_decide_eq_true_2 by (right; by left). rewrite H2.
        destruct s as [|e s]; [done|].
        rewrite ?matchHere_lit.
        by destruct (Ascii.eqb b0 e), (startsWith b s).
      * rewrite bool_decide_eq_false_2
          by (intros [?|[?|?%elem_of_nil]%elem_of_cons]%elem_of_cons; congruence).
        by destruct (Ascii.eqb b0 d), (startsWith b s).
  - cbn [JS.lit app JS.matchHere String.append List.find].
    destruct s as [|d s]; [done|]. cbn [startsWith].
    destruct (Ascii.eqb c d); [|done].
    rewrite IH. cbn [List.find].
    by repeat (destruct (startsWith _ s)).
Qed.

Definition nonEmpty (p : string) : Prop := p ≠ EmptyString.

(** A global replace by a pattern that matches what the literal texts
    [patterns] match, with a replacement text free of dollar signs, is
    the substitution of those texts. *)
Lemma replaceAllFrom_substitute re patterns replacement :
  (∀ s, JS.matchHere re s = String.length <$> List.find (λ p, startsWith p s) patterns) →
  Forall nonEmpty patterns →
  mem "$" replacement = false →
  ∀ s preceding skip,
    JS.replaceAllFrom re replacement preceding skip s
    = Spec.substituteFrom patterns replacement skip s.
Proof.
  intros Hre Hne Hplain.
  assert (Hfind : ∀ s p, List.find (λ p, startsWith p s) patterns = Some p →
                         ∃ n, String.length p = S n).
  { intros s p [Hin _]%find_some.
    rewrite Forall_forall in Hne. apply list_elem_of_In, Hne in Hin.
    destruct p as [|c p]; [done|]. by exists (String.length p). }
  induction s as [|c s IH]; intros preceding skip.
  - cbn [JS.replaceAllFrom Spec.substituteFrom]. destruct skip; [|done].
    rewrite Hre. destruct (List.find _ _) as [p|] eqn:E; [|done].
    apply find_some in E as [Hin E].
    apply startsWith_nil in E as ->.
    rewrite Forall_forall in Hne. by apply list_elem_of_In, Hne in Hin.
  - cbn [JS.replaceAllFrom Spec.substituteFrom]. destruct skip as [|k]; [|apply IH].
    rewrite Hre. destruct (List.find _ _) as [p|] eqn:E; cbn [fmap option_fmap option_map].
    + destruct (Hfind _ _ E) as [n Hn]. rewrite Hn.
      rewrite getSubstitution_plain by done. rewrite IH.
      by replace (S n - 1) with n by lia.
    + by rewrite IH.
Qed.

(** Text in which none of the literal texts occurs is left as it is. *)
Lemma substituteFrom_absent patterns replacement s :
  Forall (λ p, includes p s = false) patterns →
  Spec.substituteFrom patterns replacement 0 s = s.
Proof.
  induction s as [|c s IH]; intros H; cbn [Spec.substituteFrom]; [done|].
  destruct (List.find _ _) as [p|] eqn:E.
  - apply find_some in E as [Hin E]. rewrite Forall_forall in H.
    apply list_elem_of_In, H in Hin. cbn [includes] in Hin. by rewrite E in Hin.
  - rewrite IH; [done|]. eapply Forall_impl; [exact H|].
    intros p Hp. cbn [includes] in Hp. by destruct (startsWith p (String c s)).
Qed.

Lemma rewriteHtml_substitute s :
  rewriteHtml s
  = Spec.substituteAll [Spec.hrefImages] Re.hrefBuild
      (Spec.substituteAll [Spec.srcImages] Re.srcBuild s).
Proof.
  unfold rewriteHtml, JS.replaceAll, Spec.substituteAll.
  rewrite (replaceAllFrom_substitute Re.srcImages [Spec.srcImages]);
    [|intros s'; unfold Re.srcImages; rewrite matchHere_lit; cbn [List.find];
      by destruct (startsWith _ s')
     |by repeat constructor|done].
  rewrite (replaceAllFrom_substitute Re.hrefImages [Spec.hrefImages]);
    [done|intros s'; unfold Re.hrefImages; rewrite matchHere_lit; cbn [List.find];
      by destruct (startsWith _ s')
     |by repeat constructor|done].
Qed.

Lemma rewriteCss_substitute s :
  rewriteCss s
  = Spec.substituteAll (Spec.urlForms "core/assets/fonts/") Re.urlBuildFonts
      (Spec.substituteAll (Spec.urlForms "core/assets/images/") Re.urlBuildImages s).
Proof.
  unfold rewriteCss, JS.replaceAll, Spec.substituteAll.
  rewrite (replaceAllFrom_substitute Re.urlImages (Spec.urlForms "core/assets/images/"));
    [|intros s'; by apply (matchHere_opt "url(")|by repeat constructor|done].
  rewrite (replaceAllFrom_substitute Re.urlFonts (Spec.urlForms "core/assets/fonts/"));
    [done|intros s'; by apply (matchHere_opt "url(")|by repeat constructor|done].
Qed.

End RewriteFacts.

(** * Placeholders with plain names *)

Module PlaceholderFacts.
Import Str StrFacts Placeholder.

Lemma plain_inv s : plain s = true → mem "<" s = false ∧ mem ">" s = false.
Proof.
  unfold plain. intros [H1 H2]%andb_prop. by apply negb_true_iff in H1, H2.
Qed.

(** A marker starts at its only [<]... *)
Lemma marker_head N :
  plain N = true →
  ∃ rest, marker N = String "<" rest ∧ mem "<" rest = false.
Proof.
  intros [H _]%plain_inv. exists ("!-- " +:+ N +:+ " -->"). split; [done|].
  simpl. rewrite mem_app, H. done.
Qed.

(** ... and ends at its only [>]. *)
Lemma marker_tail N :
  plain N = true →
  ∃ body, marker N = body +:+ ">" ∧ mem ">" body = false.
Proof.
  intros [_ H]%plain_inv. exists ("<!-- " +:+ N +:+ " --"). split.
  - unfold marker. by rewrite !app_assoc.
  - simpl. rewrite mem_app, H. done.
Qed.

Lemma marker_inj N N' : marker N = marker N' → N = N'.
Proof. unfold marker. intros H%String.app_inj. by apply app_inv_tail in H. Qed.

(** Two markers at the same place are the same marker. *)
Lemma marker_same_start P X post b :
  plain P = true → plain X = true →
  marker P +:+ post = marker X +:+ b → P = X.
Proof.
  intros (pb & Ep & Hp)%marker_tail (xb & Ex & Hx)%marker_tail H.
  rewrite Ep, Ex, !app_assoc in H. simpl in H.
  apply marker_inj. rewrite Ep, Ex. f_equal. by eapply tail_unique.
Qed.

(** No marker starts inside another. *)
Lemma marker_not_inside P X e e' r t :
  plain P = true → plain X = true →
  marker X = e +:+ e' → e' ≠ EmptyString → marker P +:+ r = e' +:+ t →
  e = EmptyString.
Proof.
  intros (pr & Ep & _)%marker_head (xr & Ex & Hx)%marker_head He Hne H.
  destruct e' as [|c e']; [done|]. rewrite Ep in H. simpl in H. injection H as <- _.
  rewrite Ex in He. by eapply head_unique.
Qed.

(** An occurrence of the marker of [P] in a text around the marker of
    [X] lies before that marker or after it. *)
Lemma marker_apart P X pre post a b :
  plain P = true → plain X = true → P ≠ X →
  pre +:+ marker P +:+ post = a +:+ marker X +:+ b →
  (∃ e, a = pre +:+ marker P +:+ e ∧ post = e +:+ marker X +:+ b)
  ∨ (∃ e, pre = a +:+ marker X +:+ e ∧ b = e +:+ marker P +:+ post).
Proof.
  intros HP HX Hne H.
  apply app_eq_app in H as [e [[-> H]|[-> H]]].
  - (* the marker of [P] starts at or after the start of the marker of [X] *)
    apply app_eq_app in H as [e' [[Hx H]|[-> ->]]].
    + destruct e' as [|c e'].
      * rewrite app_nil_r in Hx. subst e. simpl in H. subst b.
        right. exists EmptyString. by rewrite app_nil_r.
      * exfalso. apply Hne.
        assert (e = EmptyString) as ->
          by by eapply (marker_not_inside P X e (String c e')).
        simpl in Hx. rewrite <- Hx in H. by eapply marker_same_start.
    + right. exists e'. by rewrite ?app_assoc.
  - (* the marker of [X] starts at or after the start of the marker of [P] *)
    apply app_eq_app in H as [e' [[Hp H]|[-> ->]]].
    + destruct e' as [|c e'].
      * rewrite app_nil_r in Hp. subst e. simpl in H. subst post.
        left. exists EmptyString. by rewrite app_nil_r.
      * exfalso. apply Hne.
        assert (e = EmptyString) as ->
          by by eapply (marker_not_inside X P e (String c e')).
        simpl in Hp. rewrite <- Hp in H. symmetry. by eapply marker_same_start.
    + left. exists e'. by rewrite ?app_assoc.
Qed.

(** A replacement of the marker of [P] keeps the marker of [X]. *)
Lemma replace_keeps P X r a b :
  plain P = true → plain X = true → P ≠ X →
  ∃ a' b', JS.replace (a +:+ marker X +:+ b) (marker P) r = a' +:+ marker X +:+ b'.
Proof.
  intros HP HX Hne. unfold JS.replace.
  destruct (splitFirst (marker P) (a +:+ marker X +:+ b)) as [[pre post]|] eqn:E;
    [|by exists a, b].
  apply splitFirst_sound in E. symmetry in E.
  remember (JS.getSubstitution (marker P) pre post r) as sub eqn:Hsub. clear Hsub.
  destruct (marker_apart P X pre post a b HP HX Hne E) as [[e [Ha Hpost]]|[e [Hpre Hb]]].
  - exists (pre +:+ sub +:+ e), b. rewrite Hpost. by rewrite !app_assoc.
  - exists a, (e +:+ sub +:+ post). rewrite Hpre. by rewrite !app_assoc.
Qed.

End PlaceholderFacts.

(** * Facts about the file system *)

Module FsFacts.

Lemma write_lookup p t m m' : Fs.write p t m = inr m' → m' !! p = Some (File t).
Proof.
  unfold Fs.write, Fs.create. destruct (m !! p) as [[c|l]|].
  - intros [= <-]. apply lookup_insert_eq.
  - done.
  - destruct (m !! removelast p) as [[c|l]|]; [done| |done].
    intros [= <-]. apply lookup_insert_eq.
Qed.

(** A write changes no other file. *)
Lemma write_file_other p t m m' q c :
  Fs.write p t m = inr m' → q ≠ p → m !! q = Some (File c) → m' !! q = Some (File c).
Proof.
  unfold Fs.write, Fs.create. intros H Hp Hq. destruct (m !! p) as [[c'|l]|].
  - injection H as <-. by rewrite lookup_insert_ne.
  - done.
  - destruct (m !! removelast p) as [[c'|l]|] eqn:E; [done| |done].
    injection H as <-. rewrite lookup_insert_ne by done.
    rewrite lookup_insert_ne; [done|]. intros <-. congruence.
Qed.

Lemma write_existing p t m c :
  m !! p = Some (File c) → Fs.write p t m = inr (<[p := File t]> m).
Proof. intros H. unfold Fs.write. by rewrite H. Qed.

(** A write into an existing directory succeeds unless a directory
    stands at the target. *)
Lemma write_ok dir file t m l :
  m !! dir = Some (Dir l) → Fs.isDir m (path.join dir [file]) = false →
  ∃ m', Fs.write (path.join dir [file]) t m = inr m'.
Proof.
  unfold Fs.write, Fs.create, Fs.isDir, path.join. intros Hdir Hfile.
  destruct (m !! (dir ++ [file])) as [[c|l']|]; [by eexists|done|].
  rewrite removelast_last, Hdir. by eexists.
Qed.

End FsFacts.

(** * What the calls change *)

Module FrameFacts.
Import Frame.

Lemma change_refl W D m : change W D m m.
Proof. intros q. by left. Qed.

(** Nothing changed, or the call threw. *)
Ltac unchanged := first [exact I | apply change_refl].

Lemma change_mono (W W' D D' : path → Prop) m m' :
  (∀ q, W q → W' q) → (∀ q, D q → D' q) → change W D m m' → change W' D' m m'.
Proof.
  intros HW HD H q. destruct (H q) as [?|[(? & ? & ?)|(? & ? & ?)]]; eauto 10.
Qed.

Lemma change_trans W D m1 m2 m3 :
  change W D m1 m2 → change W D m2 m3 → change W D m1 m3.
Proof.
  intros H12 H23 q. specialize (H12 q). specialize (H23 q).
  unfold isFile, Fs.isDir in *.
  destruct H23 as [E23|[(HW & F3 & D2)|(HD & D3 & F2)]].
  - rewrite E23. destruct H12 as [E12|[(HW & F2 & D1)|(HD & D2 & F1)]]; eauto 10.
  - destruct H12 as [E12|[(_ & F2 & D1)|(_ & D2' & F1)]].
    + rewrite <- E12. eauto 10.
    + eauto 10.
    + by rewrite D2 in D2'.
  - destruct H12 as [E12|[(_ & F2' & D1)|(_ & D2 & F1)]].
    + rewrite <- E12. eauto 10.
    + by rewrite F2 in F2'.
    + eauto 10.
Qed.

(** What a change leaves alone. *)
Lemma change_other W D m m' q : change W D m m' → ¬ W q → ¬ D q → m' !! q = m !! q.
Proof. intros H ? ?. by destruct (H q) as [?|[(? & ? & ?)|(? & ? & ?)]]. Qed.

Lemma change_file W D m m' q c :
  change W D m m' → ¬ W q → m !! q = Some (File c) → m' !! q = Some (File c).
Proof.
  intros H ? Hq. destruct (H q) as [E|[(? & ? & ?)|(? & ? & F)]]; [by rewrite E|done|].
  unfold isFile in F. by rewrite Hq in F.
Qed.

Lemma change_isDir W D m m' q :
  change W D m m' → Fs.isDir m q = true → Fs.isDir m' q = true.
Proof.
  intros H Hq. destruct (H q) as [E|[(? & ? & F)|(? & ? & ?)]]; [|congruence|done].
  unfold Fs.isDir in *. by rewrite E.
Qed.

Lemma change_not_isDir W D m m' q :
  change W D m m' → ¬ D q → Fs.isDir m q = false → Fs.isDir m' q = false.
Proof.
  intros H ? Hq. destruct (H q) as [E|[(? & F & ?)|(? & ? & ?)]]; [| |done].
  - unfold Fs.isDir in *. by rewrite E.
  - unfold isFile, Fs.isDir in *. by destruct (m' !! q) as [[?|?]|].
Qed.

Lemma change_not_isFile W D m m' q :
  change W D m m' → ¬ W q → isFile m q = false → isFile m' q = false.
Proof.
  intros H ? Hq. destruct (H q) as [E|[(? & ? & ?)|(? & F & ?)]]; [|done|].
  - unfold isFile in *. by rewrite E.
  - unfold isFile, Fs.isDir in *. by destruct (m' !! q) as [[?|?]|].
Qed.

Lemma change_is_Some W D m m' q : change W D m m' → is_Some (m !! q) → is_Some (m' !! q).
Proof.
  intros H Hq.
  destruct (H q) as [E|[(? & F & ?)|(? & F & ?)]]; [by rewrite E| |];
    unfold isFile, Fs.isDir in F; by destruct (m' !! q) as [[?|?]|].
Qed.

(** The primitives. *)
Lemma change_create_file p t m m' :
  Fs.create p (File t) m = inr m' → m !! p = None →
  change (λ q, q = p) (λ q, q = removelast p) m m'.
Proof.
  unfold Fs.create. intros H Hp q.
  destruct (m !! removelast p) as [[c|l]|] eqn:E; [done| |done]. injection H as <-.
  unfold isFile, Fs.isDir.
  destruct (decide (q = p)) as [->|Hq].
  - rewrite lookup_insert_eq, Hp. eauto 10.
  - rewrite lookup_insert_ne by done.
    destruct (decide (q = removelast p)) as [->|Hq'].
    + rewrite lookup_insert_eq, E. eauto 10.
    + rewrite lookup_insert_ne by done. by left.
Qed.

Lemma change_create_dir p l m m' :
  Fs.create p (Dir l) m = inr m' → m !! p = None →
  change (λ _, False) (λ q, q = p ∨ q = removelast p) m m'.
Proof.
  unfold Fs.create. intros H Hp q.
  destruct (m !! removelast p) as [[c|l']|] eqn:E; [done| |done]. injection H as <-.
  unfold isFile, Fs.isDir.
  destruct (decide (q = p)) as [->|Hq].
  - rewrite lookup_insert_eq, Hp. eauto 10.
  - rewrite lookup_insert_ne by done.
    destruct (decide (q = removelast p)) as [->|Hq'].
    + rewrite lookup_insert_eq, E. eauto 10.
    + rewrite lookup_insert_ne by done. by left.
Qed.

Lemma change_write p t m m' :
  Fs.write p t m = inr m' → change (λ q, q = p) (λ q, q = removelast p) m m'.
Proof.
  unfold Fs.write. intros H. destruct (m !! p) as [[c|l]|] eqn:E; [|done|].
  - injection H as <-. intros q. unfold isFile, Fs.isDir.
    destruct (decide (q = p)) as [->|Hq].
    + rewrite lookup_insert_eq, E. eauto.
    + rewrite lookup_insert_ne by done. by left.
  - by eapply change_create_file.
Qed.

Lemma change_mkdirFrom rest : ∀ pre m m',
  Fs.mkdirFrom pre rest m = inr m' → change (λ _, False) (between pre rest) m m'.
Proof.
  induction rest as [|s rest IH]; intros pre m m' H; cbn [Fs.mkdirFrom] in H.
  - injection H as <-. unchanged.
  - assert (Hsub : ∀ q, between (pre ++ [s]) rest q → between pre (s :: rest) q).
    { intros q [k ->]. exists (S k). by rewrite <- app_assoc. }
    destruct (m !! (pre ++ [s])) as [[c|l]|] eqn:E; [done| |].
    + eapply (change_mono (λ _, False) _ (between (pre ++ [s]) rest));
        [done|exact Hsub|]. by apply IH.
    + destruct (Fs.create (pre ++ [s]) (Dir []) m) as [e|m1] eqn:E1; [done|].
      eapply change_trans.
      * eapply (change_mono (λ _, False)); [done| |exact (change_create_dir _ _ _ _ E1 E)].
        intros q [->| ->].
        -- by exists 1.
        -- exists 0. by rewrite removelast_last, app_nil_r.
      * eapply (change_mono (λ _, False) _ (between (pre ++ [s]) rest));
          [done|exact Hsub|]. by apply IH.
Qed.

Lemma inBuild_parent q : inBuild q → inBuild (removelast q).
Proof.
  unfold inBuild. destruct q as [|s [|s' q]]; [done..|]. by cbn [removelast outside].
Qed.

Lemma inBuild_between rest q : between [] ("build" :: rest) q → inBuild q.
Proof. intros [[|k] ->]; done. Qed.

Lemma change_agree m m' : change inBuild inBuild m m' → agree m m'.
Proof.
  intros H q Hq. apply (change_other _ _ _ _ _ H); unfold inBuild; congruence.
Qed.

(** Calls. *)
Lemma changes_bind {A B : Type} W D (c : M A) (f : A → M B) w :
  changes W D c w → (∀ a w1, c w = Ok a w1 → changes W D (f a) w1) →
  changes W D (c ≫= f) w.
Proof.
  unfold changes, mbind, M_bind. intros Hc Hf.
  destruct (c w) as [a w1|e w1]; [|done]. specialize (Hf a w1 eq_refl).
  destruct (f a w1); [by eapply change_trans|done].
Qed.

Lemma changes_mono {A : Type} (W W' D D' : path → Prop) (c : M A) w :
  (∀ q, W q → W' q) → (∀ q, D q → D' q) → changes W D c w → changes W' D' c w.
Proof. unfold changes. intros ? ? H. destruct (c w); [by eapply change_mono|done]. Qed.

Lemma changes_lift W D f w :
  (∀ m', f (fs w) = inr m' → change W D (fs w) m') → changes W D (Fs.lift f) w.
Proof.
  unfold changes, Fs.lift. intros H. destruct (f (fs w)); [unchanged|by apply H].
Qed.

Lemma changes_writeFileSync p t w :
  changes (λ q, q = p) (λ q, q = removelast p) (Fs.writeFileSync p t) w.
Proof. apply changes_lift. intros m'. apply change_write. Qed.

Lemma changes_mkdirSync p w : changes (λ _, False) (between [] p) (Fs.mkdirSync p) w.
Proof. apply changes_lift. intros m'. apply change_mkdirFrom. Qed.

Lemma changes_copyFileSync src dest w :
  changes (λ q, q = dest) (λ q, q = removelast dest) (Fs.copyFileSync src dest) w.
Proof.
  unfold changes, Fs.copyFileSync.
  destruct (fs w !! src) as [[c|?]|]; [|unchanged..].
  apply changes_writeFileSync.
Qed.

Lemma changes_forEach {A : Type} W D (l : list A) (body : A → M unit) w :
  (∀ a w1, a ∈ l → changes W D (body a) w1) → changes W D (forEach l body) w.
Proof.
  revert w. induction l as [|a l IH]; intros w H; [unchanged|].
  cbn [forEach]. apply changes_bind; [apply H; by left|].
  intros _ w1 _. apply IH. intros; apply H; by right.
Qed.

(** The outcome of a call that changes nothing outside [W] and [D]. *)
Lemma changes_Ok {A : Type} W D (c : M A) w a w' :
  changes W D c w → c w = Ok a w' → change W D (fs w) (fs w').
Proof. unfold changes. intros H E. by rewrite E in H. Qed.

End FrameFacts.

(** * The asset copier *)

Module AssetFacts.
Import Frame FrameFacts Assets.

Section Loop.
Variables sourceDir destDir : path.
Hypothesis source_outside : ∀ f, outside (path.join sourceDir [f]) = true.
Hypothesis dest_inBuild : ∀ f, inBuild (path.join destDir [f]).

Local Abbreviation src f := (path.join sourceDir [f]).
Local Abbreviation dst f := (path.join destDir [f]).

Lemma dest_parent f : removelast (dst f) = destDir.
Proof. apply removelast_last. Qed.

Lemma source_not_dest f g : src f ≠ dst g ∧ src f ≠ destDir.
Proof.
  pose proof (source_outside f) as Hf. pose proof (dest_inBuild g) as Hg.
  split; intros E; rewrite E in Hf; unfold inBuild in *; [congruence|].
  apply inBuild_parent in Hg. rewrite dest_parent in Hg.
  unfold inBuild in Hg. congruence.
Qed.

Lemma copy_eq f w :
  Fs.copyFileSync (src f) (dst f) w
  = match fs w !! src f with
    | Some (File c) =>
        match Fs.write (dst f) c (fs w) with
        | inl e => Throw e w
        | inr m' => Ok tt (setFs w m')
        end
    | Some (Dir _) => Throw (EISDIR (src f)) w
    | None => Throw (ENOENT (src f)) w
    end.
Proof. done. Qed.

(** A write of a copy leaves the sources alone. *)
Lemma write_source f c m m' g :
  Fs.write (dst f) c m = inr m' → m' !! src g = m !! src g.
Proof.
  intros H. apply change_write in H. rewrite dest_parent in H.
  apply (change_other _ _ _ _ _ H); by apply source_not_dest.
Qed.

Lemma dest_inj f g : dst f = dst g → f = g.
Proof. unfold path.join. intros H%app_inv_head. by injection H. Qed.

Lemma dest_not_dir f : dst f ≠ destDir.
Proof.
  unfold path.join. intros H. apply (f_equal length) in H.
  rewrite length_app in H. cbn in H. lia.
Qed.

(** A loop that returns has copied every entry, written files at the
    destinations only and listed them in the destination directory. *)
Lemma copyEach_Ok files : ∀ w w',
  copyEach sourceDir destDir files w = Ok tt w' →
  change (λ q, ∃ f, f ∈ files ∧ q = dst f) (λ q, q = destDir) (fs w) (fs w')
  ∧ ∀ f, f ∈ files →
      ∃ c, fs w !! src f = Some (File c) ∧ fs w' !! dst f = Some (File c).
Proof.
  unfold copyEach. induction files as [|a files IH]; intros w w' H.
  - injection H as <-. split; [unchanged|]. by intros f ?%elem_of_nil.
  - cbn [forEach] in H. unfold mbind, M_bind in H. rewrite copy_eq in H.
    destruct (fs w !! src a) as [[c|?]|] eqn:Ea; [|done..].
    destruct (Fs.write (dst a) c (fs w)) as [e|m1] eqn:E1; [done|].
    destruct (IH _ _ H) as [Hch Hcopies]. cbn [fs setFs] in *.
    assert (Hch1 := change_write _ _ _ _ E1). rewrite dest_parent in Hch1.
    split.
    + eapply change_trans; (eapply change_mono; [| |eassumption]); cbn beta.
      * intros q ->. exists a. split; [by left|done].
      * done.
      * intros q (f & Hf & ->). exists f. split; [by right|done].
      * done.
    + intros f Hf. destruct (decide (f ∈ files)) as [Hin|Hnin].
      * destruct (Hcopies f Hin) as (c' & Hs & Hd). exists c'.
        by rewrite <- (write_source _ _ _ _ f E1).
      * apply elem_of_cons in Hf as [->|?]; [|done]. exists c. split; [done|].
        apply (change_file _ _ _ _ _ _ Hch).
        -- intros (g & Hg & ->%dest_inj). done.
        -- by eapply FsFacts.write_lookup.
Qed.

(** The same through the calls of the loop. *)
Lemma copyEach_changes files w :
  changes (λ q, ∃ f, f ∈ files ∧ q = dst f) (λ q, q = destDir)
    (copyEach sourceDir destDir files) w.
Proof.
  apply changes_forEach. intros f w1 Hf.
  eapply changes_mono; [| |apply changes_copyFileSync]; cbn beta.
  - intros q ->. by exists f.
  - intros q ->. apply dest_parent.
Qed.

(** Where every copy is already in place the loop changes nothing. *)
Lemma copyEach_again files : ∀ w,
  (∀ f, f ∈ files →
     ∃ c, fs w !! src f = Some (File c) ∧ fs w !! dst f = Some (File c)) →
  copyEach sourceDir destDir files w = Ok tt w.
Proof.
  unfold copyEach. induction files as [|a files IH]; intros w H; [done|].
  cbn [forEach]. unfold mbind, M_bind. rewrite copy_eq.
  destruct (H a ltac:(by left)) as (c & Hs & Hd). rewrite Hs.
  rewrite (FsFacts.write_existing _ _ _ _ Hd), insert_id by done.
  replace (setFs w (fs w)) with w by by destruct w.
  apply IH. intros f Hf. apply H. by right.
Qed.

(** The loop returns when every entry is a regular file and no
    directory stands at a destination. *)
Lemma copyEach_ok files : ∀ w,
  Fs.isDir (fs w) destDir = true →
  (∀ f, f ∈ files → isFile (fs w) (src f) = true ∧ Fs.isDir (fs w) (dst f) = false) →
  ∃ w', copyEach sourceDir destDir files w = Ok tt w'.
Proof.
  unfold copyEach. induction files as [|a files IH]; intros w Hdir H; [by eexists|].
  cbn [forEach]. unfold mbind, M_bind. rewrite copy_eq.
  destruct (H a ltac:(by left)) as [Hs Hd]. unfold isFile in Hs.
  destruct (fs w !! src a) as [[c|?]|] eqn:Ea; [|done..].
  assert (∃ l, fs w !! destDir = Some (Dir l)) as [l Hl].
  { unfold Fs.isDir in Hdir. destruct (fs w !! destDir) as [[?|l]|]; [done| |done].
    by exists l. }
  destruct (FsFacts.write_ok _ _ c _ _ Hl Hd) as [m1 E1]. rewrite E1.
  assert (Hch1 := change_write _ _ _ _ E1). rewrite dest_parent in Hch1.
  apply IH; cbn [fs setFs].
  - by apply (change_isDir _ _ _ _ _ Hch1).
  - intros f Hf. destruct (H f ltac:(by right)) as [Hs' Hd']. split.
    + unfold isFile. by rewrite (write_source _ _ _ _ f E1).
    + apply (change_not_isDir _ _ _ _ _ Hch1); [apply dest_not_dir|done].
Qed.

(** The loop throws when some entry is not a regular file. *)
Lemma copyEach_throws files f : ∀ w,
  f ∈ files → isFile (fs w) (src f) = false →
  ∃ e w', copyEach sourceDir destDir files w = Throw e w'.
Proof.
  unfold copyEach. induction files as [|a files IH]; intros w Hf H.
  - by apply elem_of_nil in Hf.
  - cbn [forEach]. unfold mbind, M_bind. rewrite copy_eq.
    destruct (fs w !! src a) as [[c|?]|] eqn:Ea; [|by eexists _, _..].
    destruct (Fs.write (dst a) c (fs w)) as [e|m1] eqn:E1; [by eexists _, _|].
    apply IH.
    + apply elem_of_cons in Hf as [->|?]; [|done].
      unfold isFile in H. by rewrite Ea in H.
    + cbn [fs setFs]. unfold isFile. by rewrite (write_source _ _ _ _ f E1).
Qed.

End Loop.

Lemma outside_app p r : outside p = true → outside (p ++ r) = true.
Proof. by destruct p. Qed.

Lemma copyDir_eq sourceDir kind w :
  copyDir sourceDir buildAssetsDir kind w
  = match fs w !! sourceDir with
    | None => Ok tt w
    | Some _ =>
        match (match fs w !! path.join buildAssetsDir [kind] with
               | Some _ => Ok tt w
               | None => Fs.mkdirSync (path.join buildAssetsDir [kind]) w
               end) with
        | Throw e w1 => Throw e w1
        | Ok _ w1 =>
            match fs w1 !! sourceDir with
            | Some (Dir l) => copyEach sourceDir (path.join buildAssetsDir [kind]) l w1
            | Some (File _) => Throw (ENOTDIR sourceDir) w1
            | None => Throw (ENOENT sourceDir) w1
            end
        end
    end.
Proof.
  unfold copyDir. unfold mbind at 1. unfold M_bind at 1. unfold Fs.existsSync at 1.
  destruct (fs w !! sourceDir) as [n|]; [|done]. cbn [bool_decide decide_rel].
  rewrite bool_decide_eq_true_2 by eauto.
  unfold mbind at 1. unfold M_bind at 1. unfold Fs.existsSync at 1.
  unfold mbind at 1. unfold M_bind at 1.
  assert (Hrest : ∀ w1,
    (Fs.readdirSync sourceDir ≫= λ files,
       forEach files (λ file,
         Fs.copyFileSync (path.join sourceDir [file])
           (path.join (path.join buildAssetsDir [kind]) [file]))) w1
    = match fs w1 !! sourceDir with
      | Some (Dir l) => copyEach sourceDir (path.join buildAssetsDir [kind]) l w1
      | Some (File _) => Throw (ENOTDIR sourceDir) w1
      | None => Throw (ENOENT sourceDir) w1
      end).
  { intros w1. unfold mbind, M_bind, Fs.readdirSync.
    by destruct (fs w1 !! sourceDir) as [[?|l]|]. }
  destruct (fs w !! path.join buildAssetsDir [kind]) as [d|].
  - rewrite bool_decide_eq_true_2 by eauto. cbn [negb mret M_ret]. apply Hrest.
  - rewrite bool_decide_eq_false_2 by (by intros [? ?]). cbn [negb].
    destruct (Fs.mkdirSync _ w) as [[] w1|e w1]; [apply Hrest|done].
Qed.

Lemma destination_not_between kind kind' f :
  ¬ between [] (path.join buildAssetsDir [kind]) (destination kind' f).
Proof. intros [[|[|[|[|k]]]] H]; done. Qed.

Lemma destination_kind kind kind' f g :
  destination kind f = destination kind' g → kind = kind' ∧ f = g.
Proof. by intros [= -> ->]. Qed.

Lemma between_inBuild kind q : between [] (path.join buildAssetsDir [kind]) q → inBuild q.
Proof. apply inBuild_between. Qed.

Lemma mkdir_dest_changes kind w :
  changes (λ _, False) (between [] (path.join buildAssetsDir [kind]))
    (Fs.mkdirSync (path.join buildAssetsDir [kind])) w.
Proof. apply changes_mkdirSync. Qed.

(** The step before the loop: the destination directory is there or is
    made. *)
Lemma ensure_dest kind w w1 :
  match fs w !! path.join buildAssetsDir [kind] with
  | Some _ => Ok tt w
  | None => Fs.mkdirSync (path.join buildAssetsDir [kind]) w
  end = Ok tt w1 →
  change (λ _, False) (between [] (path.join buildAssetsDir [kind])) (fs w) (fs w1)
  ∧ is_Some (fs w1 !! path.join buildAssetsDir [kind]).
Proof.
  destruct (fs w !! path.join buildAssetsDir [kind]) as [n|] eqn:E.
  - intros [= <-]. split; [unchanged|]. by rewrite E.
  - intros H. split; [exact (changes_Ok _ _ _ _ _ _ (mkdir_dest_changes kind w) H)|].
    unfold Fs.mkdirSync, Fs.lift in H.
    destruct (Fs.mkdirFrom [] _ (fs w)) as [e|m1] eqn:E1; [done|]. injection H as <-.
    cbn [fs setFs].
    (* the new directory, or one that was there, is a node of [m1] *)
    revert E1. unfold path.join, buildAssetsDir, config.buildDir, path.join.
    cbn [app Fs.mkdirFrom]. unfold Fs.create. cbn [app removelast].
    repeat match goal with
           | |- context [match ?m !! ?k with _ => _ end] =>
               destruct (m !! k) as [[?|?]|] eqn:?; try done
           end;
      intros [= <-]; try (rewrite lookup_insert_eq; eauto);
      try (rewrite lookup_insert_ne by done; rewrite lookup_insert_eq; eauto); eauto.
Qed.

Section Block.
Variables (sourceDir : path) (kind : string).
Hypothesis source_outside : outside sourceDir = true.

Local Abbreviation destDir := (path.join buildAssetsDir [kind]).

Lemma entries_outside f : outside (path.join sourceDir [f]) = true.
Proof. by apply outside_app. Qed.

Lemma entries_inBuild f : inBuild (path.join destDir [f]).
Proof. done. Qed.

Lemma source_kept W m m' :
  change W (between [] destDir) m m' → (∀ q, W q → inBuild q) →
  m' !! sourceDir = m !! sourceDir.
Proof.
  intros H HW. apply (change_other _ _ _ _ _ H).
  - intros Hq%HW. unfold inBuild in Hq. congruence.
  - intros Hq%between_inBuild. unfold inBuild in Hq. congruence.
Qed.

Lemma entry_kept W m m' f :
  change W (between [] destDir) m m' → (∀ q, W q → inBuild q) →
  m' !! path.join sourceDir [f] = m !! path.join sourceDir [f].
Proof.
  intros H HW. pose proof (entries_outside f). apply (change_other _ _ _ _ _ H).
  - intros Hq%HW. unfold inBuild in Hq. congruence.
  - intros Hq%between_inBuild. unfold inBuild in Hq. congruence.
Qed.

(** A block that returns. *)
Lemma copyDir_Ok w w' :
  copyDir sourceDir buildAssetsDir kind w = Ok tt w' →
  change (λ q, ∃ f, f ∈ listed (fs w) sourceDir ∧ q = destination kind f)
    (between [] destDir) (fs w) (fs w')
  ∧ copied (fs w) (fs w') sourceDir kind
  ∧ settled (fs w') sourceDir kind.
Proof.
  intros H. rewrite copyDir_eq in H.
  destruct (fs w !! sourceDir) as [n|] eqn:Es.
  - destruct (match fs w !! destDir with Some _ => _ | None => _ end)
      as [[] w1|e w1] eqn:E1; [|done].
    apply ensure_dest in E1 as [Hch1 Hdest].
    assert (Hs1 : fs w1 !! sourceDir = fs w !! sourceDir)
      by by apply (source_kept _ _ _ Hch1).
    rewrite Hs1, Es in H. destruct n as [c|l]; [done|].
    destruct (copyEach_Ok sourceDir destDir entries_outside entries_inBuild l w1 w' H)
      as [Hch2 Hcopies].
    assert (Hch : change (λ q, ∃ f, f ∈ l ∧ q = destination kind f)
                    (between [] destDir) (fs w) (fs w')).
    { eapply change_trans; (eapply change_mono; [| |eassumption]); cbn beta; try done.
      intros q ->. by exists 3. }
    assert (Hs' : fs w' !! sourceDir = Some (Dir l)).
    { rewrite <- Es. apply (source_kept _ _ _ Hch). by intros q (f & _ & ->). }
    split; [|split].
    + unfold listed. by rewrite Es.
    + unfold copied, listed. rewrite Es. intros f Hf.
      destruct (Hcopies f Hf) as (c & Hc & Hd). exists c. split; [|done].
      by rewrite <- (entry_kept _ _ _ f Hch1).
    + intros _. split; [by exists l|].
      by apply (change_is_Some _ _ _ _ _ Hch2).
  - injection H as <-. split; [unchanged|]. split.
    + unfold copied, listed. rewrite Es. by intros f ?%elem_of_nil.
    + intros [n Hn]. congruence.
Qed.

(** A block that returns has stayed in the build directory. *)
Lemma copyDir_changes w :
  changes inBuild inBuild (copyDir sourceDir buildAssetsDir kind) w.
Proof.
  unfold changes. rewrite copyDir_eq.
  destruct (fs w !! sourceDir) as [n|]; [|unchanged].
  pose proof (mkdir_dest_changes kind w) as Hm. unfold changes in Hm.
  destruct (fs w !! destDir) as [d|].
  - destruct (fs w !! sourceDir) as [[c|l]|]; [unchanged| |unchanged].
    eapply changes_mono; [| |apply (copyEach_changes sourceDir destDir)]; cbn beta.
    + by intros q (f & _ & ->).
    + by intros q ->.
  - destruct (Fs.mkdirSync destDir w) as [[] w1|e w1].
    + assert (Hch1 : change inBuild inBuild (fs w) (fs w1)).
      { eapply change_mono; [| |exact Hm]; [done|apply between_inBuild]. }
      destruct (fs w1 !! sourceDir) as [[c|l]|]; [done| |done].
      pose proof (copyEach_changes sourceDir destDir l w1) as Hl. unfold changes in Hl.
      assert (Hsub : ∀ m m',
                change (λ q, ∃ f, f ∈ l ∧ q = path.join destDir [f])
                  (λ q, q = destDir) m m' → change inBuild inBuild m m').
      { intros. eapply change_mono; [| |eassumption]; cbn beta.
        - by intros q (f & _ & ->).
        - by intros q ->. }
      destruct (copyEach sourceDir destDir l w1); [|done].
      eapply change_trans; [exact Hch1|by apply Hsub].
    + done.
Qed.

(** Where the copies are in place the block changes nothing. *)
Lemma copyDir_again w :
  settled (fs w) sourceDir kind → copied (fs w) (fs w) sourceDir kind →
  copyDir sourceDir buildAssetsDir kind w = Ok tt w.
Proof.
  intros Hset Hcop. rewrite copyDir_eq.
  destruct (fs w !! sourceDir) as [n|] eqn:Es; [|done].
  destruct (Hset ltac:(eauto)) as [[l Hl] [d Hd]]. rewrite Hd, Hl.
  apply copyEach_again. intros f Hf. apply Hcop. unfold listed. by rewrite Hl.
Qed.

(** The block returns when the build directory is ready for it. *)
Lemma copyDir_ok w :
  Fs.isDir (fs w) config.buildDir = true →
  Fs.isDir (fs w) buildAssetsDir = true →
  isFile (fs w) destDir = false →
  sourceReady (fs w) sourceDir kind = true →
  ∃ w', copyDir sourceDir buildAssetsDir kind w = Ok tt w'.
Proof.
  intros Hbuild Hassets Hdest Hready. rewrite copyDir_eq.
  unfold sourceReady in Hready.
  destruct (fs w !! sourceDir) as [[c|l]|] eqn:Es; [done| |by eexists].
  rewrite forallb_forall in Hready.
  assert (∃ w1, match fs w !! destDir with
                | Some _ => Ok tt w
                | None => Fs.mkdirSync destDir w
                end = Ok tt w1 ∧ Fs.isDir (fs w1) destDir = true) as (w1 & E1 & Hd1).
  { unfold isFile in Hdest. destruct (fs w !! destDir) as [[?|?]|] eqn:Ed; [done| |].
    - exists w. split; [done|]. unfold Fs.isDir. by rewrite Ed.
    - unfold Fs.mkdirSync, Fs.lift. revert Hbuild Hassets Ed.
      unfold Fs.isDir, path.join, buildAssetsDir, config.buildDir, path.join.
      cbn [app Fs.mkdirFrom]. unfold Fs.create. cbn [app removelast].
      destruct (fs w !! ["build"]) as [[?|?]|]; [done| |done].
      destruct (fs w !! ["build"; "assets"]) as [[?|?]|]; [done| |done].
      intros _ _ ->. eexists. split; [done|]. cbn [fs setFs].
      by rewrite lookup_insert_eq. }
  rewrite E1. apply ensure_dest in E1 as [Hch1 _].
  rewrite (source_kept _ _ _ Hch1), Es by done.
  apply (copyEach_ok sourceDir destDir entries_outside entries_inBuild); [done|].
  intros f Hf. apply list_elem_of_In, Hready, andb_prop in Hf as [Hf1 Hf2].
  split.
  - unfold isFile. by rewrite (entry_kept _ _ _ f Hch1).
  - apply (change_not_isDir _ _ _ _ _ Hch1); [apply destination_not_between|].
    apply negb_true_iff in Hf2. exact Hf2.
Qed.

(** The block throws when an entry of the source directory is not a
    regular file. *)
Lemma copyDir_throws w l f :
  fs w !! sourceDir = Some (Dir l) → f ∈ l →
  isFile (fs w) (path.join sourceDir [f]) = false →
  ∃ e w', copyDir sourceDir buildAssetsDir kind w = Throw e w'.
Proof.
  intros Es Hf Hnot. rewrite copyDir_eq, Es.
  destruct (match fs w !! destDir with Some _ => _ | None => _ end)
    as [[] w1|e w1] eqn:E1; [|by eexists _, _].
  apply ensure_dest in E1 as [Hch1 _].
  rewrite (source_kept _ _ _ Hch1), Es by done.
  apply (copyEach_throws sourceDir destDir entries_outside entries_inBuild l f); [done|].
  unfold isFile. by rewrite (entry_kept _ _ _ f Hch1).
Qed.

End Block.

(** *** [copyAssets] *)

Lemma copyAssets_eq w :
  copyAssets w
  = let w0 := mkWorld (fs w) (console w ++ ["Copying assets..."]) in
    match (match fs w0 !! buildAssetsDir with
           | Some _ => Ok tt w0
           | None => Fs.mkdirSync buildAssetsDir w0
           end) with
    | Throw e w1 => Throw e w1
    | Ok _ w1 =>
        match copyDir imagesDir buildAssetsDir "images" w1 with
        | Throw e w2 => Throw e w2
        | Ok _ w2 =>
            match copyDir fontsDir buildAssetsDir "fonts" w2 with
            | Throw e w3 => Throw e w3
            | Ok _ w3 => Ok tt (mkWorld (fs w3) (console w3 ++ ["Assets copied."]))
            end
        end
    end.
Proof.
  unfold copyAssets. unfold mbind at 1. unfold M_bind at 1.
  change (console.log "Copying assets..." w)
    with (Ok tt (mkWorld (fs w) (console w ++ ["Copying assets..."]))).
  cbv zeta. cbv beta iota.
  set (w0 := mkWorld (fs w) (console w ++ ["Copying assets..."])).
  unfold mbind at 1. unfold M_bind at 1. unfold Fs.existsSync at 1.
  unfold mbind at 1. unfold M_bind at 1.
  assert (Hrest : ∀ w1,
    (copyDir imagesDir (path.join config.buildDir ["assets"]) "images" ≫= λ _,
       copyDir fontsDir (path.join config.buildDir ["assets"]) "fonts" ≫= λ _,
         console.log "Assets copied.") w1
    = match copyDir imagesDir buildAssetsDir "images" w1 with
      | Throw e w2 => Throw e w2
      | Ok _ w2 =>
          match copyDir fontsDir buildAssetsDir "fonts" w2 with
          | Throw e w3 => Throw e w3
          | Ok _ w3 => Ok tt (mkWorld (fs w3) (console w3 ++ ["Assets copied."]))
          end
      end).
  { intros w1. unfold mbind, M_bind, buildAssetsDir.
    destruct (copyDir imagesDir _ "images" w1) as [[] w2|]; [|done].
    by destruct (copyDir fontsDir _ "fonts" w2) as [[] w3|]. }
  change (path.join config.buildDir ["assets"]) with buildAssetsDir in *.
  destruct (fs w0 !! buildAssetsDir) as [d|].
  - rewrite bool_decide_eq_true_2 by eauto. cbn [negb mret M_ret]. apply Hrest.
  - rewrite bool_decide_eq_false_2 by (by intros [? ?]). cbn [negb].
    destruct (Fs.mkdirSync _ w0) as [[] w1|e w1]; [apply Hrest|done].
Qed.

Lemma between_assets_inBuild q : between [] buildAssetsDir q → inBuild q.
Proof. apply inBuild_between. Qed.

Lemma ensure_assets w w1 :
  match fs w !! buildAssetsDir with
  | Some _ => Ok tt w
  | None => Fs.mkdirSync buildAssetsDir w
  end = Ok tt w1 →
  change (λ _, False) (between [] buildAssetsDir) (fs w) (fs w1)
  ∧ is_Some (fs w1 !! buildAssetsDir).
Proof.
  destruct (fs w !! buildAssetsDir) as [n|] eqn:E.
  - intros [= <-]. split; [unchanged|]. by rewrite E.
  - intros H. split; [exact (changes_Ok _ _ _ _ _ _ (changes_mkdirSync _ w) H)|].
    unfold Fs.mkdirSync, Fs.lift in H.
    destruct (Fs.mkdirFrom [] _ (fs w)) as [e|m1] eqn:E1; [done|]. injection H as <-.
    cbn [fs setFs].
    revert E1. unfold buildAssetsDir, config.buildDir, path.join.
    cbn [app Fs.mkdirFrom]. unfold Fs.create. cbn [app removelast].
    repeat match goal with
           | |- context [match ?m !! ?k with _ => _ end] =>
               destruct (m !! k) as [[?|?]|] eqn:?; try done
           end;
      intros [= <-]; try (rewrite lookup_insert_eq; eauto); eauto.
Qed.

Lemma ensure_assets_ok w :
  Fs.isDir (fs w) config.buildDir = true → isFile (fs w) buildAssetsDir = false →
  ∃ w1, match fs w !! buildAssetsDir with
        | Some _ => Ok tt w
        | None => Fs.mkdirSync buildAssetsDir w
        end = Ok tt w1
        ∧ Fs.isDir (fs w1) buildAssetsDir = true.
Proof.
  intros Hbuild Hassets. unfold isFile in Hassets.
  destruct (fs w !! buildAssetsDir) as [[?|?]|] eqn:Ed; [done| |].
  - exists w. split; [done|]. unfold Fs.isDir. by rewrite Ed.
  - unfold Fs.mkdirSync, Fs.lift. revert Hbuild Ed.
    unfold Fs.isDir, buildAssetsDir, config.buildDir, path.join.
    cbn [app Fs.mkdirFrom]. unfold Fs.create. cbn [app removelast].
    destruct (fs w !! ["build"]) as [[?|?]|]; [done| |done].
    intros _ ->. eexists. split; [done|]. cbn [fs setFs].
    by rewrite lookup_insert_eq.
Qed.

Lemma listed_agree m m' dir :
  m' !! dir = m !! dir → listed m' dir = listed m dir.
Proof. unfold listed. by intros ->. Qed.

(** A run of [copyAssets] that returns has stayed in the build
    directory. *)
Lemma copyAssets_changes w : changes inBuild inBuild copyAssets w.
Proof.
  unfold changes. rewrite copyAssets_eq. cbv zeta.
  set (w0 := mkWorld (fs w) (console w ++ ["Copying assets..."])).
  change (fs w) with (fs w0).
  assert (H1 : changes inBuild inBuild
                 (λ w0, match fs w0 !! buildAssetsDir with
                        | Some _ => Ok tt w0
                        | None => Fs.mkdirSync buildAssetsDir w0
                        end) w0).
  { unfold changes. destruct (fs w0 !! buildAssetsDir); [unchanged|].
    eapply (changes_mono (λ _, False)); [done|apply between_assets_inBuild|].
    apply changes_mkdirSync. }
  unfold changes in H1.
  destruct (match fs w0 !! buildAssetsDir with Some _ => _ | None => _ end)
    as [[] w1|e w1]; [|done].
  pose proof (copyDir_changes imagesDir "images" w1) as H2. unfold changes in H2.
  destruct (copyDir imagesDir _ _ w1) as [[] w2|e w2]; [|done].
  pose proof (copyDir_changes fontsDir "fonts" w2) as H3. unfold changes in H3.
  destruct (copyDir fontsDir _ _ w2) as [[] w3|e w3]; [|done]. cbn [fs].
  eapply change_trans; [exact H1|by eapply change_trans].
Qed.

Lemma copied_kept (m1 m2 m3 : gmap path node) dir kind W D :
  outside dir = true →
  copied m1 m2 dir kind → change W D m2 m3 →
  (∀ f, ¬ W (destination kind f)) →
  copied m1 m3 dir kind.
Proof.
  intros Hdir Hc Hch HW f Hf. destruct (Hc f Hf) as (c & Hs & Hd). exists c.
  split; [done|]. by apply (change_file _ _ _ _ _ _ Hch).
Qed.

Lemma copied_from (m0 m1 m2 : gmap path node) dir kind :
  outside dir = true → agree m0 m1 → copied m1 m2 dir kind → copied m0 m2 dir kind.
Proof.
  intros Hdir Hag Hc f Hf.
  rewrite <- (listed_agree _ _ _ (Hag dir Hdir)) in Hf.
  destruct (Hc f Hf) as (c & Hs & Hd). exists c. split; [|done].
  rewrite <- Hs. symmetry. apply Hag. by apply outside_app.
Qed.

Lemma settled_kept (m m' : gmap path node) dir kind W D :
  outside dir = true → change W D m m' → (∀ q, W q → inBuild q) → (∀ q, D q → inBuild q) →
  settled m dir kind → settled m' dir kind.
Proof.
  intros Hdir Hch HW HD Hs.
  assert (E : m' !! dir = m !! dir).
  { apply (change_other _ _ _ _ _ Hch); intros Hq; [apply HW in Hq|apply HD in Hq];
      unfold inBuild in Hq; congruence. }
  unfold settled. rewrite E. intros H. destruct (Hs H) as [Hl Hd].
  split; [done|]. by apply (change_is_Some _ _ _ _ _ Hch).
Qed.

(** A run of [copyAssets] that returns. *)
Lemma copyAssets_Ok w w' :
  copyAssets w = Ok tt w' →
  change (λ q, q ∈ destinations (fs w)) inBuild (fs w) (fs w')
  ∧ copied (fs w) (fs w') imagesDir "images"
  ∧ copied (fs w) (fs w') fontsDir "fonts"
  ∧ is_Some (fs w' !! buildAssetsDir)
  ∧ settled (fs w') imagesDir "images"
  ∧ settled (fs w') fontsDir "fonts".
Proof.
  rewrite copyAssets_eq. cbv zeta.
  set (w0 := mkWorld (fs w) (console w ++ ["Copying assets..."])).
  change (fs w) with (fs w0). clearbody w0.
  destruct (match fs w0 !! buildAssetsDir with Some _ => _ | None => _ end)
    as [[] w1|e w1] eqn:E1; [|done].
  apply ensure_assets in E1 as [Hch1 Hassets].
  destruct (copyDir imagesDir _ _ w1) as [[] w2|e w2] eqn:E2; [|done].
  apply copyDir_Ok in E2 as (Hch2 & Hcop2 & Hset2); [|done].
  destruct (copyDir fontsDir _ _ w2) as [[] w3|e w3] eqn:E3; [|done].
  apply copyDir_Ok in E3 as (Hch3 & Hcop3 & Hset3); [|done].
  intros [= <-]. cbn [fs].
  assert (Hag1 : agree (fs w0) (fs w1)).
  { apply change_agree. eapply change_mono; [| |exact Hch1];
      [done|apply between_assets_inBuild]. }
  assert (Hin2 : change inBuild inBuild (fs w1) (fs w2)).
  { eapply change_mono; [| |exact Hch2]; cbn beta;
      [by intros q (f & _ & ->)|apply between_inBuild]. }
  assert (Hag2 : agree (fs w0) (fs w2)).
  { intros q Hq. rewrite <- (Hag1 q Hq). by apply change_agree. }
  assert (Hl1 : listed (fs w1) imagesDir = listed (fs w0) imagesDir)
    by by apply listed_agree, Hag1.
  assert (Hl2 : listed (fs w2) fontsDir = listed (fs w0) fontsDir)
    by by apply listed_agree, Hag2.
  split; [|split; [|split; [|split; [|split]]]].
  - eapply change_trans;
      [eapply change_mono; [| |exact Hch1]
      |eapply change_trans;
         [eapply change_mono; [| |exact Hch2]|eapply change_mono; [| |exact Hch3]]];
      cbn beta.
    + done.
    + apply between_assets_inBuild.
    + intros q (f & Hf & ->). rewrite Hl1 in Hf. unfold destinations.
      apply elem_of_app. left. by apply list_elem_of_fmap_2.
    + apply between_inBuild.
    + intros q (f & Hf & ->). rewrite Hl2 in Hf. unfold destinations.
      apply elem_of_app. right. by apply list_elem_of_fmap_2.
    + apply between_inBuild.
  - apply (copied_from _ (fs w1)); [done..|].
    apply (copied_kept _ _ _ imagesDir _ _ _ eq_refl Hcop2 Hch3).
    intros f (g & _ & [? _]%destination_kind). done.
  - by apply (copied_from _ (fs w2)).
  - apply (change_is_Some _ _ _ _ _ Hch3), (change_is_Some _ _ _ _ _ Hch2). done.
  - apply (settled_kept _ _ imagesDir _ _ _ eq_refl Hch3); [|apply between_inBuild|done].
    by intros q (f & _ & ->).
  - done.
Qed.

(** Where the copies are in place [copyAssets] changes no file. *)
Lemma copyAssets_again w :
  is_Some (fs w !! buildAssetsDir) →
  settled (fs w) imagesDir "images" → copied (fs w) (fs w) imagesDir "images" →
  settled (fs w) fontsDir "fonts" → copied (fs w) (fs w) fontsDir "fonts" →
  copyAssets w
  = Ok tt (mkWorld (fs w) ((console w ++ ["Copying assets..."]) ++ ["Assets copied."])).
Proof.
  intros [d Hd] Hs1 Hc1 Hs2 Hc2. rewrite copyAssets_eq. cbv zeta. cbn [fs]. rewrite Hd.
  by rewrite !copyDir_again.
Qed.

Lemma sourceReady_kept (m m' : gmap path node) dir kind W D :
  outside dir = true → change W D m m' →
  (∀ q, W q → inBuild q) → (∀ q, D q → inBuild q) → (∀ f, ¬ D (destination kind f)) →
  sourceReady m dir kind = true → sourceReady m' dir kind = true.
Proof.
  intros Hdir Hch HW HD Hdest. unfold sourceReady.
  assert (Hout : ∀ q, outside q = true → m' !! q = m !! q).
  { intros q Hq. apply (change_other _ _ _ _ _ Hch); intros Hq';
      [apply HW in Hq'|apply HD in Hq']; unfold inBuild in Hq'; congruence. }
  rewrite (Hout dir Hdir). destruct (m !! dir) as [[c|l]|]; [done| |done].
  rewrite !forallb_forall. intros H f Hf. apply H, andb_prop in Hf as [Hf1 Hf2].
  apply andb_true_intro. split.
  - unfold isFile in *.
    by rewrite (Hout (path.join dir [f]) (outside_app dir [f] Hdir)).
  - apply negb_true_iff. apply negb_true_iff in Hf2.
    by apply (change_not_isDir _ _ _ _ _ Hch).
Qed.

(** [copyAssets] returns when the sources hold regular files only and
    nothing in the build directory is in the way. *)
Lemma copyAssets_ok w : ready (fs w) = true → ∃ w', copyAssets w = Ok tt w'.
Proof.
  unfold ready, buildReady.
  intros [[[[[Hb Ha]%andb_prop Hi]%andb_prop Hf]%andb_prop Hsi]%andb_prop Hsf]%andb_prop.
  apply negb_true_iff in Ha, Hi, Hf.
  rewrite copyAssets_eq. cbv zeta.
  set (w0 := mkWorld (fs w) (console w ++ ["Copying assets..."])).
  change (fs w) with (fs w0) in Hb, Ha, Hi, Hf, Hsi, Hsf |- *. clearbody w0.
  destruct (ensure_assets_ok w0 Hb Ha) as (w1 & E1 & Ha1). rewrite E1.
  apply ensure_assets in E1 as [Hch1 _].
  assert (Hno : ∀ kind f, ¬ between [] buildAssetsDir (destination kind f)).
  { intros kind f [[|[|[|k]]] H]; done. }
  destruct (copyDir_ok imagesDir "images" eq_refl w1) as [w2 E2].
  { by apply (change_isDir _ _ _ _ _ Hch1). }
  { done. }
  { apply (change_not_isFile _ _ _ _ _ Hch1); [tauto|done]. }
  { apply (sourceReady_kept _ _ imagesDir _ _ _ eq_refl Hch1);
      [done|apply between_assets_inBuild|apply Hno|done]. }
  rewrite E2. apply copyDir_Ok in E2 as (Hch2 & _ & _); [|done].
  destruct (copyDir_ok fontsDir "fonts" eq_refl w2) as [w3 E3].
  { apply (change_isDir _ _ _ _ _ Hch2). by apply (change_isDir _ _ _ _ _ Hch1). }
  { by apply (change_isDir _ _ _ _ _ Hch2). }
  { apply (change_not_isFile _ _ _ _ _ Hch2); [by intros (f & _ & ?)|].
    apply (change_not_isFile _ _ _ _ _ Hch1); [tauto|done]. }
  { apply (sourceReady_kept _ _ fontsDir _ _ _ eq_refl Hch2);
      [by intros q (f & _ & ->)|apply between_inBuild|apply destination_not_between|].
    apply (sourceReady_kept _ _ fontsDir _ _ _ eq_refl Hch1);
      [done|apply between_assets_inBuild|apply Hno|done]. }
  rewrite E3. by eexists.
Qed.

(** [copyAssets] throws when an entry of a source directory is not a
    regular file. *)
Lemma copyAssets_throws w dir kind l f :
  (dir, kind) ∈ [(imagesDir, "images"); (fontsDir, "fonts")] →
  fs w !! dir = Some (Dir l) → f ∈ l → isFile (fs w) (path.join dir [f]) = false →
  ∃ e w', copyAssets w = Throw e w'.
Proof.
  intros Hk Hl Hf Hnot. rewrite copyAssets_eq. cbv zeta.
  set (w0 := mkWorld (fs w) (console w ++ ["Copying assets..."])).
  change (fs w) with (fs w0) in Hl, Hnot |- *. clearbody w0.
  destruct (match fs w0 !! buildAssetsDir with Some _ => _ | None => _ end)
    as [[] w1|e w1] eqn:E1; [|by eexists _, _].
  apply ensure_assets in E1 as [Hch1 _].
  assert (Hag1 : agree (fs w0) (fs w1)).
  { apply change_agree. eapply change_mono; [| |exact Hch1];
      [done|apply between_assets_inBuild]. }
  destruct (copyDir imagesDir _ _ w1) as [[] w2|e w2] eqn:E2; [|by eexists _, _].
  assert (Hag2 : agree (fs w0) (fs w2)).
  { intros q Hq. rewrite <- (Hag1 q Hq). apply change_agree; [|done].
    exact (changes_Ok _ _ _ _ _ _ (copyDir_changes imagesDir "images" w1) E2). }
  apply elem_of_cons in Hk as [[= -> ->]|[[= -> ->]|[]%elem_of_nil]%elem_of_cons].
  - destruct (copyDir_throws imagesDir "images" eq_refl w1 l f) as (e & w' & E);
      [by rewrite Hag1|done|unfold isFile; by rewrite Hag1|].
    rewrite E in E2. done.
  - destruct (copyDir_throws fontsDir "fonts" eq_refl w2 l f) as (e & w' & E);
      [by rewrite Hag2|done|unfold isFile; by rewrite Hag2|].
    rewrite E. by eexists _, _.
Qed.

End AssetFacts.

(** * Facts about the script *)

Section BuildFacts.

Context {caseMapping : CaseMapping}.

(** What one round of the loop of [buildHTML] does, by the node at the
    component's HTML file. *)
Lemma insertComponent_eq template componentName w :
  insertComponent template componentName w =
  match fs w !! componentFile componentName ".html" with
  | None => Ok template w
  | Some (File componentHtml) =>
      Ok (JS.replace template (placeholderOf componentName) componentHtml) w
  | Some (Dir _) => Throw (EISDIR (componentFile componentName ".html")) w
  end.
Proof.
  unfold insertComponent, mbind, M_bind, Fs.existsSync, Fs.readFileSync.
  destruct (fs w !! _) as [[c|l]|] eqn:E; simpl; by rewrite ?E.
Qed.

Lemma appendCore_eq dir combined file w :
  appendCore dir combined file w
  = Pure.run (Pure.step (λ f, path.join dir [f]) Pure.addCore (fs w) combined file) w.
Proof.
  unfold appendCore, Pure.step, mbind, M_bind, Fs.existsSync, Fs.readFileSync.
  destruct (fs w !! _) as [[c|l]|] eqn:E; simpl; by rewrite ?E.
Qed.

Lemma appendComponent_eq extension label combined componentName w :
  appendComponent extension label combined componentName w
  = Pure.run (Pure.step (λ n, componentFile n extension) (Pure.addComponent label)
                (fs w) combined componentName) w.
Proof.
  unfold appendComponent, Pure.step, mbind, M_bind, Fs.existsSync, Fs.readFileSync.
  destruct (fs w !! _) as [[c|l]|] eqn:E; simpl; by rewrite ?E.
Qed.

Lemma insertComponent_step template componentName w :
  insertComponent template componentName w
  = Pure.run (Pure.step (λ n, componentFile n ".html") Pure.insertHtml
                (fs w) template componentName) w.
Proof.
  rewrite insertComponent_eq. unfold Pure.step.
  by destruct (fs w !! _) as [[c|l]|].
Qed.

(** A loop whose rounds only read is the fold of its rounds. *)
Lemma forEachAcc_fold {A S : Type} (body : S → A → M S) file g :
  (∀ s a w, body s a w = Pure.run (Pure.step file g (fs w) s a) w) →
  ∀ l s w, forEachAcc l body s w = Pure.run (Pure.fold file g (fs w) l s) w.
Proof.
  intros Hbody. induction l as [|a l IH]; intros s w; [done|].
  cbn [forEachAcc Pure.fold]. unfold mbind, M_bind. rewrite Hbody.
  destruct (Pure.step file g (fs w) s a) as [e|s']; [done|]. apply IH.
Qed.

Lemma componentDirs_eq w : componentDirs w = Pure.run (Pure.componentNames (fs w)) w.
Proof.
  unfold componentDirs, Pure.componentNames, Pure.listing, mbind, M_bind,
    Fs.readdirSyncWithFileTypes.
  destruct (fs w !! config.componentsDir) as [[c|l]|]; try done.
  cbn. f_equal. unfold Pure.dirNames. induction l as [|n l IH]; [done|].
  cbn. destruct (Fs.isDir _ _); cbn; by rewrite IH.
Qed.

Lemma log_eq line w : console.log line w = Ok tt (mkWorld (fs w) (console w ++ [line])).
Proof. done. Qed.

Lemma buildHTML_emit w :
  buildHTML w
  = Pure.emit "Building HTML..." "HTML build complete." Pure.htmlText
      (path.join config.buildDir ["index.html"]) w.
Proof.
  unfold buildHTML, Pure.emit, Pure.htmlText, mbind, M_bind.
  rewrite log_eq. unfold Fs.readFileSync. cbn [fs].
  destruct (fs w !! config.templateFile) as [[template|l]|]; try done.
  rewrite componentDirs_eq. cbn [fs].
  destruct (Pure.componentNames (fs w)) as [e|names]; [done|]. cbn [Pure.run].
  rewrite (forEachAcc_fold _ _ _ insertComponent_step). cbn [fs]. unfold Pure.htmlLoop.
  destruct (Pure.fold _ _ _ _ _) as [e|html]; [done|]. cbn [Pure.run].
  unfold Fs.writeFileSync, Fs.lift. cbn [fs].
  by destruct (Fs.write _ _ _).
Qed.

Lemma bundle_emit start finish dir files extension label out w :
  (console.log start;;
   combined ← forEachAcc files (appendCore dir) EmptyString;
   componentDirs ← componentDirs;
   combined ← forEachAcc componentDirs (appendComponent extension label) combined;
   Fs.writeFileSync out combined;;
   console.log finish) w
  = Pure.emit start finish (Pure.bundleText dir files extension label) out w.
Proof.
  unfold Pure.emit, Pure.bundleText, mbind, M_bind.
  rewrite log_eq.
  rewrite (forEachAcc_fold _ _ _ (appendCore_eq dir)). cbn [fs]. unfold Pure.coreLoop.
  destruct (Pure.fold _ _ _ _ _) as [e|core]; [done|]. cbn [Pure.run].
  rewrite componentDirs_eq. cbn [fs].
  destruct (Pure.componentNames (fs w)) as [e|names]; [done|]. cbn [Pure.run].
  rewrite (forEachAcc_fold _ _ _ (appendComponent_eq extension label)). cbn [fs].
  unfold Pure.componentLoop.
  destruct (Pure.fold _ _ _ _ _) as [e|text]; [done|]. cbn [Pure.run].
  unfold Fs.writeFileSync, Fs.lift. cbn [fs].
  by destruct (Fs.write _ _ _).
Qed.

Lemma buildCSS_emit w :
  buildCSS w
  = Pure.emit "Building CSS..." "CSS build complete." Pure.cssText
      (path.join config.buildDir ["styles.css"]) w.
Proof. unfold buildCSS, Pure.cssText. cbv zeta. apply bundle_emit. Qed.

Lemma buildJS_emit w :
  buildJS w
  = Pure.emit "Building JavaScript..." "JavaScript build complete." Pure.jsText
      (path.join config.buildDir ["scripts.js"]) w.
Proof. unfold buildJS, Pure.jsText. cbv zeta. apply bundle_emit. Qed.

(** *** Loops over optional files *)

Lemma fold_app {A S : Type} (file : A → path) (g : S → A → string → S) m l1 l2 s :
  Pure.fold file g m (l1 ++ l2) s
  = match Pure.fold file g m l1 s with
    | inl e => inl e
    | inr s' => Pure.fold file g m l2 s'
    end.
Proof.
  revert s. induction l1 as [|a l1 IH]; intros s; [done|].
  cbn [app Pure.fold]. by destruct (Pure.step file g m s a).
Qed.

(** A round whose file is absent changes nothing. *)
Lemma fold_skip {A S : Type} (file : A → path) (g : S → A → string → S) m l1 a l2 s :
  m !! file a = None →
  Pure.fold file g m (l1 ++ a :: l2) s = Pure.fold file g m (l1 ++ l2) s.
Proof.
  intros H. rewrite !fold_app. destruct (Pure.fold file g m l1 s) as [e|s']; [done|].
  cbn [Pure.fold]. unfold Pure.step. by rewrite H.
Qed.

(** Where no directory stands at a file's place the loop does not throw. *)
Lemma fold_total {A S : Type} (file : A → path) (g : S → A → string → S) m l s :
  (∀ a, a ∈ l → Fs.isDir m (file a) = false) →
  ∃ s', Pure.fold file g m l s = inr s'.
Proof.
  revert s. induction l as [|a l IH]; intros s H; [by eexists|].
  cbn [Pure.fold]. unfold Pure.step.
  assert (Ha := H a ltac:(by left)). unfold Fs.isDir in Ha.
  destruct (m !! file a) as [[c|?]|]; [|done|]; apply IH; intros; apply H; by right.
Qed.

Lemma coreLoop_section dir m files combined :
  (∀ f, f ∈ files → Fs.isDir m (path.join dir [f]) = false) →
  Pure.coreLoop dir m files combined
  = inr (combined +:+ Bundle.coreSection m dir files).
Proof.
  unfold Pure.coreLoop. revert combined.
  induction files as [|f files IH]; intros combined H.
  - cbn. by rewrite StrFacts.app_nil_r.
  - cbn [Pure.fold Bundle.coreSection]. unfold Pure.step, Bundle.fileText.
    assert (Hf := H f ltac:(by left)). unfold Fs.isDir in Hf.
    destruct (m !! path.join dir [f]) as [[c|?]|]; [|done|].
    + rewrite IH by (intros; apply H; by right). unfold Pure.addCore.
      by rewrite !StrFacts.app_assoc.
    + apply IH. intros; apply H; by right.
Qed.

Lemma componentLoop_section extension label m names combined :
  (∀ n, n ∈ names → Fs.isDir m (componentFile n extension) = false) →
  Pure.componentLoop extension label m names combined
  = inr (combined +:+ Bundle.componentSection m extension label names).
Proof.
  unfold Pure.componentLoop. revert combined.
  induction names as [|n names IH]; intros combined H.
  - cbn. by rewrite StrFacts.app_nil_r.
  - cbn [Pure.fold Bundle.componentSection]. unfold Pure.step, Bundle.fileText.
    assert (Hn := H n ltac:(by left)). unfold Fs.isDir in Hn.
    destruct (m !! componentFile n extension) as [[c|?]|]; [|done|].
    + rewrite IH by (intros; apply H; by right).
      unfold Pure.addComponent, Bundle.banner.
      by rewrite !StrFacts.app_assoc.
    + apply IH. intros; apply H; by right.
Qed.

Lemma allRegular_app m ps qs :
  Bundle.allRegular m (ps ++ qs) = true →
  Bundle.allRegular m ps = true ∧ Bundle.allRegular m qs = true.
Proof.
  unfold Bundle.allRegular. rewrite forallb_app. apply andb_prop.
Qed.

Lemma allRegular_elem m ps p :
  Bundle.allRegular m ps = true → p ∈ ps → Fs.isDir m p = false.
Proof.
  unfold Bundle.allRegular. rewrite forallb_forall. intros H Hp.
  apply list_elem_of_In, H in Hp. by destruct (Fs.isDir m p).
Qed.

Lemma dirNames_subseteq m dir entries n :
  n ∈ Pure.dirNames m dir entries → n ∈ entries.
Proof.
  unfold Pure.dirNames. rewrite !list_elem_of_In, filter_In. tauto.
Qed.

(** The text a bundle builder computes is the concatenation the
    specification describes. *)
Lemma bundleText_merged dir files extension label out m entries :
  m !! config.componentsDir = Some (Dir entries) →
  Bundle.allRegular m (Bundle.paths dir files extension out entries) = true →
  Pure.bundleText dir files extension label m
  = inr (Bundle.merged dir files extension label m entries).
Proof.
  intros Hdir [Hcore [Hcomp _]%allRegular_app]%allRegular_app.
  unfold Pure.bundleText, Bundle.merged.
  rewrite coreLoop_section; last first.
  { intros f Hf. apply (allRegular_elem _ _ _ Hcore).
    by apply (list_elem_of_fmap_2 (λ f, path.join dir [f])). }
  unfold Pure.componentNames, Pure.listing. rewrite Hdir.
  rewrite componentLoop_section; [done|].
  intros n Hn%dirNames_subseteq. apply (allRegular_elem _ _ _ Hcomp).
  by apply (list_elem_of_fmap_2 (λ n, componentFile n extension)).
Qed.

Lemma emit_bundle start finish dir files extension label out w entries buildEntries :
  fs w !! config.componentsDir = Some (Dir entries) →
  fs w !! config.buildDir = Some (Dir buildEntries) →
  Bundle.allRegular (fs w) (Bundle.paths dir files extension out entries) = true →
  ∃ w', Pure.emit start finish (Pure.bundleText dir files extension label)
          (path.join config.buildDir [out]) w = Ok tt w'
        ∧ fs w' !! path.join config.buildDir [out]
          = Some (File (Bundle.merged dir files extension label (fs w) entries)).
Proof.
  intros Hdir Hbuild Hreg. unfold Pure.emit.
  rewrite (bundleText_merged _ _ _ _ out _ entries) by done.
  apply allRegular_app in Hreg as [_ [_ Hout]%allRegular_app].
  assert (Hout' := allRegular_elem _ _ (path.join config.buildDir [out]) Hout ltac:(by left)).
  destruct (FsFacts.write_ok _ _ (Bundle.merged dir files extension label (fs w) entries)
              _ _ Hbuild Hout') as [m' Hw].
  rewrite Hw. eexists. split; [done|]. cbn [fs]. by eapply FsFacts.write_lookup.
Qed.

(** C4: [buildCSS] writes the core style sheets that exist, in the order
    of the fixed list and each followed by a newline, then for each
    component directory in listing order whose style sheet exists the
    banner naming it, the sheet and a newline; [buildJS] does the same
    with the core scripts and the components' scripts. *)
Theorem buildCSS_buildJS_concatenation w entries buildEntries :
  fs w !! config.componentsDir = Some (Dir entries) →
  fs w !! config.buildDir = Some (Dir buildEntries) →
  Bundle.allRegular (fs w) (Bundle.cssPaths entries ++ Bundle.jsPaths entries) = true →
  (∃ w', buildCSS w = Ok tt w'
         ∧ fs w' !! path.join config.buildDir ["styles.css"]
           = Some (File (Bundle.merged config.coreStylesDir coreStyles ".css" "Styles"
                           (fs w) entries)))
  ∧ (∃ w', buildJS w = Ok tt w'
           ∧ fs w' !! path.join config.buildDir ["scripts.js"]
             = Some (File (Bundle.merged config.coreScriptsDir coreScripts ".js" "Script"
                             (fs w) entries))).
Proof.
  intros Hdir Hbuild [Hcss Hjs]%allRegular_app. split.
  - rewrite buildCSS_emit. by eapply emit_bundle.
  - rewrite buildJS_emit. by eapply emit_bundle.
Qed.

Lemma forEachAcc_skip {A S : Type} (body : S → A → M S) file g before a after s w :
  (∀ s a w, body s a w = Pure.run (Pure.step file g (fs w) s a) w) →
  fs w !! file a = None →
  forEachAcc (before ++ a :: after) body s w = forEachAcc (before ++ after) body s w.
Proof.
  intros Hbody Ha. rewrite !(forEachAcc_fold _ _ _ Hbody). by rewrite fold_skip.
Qed.

Lemma emit_html w template entries buildEntries :
  fs w !! config.templateFile = Some (File template) →
  fs w !! config.componentsDir = Some (Dir entries) →
  fs w !! config.buildDir = Some (Dir buildEntries) →
  Bundle.allRegular (fs w) (Bundle.htmlPaths entries) = true →
  ∃ w', buildHTML w = Ok tt w'.
Proof.
  intros Htemplate Hdir Hbuild [Hcomp Hout]%allRegular_app.
  rewrite buildHTML_emit. unfold Pure.emit, Pure.htmlText.
  rewrite Htemplate. unfold Pure.componentNames, Pure.listing. rewrite Hdir.
  destruct (fold_total (λ n, componentFile n ".html") Pure.insertHtml (fs w)
              (Pure.dirNames (fs w) config.componentsDir entries) template) as [html Hhtml].
  { intros n Hn%dirNames_subseteq. apply (allRegular_elem _ _ _ Hcomp).
    by apply (list_elem_of_fmap_2 (λ n, componentFile n ".html")). }
  unfold Pure.htmlLoop. rewrite Hhtml.
  assert (Hout' := allRegular_elem _ _ (path.join config.buildDir ["index.html"]) Hout
                     ltac:(by left)).
  destruct (FsFacts.write_ok _ _ html _ _ Hbuild Hout') as [m' Hw].
  rewrite Hw. by eexists.
Qed.

(** C6: with a template, a components directory and a build directory in
    place, and no directory standing where a file is looked for, the
    three builders return whichever optional files are absent; and in
    each of their loops an entry whose file is absent counts for
    nothing: the loop ends as it does on the list without that entry. *)
Theorem optional_files_may_be_absent w template entries buildEntries :
  fs w !! config.templateFile = Some (File template) →
  fs w !! config.componentsDir = Some (Dir entries) →
  fs w !! config.buildDir = Some (Dir buildEntries) →
  Bundle.allRegular (fs w)
    (Bundle.htmlPaths entries ++ Bundle.cssPaths entries ++ Bundle.jsPaths entries) = true →
  ((∃ w', buildHTML w = Ok tt w') ∧ (∃ w', buildCSS w = Ok tt w') ∧ (∃ w', buildJS w = Ok tt w'))
  ∧ (∀ before n after t,
       fs w !! componentFile n ".html" = None →
       forEachAcc (before ++ n :: after) insertComponent t w
       = forEachAcc (before ++ after) insertComponent t w)
  ∧ (∀ extension label before n after combined,
       fs w !! componentFile n extension = None →
       forEachAcc (before ++ n :: after) (appendComponent extension label) combined w
       = forEachAcc (before ++ after) (appendComponent extension label) combined w)
  ∧ (∀ dir before file after combined,
       fs w !! path.join dir [file] = None →
       forEachAcc (before ++ file :: after) (appendCore dir) combined w
       = forEachAcc (before ++ after) (appendCore dir) combined w).
Proof.
  intros Htemplate Hdir Hbuild [Hhtml [Hcss Hjs]%allRegular_app]%allRegular_app.
  split; [split; [|split]|split; [|split]].
  - by eapply emit_html.
  - rewrite buildCSS_emit.
    destruct (emit_bundle "Building CSS..." "CSS build complete." config.coreStylesDir
                coreStyles ".css" "Styles" "styles.css" w entries buildEntries)
      as (w' & Hw & _); by eauto.
  - rewrite buildJS_emit.
    destruct (emit_bundle "Building JavaScript..." "JavaScript build complete."
                config.coreScriptsDir coreScripts ".js" "Script" "scripts.js" w entries
                buildEntries) as (w' & Hw & _); by eauto.
  - intros before n after t Hn.
    apply (forEachAcc_skip _ (λ n, componentFile n ".html") Pure.insertHtml);
      [apply insertComponent_step | done].
  - intros extension label before n after combined Hn.
    apply (forEachAcc_skip _ (λ n, componentFile n extension) (Pure.addComponent label));
      [apply appendComponent_eq | done].
  - intros dir before file after combined Hf.
    apply (forEachAcc_skip _ (λ f, path.join dir [f]) Pure.addCore);
      [apply appendCore_eq | done].
Qed.

(** C7: without a template the run throws in [buildHTML], before any
    write: [runBuild] leaves the file system as it found it and the
    console shows that no later stage started; the only thing the script
    as a whole may have made by then is the build directory. *)
Theorem missing_template_aborts w :
  fs w !! config.templateFile = None →
  runBuild w
  = Throw (ENOENT config.templateFile)
      (mkWorld (fs w) ((console w ++ ["Starting build process..."]) ++ ["Building HTML..."]))
  ∧ ∃ e w', main w = Throw e w'
            ∧ ∀ out, fs w' !! path.join config.buildDir [out]
                     = fs w !! path.join config.buildDir [out].
Proof.
  assert (Hrun : ∀ w, fs w !! config.templateFile = None →
            runBuild w
            = Throw (ENOENT config.templateFile)
                (mkWorld (fs w)
                   ((console w ++ ["Starting build process..."]) ++ ["Building HTML..."]))).
  { intros w0 H0. unfold runBuild, mbind, M_bind. rewrite log_eq, buildHTML_emit.
    unfold Pure.emit, Pure.htmlText. cbn [fs console]. by rewrite H0. }
  intros H. split; [by apply Hrun|].
  unfold main, mbind, M_bind, Fs.existsSync.
  destruct (fs w !! config.buildDir) as [b|] eqn:Hb; cbn [bool_decide negb].
  - rewrite bool_decide_eq_true_2 by eauto. cbn [negb mret M_ret].
    rewrite Hrun by done. by eexists _, _.
  - rewrite bool_decide_eq_false_2 by (by intros [? ?]). cbn [negb].
    unfold Fs.mkdirSync, Fs.lift, path.join, config.buildDir in *.
    cbn [Fs.mkdirFrom app]. rewrite Hb.
    unfold Fs.create. cbn [removelast].
    destruct (fs w !! []) as [[c|l]|]; [by eexists _, _| |by eexists _, _].
    rewrite Hrun.
    + eexists _, _. split; [done|]. intros out. cbn [fs setFs].
      by rewrite !lookup_insert_ne.
    + cbn [fs setFs]. by rewrite !lookup_insert_ne.
Qed.


(** *** What the stages read and change *)

Import Frame FrameFacts.

Lemma fold_agree {A S : Type} (file : A → path) (g : S → A → string → S) m m' l s :
  agree m m' → (∀ a, outside (file a) = true) →
  Pure.fold file g m' l s = Pure.fold file g m l s.
Proof.
  intros H Hfile. revert s. induction l as [|a l IH]; intros s; [done|].
  cbn [Pure.fold]. unfold Pure.step. rewrite (H _ (Hfile a)).
  destruct (m !! file a) as [[c|?]|]; [apply IH|done|apply IH].
Qed.

Lemma componentNames_agree m m' :
  agree m m' → Pure.componentNames m' = Pure.componentNames m.
Proof.
  intros H. unfold Pure.componentNames, Pure.listing. rewrite (H config.componentsDir) by done.
  destruct (m !! config.componentsDir) as [[c|l]|]; [done| |done].
  f_equal. unfold Pure.dirNames. apply filter_ext. intros n.
  unfold Fs.isDir. by rewrite (H (config.componentsDir ++ [n])) by done.
Qed.

Lemma htmlText_agree m m' : agree m m' → Pure.htmlText m' = Pure.htmlText m.
Proof.
  intros H. unfold Pure.htmlText. rewrite (H config.templateFile) by done.
  destruct (m !! config.templateFile) as [[template|?]|]; [|done..].
  rewrite (componentNames_agree _ _ H).
  destruct (Pure.componentNames m) as [e|names]; [done|].
  by apply fold_agree.
Qed.

Lemma bundleText_agree dir files extension label m m' :
  agree m m' → (∀ f, outside (path.join dir [f]) = true) →
  Pure.bundleText dir files extension label m'
  = Pure.bundleText dir files extension label m.
Proof.
  intros H Hdir. unfold Pure.bundleText, Pure.coreLoop, Pure.componentLoop.
  rewrite (fold_agree _ _ _ _ _ _ H) by done.
  destruct (Pure.fold _ _ m files EmptyString) as [e|core]; [done|].
  rewrite (componentNames_agree _ _ H).
  destruct (Pure.componentNames m) as [e|names]; [done|].
  by apply fold_agree.
Qed.

Lemma emit_changes start finish text out w :
  changes (λ q, q = out) (λ q, q = removelast out) (Pure.emit start finish text out) w.
Proof.
  unfold changes, Pure.emit. destruct (text (fs w)) as [e|t]; [unchanged|].
  destruct (Fs.write out t (fs w)) as [e|m'] eqn:E; [unchanged|].
  by eapply change_write.
Qed.

Lemma emit_Ok start finish text out w w' :
  Pure.emit start finish text out w = Ok tt w' →
  ∃ t, text (fs w) = inr t ∧ Fs.write out t (fs w) = inr (fs w').
Proof.
  unfold Pure.emit. destruct (text (fs w)) as [e|t]; [done|].
  destruct (Fs.write out t (fs w)) as [e|m'] eqn:E; [done|].
  intros [= <-]. by exists t.
Qed.

Lemma rewriteFile_eq file rewrite w :
  rewriteFile file rewrite w
  = match fs w !! file with
    | None => Ok tt w
    | Some (File content) => Ok tt (setFs w (<[file := File (rewrite content)]> (fs w)))
    | Some (Dir _) => Throw (EISDIR file) w
    end.
Proof.
  unfold rewriteFile, mbind, M_bind, Fs.existsSync, Fs.readFileSync, Fs.writeFileSync,
    Fs.lift, Fs.write.
  destruct (fs w !! file) as [[c|?]|] eqn:E; simpl; by rewrite ?E.
Qed.

(** *** The run as a whole *)

Lemma runBuild_eq w :
  runBuild w
  = match buildHTML (mkWorld (fs w) (console w ++ ["Starting build process..."])) with
    | Throw e w1 => Throw e w1
    | Ok _ w1 =>
        match buildCSS w1 with
        | Throw e w2 => Throw e w2
        | Ok _ w2 =>
            match buildJS w2 with
            | Throw e w3 => Throw e w3
            | Ok _ w3 =>
                match copyAssets w3 with
                | Throw e w4 => Throw e w4
                | Ok _ w4 =>
                    match updateAssetPaths w4 with
                    | Throw e w5 => Throw e w5
                    | Ok _ w5 =>
                        Ok tt (mkWorld (fs w5)
                                 (console w5 ++ ["Build completed successfully!"]))
                    end
                end
            end
        end
    end.
Proof.
  unfold runBuild, mbind, M_bind. rewrite log_eq.
  destruct (buildHTML _) as [[] w1|]; [|done].
  destruct (buildCSS w1) as [[] w2|]; [|done].
  destruct (buildJS w2) as [[] w3|]; [|done].
  destruct (copyAssets w3) as [[] w4|]; [|done].
  by destruct (updateAssetPaths w4) as [[] w5|].
Qed.

Lemma emit_inBuild start finish text out w :
  changes inBuild inBuild
    (Pure.emit start finish text (path.join config.buildDir [out])) w.
Proof.
  eapply changes_mono; [| |apply emit_changes]; cbn beta; by intros q ->.
Qed.

Lemma buildHTML_changes w : changes inBuild inBuild buildHTML w.
Proof. unfold changes. rewrite buildHTML_emit. apply emit_inBuild. Qed.

Lemma buildCSS_changes w : changes inBuild inBuild buildCSS w.
Proof. unfold changes. rewrite buildCSS_emit. apply emit_inBuild. Qed.

Lemma buildJS_changes w : changes inBuild inBuild buildJS w.
Proof. unfold changes. rewrite buildJS_emit. apply emit_inBuild. Qed.

(** C9: when the sources hold regular files only and nothing in the
    build directory is in the way, [copyAssets] returns; every entry of
    the images and fonts source directories then has at its destination
    a file with the same text, whatever was there before; and every
    other file of the file system is as it was, among them the files of
    the destination directories that have no source any more. *)
Theorem copyAssets_copies w :
  Assets.ready (fs w) = true →
  ∃ w', copyAssets w = Ok tt w'
        ∧ Assets.copied (fs w) (fs w') imagesDir "images"
        ∧ Assets.copied (fs w) (fs w') fontsDir "fonts"
        ∧ ∀ p c, fs w !! p = Some (File c) → p ∉ Assets.destinations (fs w) →
                 fs w' !! p = Some (File c).
Proof.
  intros Hready. destruct (AssetFacts.copyAssets_ok w Hready) as [w' Hw'].
  exists w'. split; [done|].
  destruct (AssetFacts.copyAssets_Ok _ _ Hw') as (Hch & Hi & Hf & _).
  split; [done|]. split; [done|].
  intros p c Hp Hnot. by apply (change_file _ _ _ _ _ _ Hch).
Qed.

(** C10: [copyAssets] hands every entry of a source directory to the
    copy as it is listed.  Where all of them are regular files (and
    nothing in the build directory is in the way) it returns; where one
    of them is not a regular file it throws, and so does the run. *)
Theorem copyAssets_copies_every_entry w :
  (Assets.ready (fs w) = true → ∃ w', copyAssets w = Ok tt w')
  ∧ (∀ dir kind l f,
       (dir, kind) ∈ [(imagesDir, "images"); (fontsDir, "fonts")] →
       fs w !! dir = Some (Dir l) → f ∈ l →
       isFile (fs w) (path.join dir [f]) = false →
       (∃ e w', copyAssets w = Throw e w') ∧ (∃ e w', runBuild w = Throw e w')).
Proof.
  split; [apply AssetFacts.copyAssets_ok|].
  intros dir kind l f Hk Hl Hf Hnot.
  split; [by eapply AssetFacts.copyAssets_throws|].
  rewrite runBuild_eq.
  set (w0 := mkWorld (fs w) (console w ++ ["Starting build process..."])).
  change (fs w) with (fs w0) in Hl, Hnot. clearbody w0.
  destruct (buildHTML w0) as [[] w1|e w1] eqn:E1; [|by eexists _, _].
  destruct (buildCSS w1) as [[] w2|e w2] eqn:E2; [|by eexists _, _].
  destruct (buildJS w2) as [[] w3|e w3] eqn:E3; [|by eexists _, _].
  assert (Hag : agree (fs w0) (fs w3)).
  { apply change_agree.
    eapply change_trans; [exact (changes_Ok _ _ _ _ _ _ (buildHTML_changes w0) E1)|].
    eapply change_trans; [exact (changes_Ok _ _ _ _ _ _ (buildCSS_changes w1) E2)|].
    exact (changes_Ok _ _ _ _ _ _ (buildJS_changes w2) E3). }
  assert (Hout : outside dir = true).
  { apply elem_of_cons in Hk as [[= -> ->]|[[= -> ->]|[]%elem_of_nil]%elem_of_cons];
      done. }
  destruct (AssetFacts.copyAssets_throws w3 dir kind l f) as (e & w4 & E4); try done.
  - by rewrite Hag.
  - unfold isFile.
    by rewrite (Hag (path.join dir [f]) (AssetFacts.outside_app dir [f] Hout)).
  - rewrite E4. by eexists _, _.
Qed.

(** *** [updateAssetPaths] *)

Lemma updateAssetPaths_eq w html css :
  fs w !! path.join config.buildDir ["index.html"] = Some (File html) →
  fs w !! path.join config.buildDir ["styles.css"] = Some (File css) →
  updateAssetPaths w
  = Ok tt (mkWorld
             (<[path.join config.buildDir ["styles.css"] := File (rewriteCss css)]>
                (<[path.join config.buildDir ["index.html"] := File (rewriteHtml html)]>
                   (fs w)))
             ((console w ++ ["Updating asset paths..."]) ++ ["Asset paths updated."])).
Proof.
  intros Hh Hc. unfold updateAssetPaths, mbind, M_bind. rewrite log_eq.
  rewrite !rewriteFile_eq. cbn [fs]. rewrite Hh. cbn [fs setFs].
  rewrite rewriteFile_eq. cbn [fs setFs]. rewrite lookup_insert_ne by done.
  rewrite Hc. done.
Qed.

(** *** A second run *)

Lemma emit_run start finish text out x t m' :
  text (fs x) = inr t → Fs.write out t (fs x) = inr m' →
  ∃ x', Pure.emit start finish text out x = Ok tt x' ∧ fs x' = m'.
Proof. intros Ht Hw. unfold Pure.emit. rewrite Ht, Hw. by eexists. Qed.

Lemma agree_trans m1 m2 m3 : agree m1 m2 → agree m2 m3 → agree m1 m3.
Proof. intros H12 H23 q Hq. by rewrite (H23 q Hq), (H12 q Hq). Qed.

Lemma agree_sym m1 m2 : agree m1 m2 → agree m2 m1.
Proof. intros H q Hq. by rewrite (H q Hq). Qed.

Lemma agree_insert m p n : inBuild p → agree m (<[p := n]> m).
Proof.
  intros Hp q Hq. rewrite lookup_insert_ne; [done|]. intros ->.
  unfold inBuild in Hp. congruence.
Qed.

Lemma copied_self (m m' : gmap path node) dir kind :
  outside dir = true → agree m m' → Assets.copied m m' dir kind →
  Assets.copied m' m' dir kind.
Proof. intros Hdir Hag. apply AssetFacts.copied_from; [done|by apply agree_sym]. Qed.

(** C5: a run that returns leaves a file system on which a second run
    returns too and changes nothing: [index.html], [styles.css],
    [scripts.js] and every other node are after the second run what they
    were after the first. *)
Theorem runBuild_idempotent w w' :
  runBuild w = Ok tt w' →
  ∀ x, fs x = fs w' → ∃ x', runBuild x = Ok tt x' ∧ fs x' = fs w'.
Proof.
  intros H x Hx. rewrite runBuild_eq in H.
  set (w0 := mkWorld (fs w) (console w ++ ["Starting build process..."])) in H.
  clearbody w0.
  destruct (buildHTML w0) as [[] w1|] eqn:E1; [|done].
  destruct (buildCSS w1) as [[] w2|] eqn:E2; [|done].
  destruct (buildJS w2) as [[] w3|] eqn:E3; [|done].
  destruct (copyAssets w3) as [[] w4|] eqn:E4; [|done].
  destruct (updateAssetPaths w4) as [[] w5|] eqn:E5; [|done].
  injection H as <-. cbn [fs] in Hx |- *.
  (* the first run *)
  pose proof (changes_Ok _ _ _ _ _ _ (buildHTML_changes w0) E1) as C1.
  pose proof (changes_Ok _ _ _ _ _ _ (buildCSS_changes w1) E2) as C2.
  pose proof (changes_Ok _ _ _ _ _ _ (buildJS_changes w2) E3) as C3.
  pose proof (changes_Ok _ _ _ _ _ _ (AssetFacts.copyAssets_changes w3) E4) as C4.
  rewrite buildHTML_emit in E1. apply emit_Ok in E1 as (html & Th & Wh).
  rewrite buildCSS_emit in E2. apply emit_Ok in E2 as (css & Tc & Wc).
  rewrite buildJS_emit in E3. apply emit_Ok in E3 as (js & Tj & Wj).
  destruct (AssetFacts.copyAssets_Ok _ _ E4) as (Hch4 & Hci & Hcf & Hassets & Hsi & Hsf).
  set (index := path.join config.buildDir ["index.html"]) in *.
  set (styles := path.join config.buildDir ["styles.css"]) in *.
  set (scripts := path.join config.buildDir ["scripts.js"]) in *.
  assert (Hnd : ∀ out, path.join config.buildDir [out] ∉ Assets.destinations (fs w3)).
  { intros out. unfold Assets.destinations.
    intros [(f & E & _)%list_elem_of_fmap|(f & E & _)%list_elem_of_fmap]%elem_of_app;
      done. }
  assert (Hi4 : fs w4 !! index = Some (File html)).
  { apply (change_file _ _ _ _ _ _ Hch4); [apply Hnd|].
    apply (FsFacts.write_file_other _ _ _ _ _ _ Wj); [done|].
    apply (FsFacts.write_file_other _ _ _ _ _ _ Wc); [done|].
    by eapply FsFacts.write_lookup. }
  assert (Hs4 : fs w4 !! styles = Some (File css)).
  { apply (change_file _ _ _ _ _ _ Hch4); [apply Hnd|].
    apply (FsFacts.write_file_other _ _ _ _ _ _ Wj); [done|].
    by eapply FsFacts.write_lookup. }
  assert (Hj4 : fs w4 !! scripts = Some (File js)).
  { apply (change_file _ _ _ _ _ _ Hch4); [apply Hnd|]. by eapply FsFacts.write_lookup. }
  rewrite (updateAssetPaths_eq _ _ _ Hi4 Hs4) in E5. injection E5 as <-. cbn [fs] in Hx |- *.
  fold index styles in Hx |- *.
  assert (A04 : agree (fs w0) (fs w4)).
  { apply change_agree. eapply change_trans; [exact C1|].
    eapply change_trans; [exact C2|]. by eapply change_trans. }
  assert (A14 : agree (fs w1) (fs w4)).
  { apply change_agree. eapply change_trans; [exact C2|]. by eapply change_trans. }
  assert (A24 : agree (fs w2) (fs w4)).
  { apply change_agree. by eapply change_trans. }
  assert (A4x : agree (fs w4) (fs x)).
  { rewrite Hx. eapply agree_trans; by apply agree_insert. }
  (* the second run *)
  rewrite runBuild_eq.
  set (x0 := mkWorld (fs x) (console x ++ ["Starting build process..."])).
  assert (Hx0 : fs x0 = fs x) by done. clearbody x0.
  rewrite buildHTML_emit. fold index.
  destruct (emit_run "Building HTML..." "HTML build complete." Pure.htmlText index x0
              html (<[index := File html]> (fs x0))) as (x1 & -> & Hx1).
  { rewrite Hx0, <- Th. apply htmlText_agree. by eapply agree_trans. }
  { apply (FsFacts.write_existing _ _ _ (rewriteHtml html)).
    rewrite Hx0, Hx. rewrite lookup_insert_ne by done. apply lookup_insert_eq. }
  rewrite buildCSS_emit. fold styles.
  destruct (emit_run "Building CSS..." "CSS build complete." Pure.cssText styles x1
              css (fs w4)) as (x2 & -> & Hx2).
  { rewrite <- Tc. apply bundleText_agree; [|done].
    eapply agree_trans; [exact A14|]. rewrite Hx1, Hx0.
    eapply agree_trans; [exact A4x|]. by apply agree_insert. }
  { rewrite (FsFacts.write_existing _ _ _ (rewriteCss css)).
    - f_equal. rewrite Hx1, Hx0, Hx. apply map_eq. intros q.
      destruct (decide (q = styles)) as [->|Hqs].
      + by rewrite lookup_insert_eq, Hs4.
      + rewrite lookup_insert_ne by done.
        destruct (decide (q = index)) as [->|Hqi].
        * by rewrite lookup_insert_eq, Hi4.
        * by rewrite !lookup_insert_ne.
    - rewrite Hx1, Hx0, Hx. rewrite lookup_insert_ne by done. apply lookup_insert_eq. }
  rewrite buildJS_emit. fold scripts.
  destruct (emit_run "Building JavaScript..." "JavaScript build complete." Pure.jsText
              scripts x2 js (fs w4)) as (x3 & -> & Hx3).
  { rewrite Hx2, <- Tj. by apply bundleText_agree. }
  { rewrite Hx2. rewrite (FsFacts.write_existing _ _ _ js) by done.
    by rewrite insert_id. }
  rewrite AssetFacts.copyAssets_again; rewrite ?Hx3; try done.
  - rewrite (updateAssetPaths_eq _ html css) by done. by eexists.
  - apply (copied_self (fs w3)); [done|by apply change_agree|done].
  - apply (copied_self (fs w3)); [done|by apply change_agree|done].
Qed.

(** *** Placeholders and components without a match *)

Lemma htmlLoop_keeps m names NAME : ∀ before after out,
  Placeholder.plain NAME = true →
  Placeholder.apart m names NAME = true →
  Pure.htmlLoop m names (before +:+ Placeholder.marker NAME +:+ after) = inr out →
  ∃ before' after', out = before' +:+ Placeholder.marker NAME +:+ after'.
Proof.
  unfold Pure.htmlLoop. induction names as [|n names IH]; intros before after out HX Hap H.
  - injection H as <-. by exists before, after.
  - cbn [Pure.fold] in H. unfold Pure.step in H.
    cbn [Placeholder.apart forallb] in Hap. apply andb_prop in Hap as [Hn Hap].
    unfold isFile in Hn.
    destruct (m !! componentFile n ".html") as [[c|?]|]; [|done|by eapply IH].
    cbn [negb orb] in Hn. apply andb_prop in Hn as [Hne HP].
    apply negb_true_iff, String.eqb_neq in Hne.
    destruct (PlaceholderFacts.replace_keeps (toUpperCase n) NAME c before after HP HX Hne)
      as (before' & after' & E).
    unfold Pure.insertHtml at 2 in H.
    change (placeholderOf n) with (Placeholder.marker (toUpperCase n)) in H.
    rewrite E in H. by eapply IH.
Qed.

(** C8 (amended): a placeholder with a name free of angle brackets
    stays in the text through the loop of [buildHTML] when every
    component that has an HTML file has another name, free of angle
    brackets too; and a component whose HTML path is no directory and
    whose placeholder does not occur in the text as it stands when its
    turn comes (the template after the rounds of the components listed
    before it) counts for nothing: the loop ends as it does on the
    list without that component. *)
Theorem unmatched_placeholders_and_components w :
  (∀ names NAME before after out w',
     Placeholder.plain NAME = true →
     Placeholder.apart (fs w) names NAME = true →
     forEachAcc names insertComponent (before +:+ Placeholder.marker NAME +:+ after) w
     = Ok out w' →
     ∃ before' after', out = before' +:+ Placeholder.marker NAME +:+ after')
  ∧ (∀ before n after template current,
       forEachAcc before insertComponent template w = Ok current w →
       Fs.isDir (fs w) (componentFile n ".html") = false →
       Str.includes (placeholderOf n) current = false →
       forEachAcc (before ++ n :: after) insertComponent template w
       = forEachAcc (before ++ after) insertComponent template w).
Proof.
  split.
  - intros names NAME before after out w' HX Hap H.
    rewrite (forEachAcc_fold _ _ _ insertComponent_step) in H.
    destruct (Pure.fold _ _ (fs w) names _) as [e|out'] eqn:E; [done|].
    injection H as <- _. by eapply htmlLoop_keeps.
  - intros before n after template current H Hdir Habsent.
    rewrite !(forEachAcc_fold _ _ _ insertComponent_step) in *.
    rewrite !fold_app.
    destruct (Pure.fold _ _ (fs w) before template) as [e|current'] eqn:E; [done|].
    injection H as <-. cbn [Pure.fold]. unfold Pure.step, Fs.isDir in *.
    destruct (fs w !! componentFile n ".html") as [[c|?]|]; [|done..].
    unfold Pure.insertHtml at 2. by rewrite StrFacts.replace_absent.
Qed.

End BuildFacts.



(** C2: on a component whose markup contains a dollar sign followed by an
    ampersand, [buildHTML] writes a page in which that pair has become the
    placeholder: the text put in is not the file's. *)
Lemma buildHTML_dollar_ampersand :
  nodeAfter (Example.buildHTML Example.price) Example.indexHtml
  = Some (File "<p><b>US<!-- PRICE -->nbsp;5</b></p>")
  ∧ nodeAfter (Example.buildHTML Example.price) Example.indexHtml
    ≠ Some (File "<p><b>US$&nbsp;5</b></p>").
Proof. split; vm_compute; [reflexivity | discriminate]. Qed.


(** * The theorems on example sites *)

(** C3 (counterexample): a style sheet with an unquoted [url(]: the
    single-quoted literal does not occur in it, and [updateAssetPaths]
    rewrites it all the same. *)
Lemma updateAssetPaths_rewrites_unquoted :
  fs Example.unquoted !! Example.stylesCss
  = Some (File "a{background:url(core/assets/images/x.png)}")
  ∧ Str.includes (Spec.urlQuoted "core/assets/images/")
      "a{background:url(core/assets/images/x.png)}" = false
  ∧ nodeAfter (updateAssetPaths Example.unquoted) Example.stylesCss
    = Some (File "a{background:url('build/assets/images/x.png)}").
Proof. repeat split; vm_compute; reflexivity. Qed.

Lemma buildCSS_buildJS_concatenation_witness :
  (∃ w', Example.buildCSS Example.bundle = Ok tt w'
         ∧ fs w' !! path.join config.buildDir ["styles.css"]
           = Some (File (Bundle.merged (caseMapping := AsciiCase.ascii)
                           config.coreStylesDir coreStyles ".css" "Styles"
                           (fs Example.bundle) ["Header"; "Footer"])))
  ∧ (∃ w', Example.buildJS Example.bundle = Ok tt w'
           ∧ fs w' !! path.join config.buildDir ["scripts.js"]
             = Some (File (Bundle.merged (caseMapping := AsciiCase.ascii)
                             config.coreScriptsDir coreScripts ".js" "Script"
                             (fs Example.bundle) ["Header"; "Footer"]))).
Proof.
  apply (@buildCSS_buildJS_concatenation AsciiCase.ascii Example.bundle
           ["Header"; "Footer"] []); vm_compute; reflexivity.
Defined.

(** The merged style sheet and script of that site, spelled out. *)
Example bundle_outputs :
  nodeAfter (Example.buildCSS Example.bundle) Example.stylesCss
  = Some (File ("*{}" +:+ Str.newline +:+ "body{}" +:+ Str.newline
                +:+ "/* Header Component Styles */" +:+ Str.newline
                +:+ "nav{}" +:+ Str.newline
                +:+ "/* Footer Component Styles */" +:+ Str.newline
                +:+ "footer{}" +:+ Str.newline))
  ∧ nodeAfter (Example.buildJS Example.bundle) Example.scriptsJs
    = Some (File ("init()" +:+ Str.newline
                  +:+ "/* Header Component Script */" +:+ Str.newline
                  +:+ "h()" +:+ Str.newline)).
Proof. split; vm_compute; reflexivity. Qed.

Lemma runBuild_idempotent_witness :
  ∃ x', Example.runBuild (worldAfter (Example.runBuild Example.bundle)) = Ok tt x'
        ∧ fs x' = fs (worldAfter (Example.runBuild Example.bundle)).
Proof.
  apply (@runBuild_idempotent AsciiCase.ascii Example.bundle
           (worldAfter (Example.runBuild Example.bundle)));
    [vm_compute; reflexivity | reflexivity].
Defined.

Lemma optional_files_may_be_absent_witness :
  ((∃ w', Example.buildHTML Example.bundle = Ok tt w')
   ∧ (∃ w', Example.buildCSS Example.bundle = Ok tt w')
   ∧ (∃ w', Example.buildJS Example.bundle = Ok tt w'))
  ∧ forEachAcc ["Header"; "Footer"] Example.insertComponent "<body></body>" Example.bundle
    = forEachAcc ["Header"] Example.insertComponent "<body></body>" Example.bundle
  ∧ forEachAcc ["Header"; "Footer"] (Example.appendComponent ".js" "Script") "" Example.bundle
    = forEachAcc ["Header"] (Example.appendComponent ".js" "Script") "" Example.bundle
  ∧ forEachAcc coreScripts (appendCore config.coreScriptsDir) "" Example.bundle
    = forEachAcc ["main.js"] (appendCore config.coreScriptsDir) "" Example.bundle.
Proof.
  destruct (@optional_files_may_be_absent AsciiCase.ascii Example.bundle
              "<body><!-- HEADER --><!-- FOOTER --></body>" ["Header"; "Footer"] []
              ltac:(vm_compute; reflexivity) ltac:(vm_compute; reflexivity)
              ltac:(vm_compute; reflexivity) ltac:(vm_compute; reflexivity))
    as (Hreturn & Hhtml & Hcomponent & Hcore).
  split; [exact Hreturn|]. split; [|split].
  - apply (Hhtml ["Header"] "Footer" []). vm_compute; reflexivity.
  - apply (Hcomponent ".js" "Script" ["Header"] "Footer" []). vm_compute; reflexivity.
  - apply (Hcore config.coreScriptsDir [] "utils.js" ["main.js"]). vm_compute; reflexivity.
Defined.

Lemma missing_template_aborts_witness :
  Example.runBuild Example.noTemplate
  = Throw (ENOENT config.templateFile)
      (mkWorld (fs Example.noTemplate)
         ((console Example.noTemplate ++ ["Starting build process..."])
          ++ ["Building HTML..."]))
  ∧ ∃ e w', Example.main Example.noTemplate = Throw e w'
            ∧ ∀ out, fs w' !! path.join config.buildDir [out]
                     = fs Example.noTemplate !! path.join config.buildDir [out].
Proof.
  apply (@missing_template_aborts AsciiCase.ascii Example.noTemplate).
  vm_compute; reflexivity.
Defined.

(** C8 (counterexample): the template does not contain the placeholder of
    [B], the markup of [A] does; with [B] the merged page is the markup
    of [B], without it the placeholder. *)
Lemma buildHTML_placeholder_from_component :
  fs Example.chain !! config.templateFile = Some (File "<!-- A -->")
  ∧ fs Example.chainWithoutB !! config.templateFile = Some (File "<!-- A -->")
  ∧ Str.includes "<!-- B -->" "<!-- A -->" = false
  ∧ nodeAfter (Example.buildHTML Example.chain) Example.indexHtml = Some (File "hi")
  ∧ nodeAfter (Example.buildHTML Example.chainWithoutB) Example.indexHtml
    = Some (File "<!-- B -->").
Proof. repeat split; vm_compute; reflexivity. Qed.

(** A placeholder without a component, lost to the placeholder of a
    folder whose name ends like a comment. *)
Example buildHTML_placeholder_inside_another :
  Str.includes "<!-- A -->" "<!-- A --> -->" = true
  ∧ nodeAfter (Example.buildHTML Example.nested) Example.indexHtml = Some (File "x").
Proof. split; vm_compute; reflexivity. Qed.

Lemma unmatched_placeholders_and_components_witness :
  (∃ before' after',
     "<nav></nav><!-- SIDEBAR -->" = before' +:+ Placeholder.marker "SIDEBAR" +:+ after')
  ∧ forEachAcc ["Header"; "Footer"] Example.insertComponent
      "<!-- HEADER --><!-- SIDEBAR -->" Example.unmatched
    = forEachAcc ["Header"] Example.insertComponent
        "<!-- HEADER --><!-- SIDEBAR -->" Example.unmatched.
Proof.
  destruct (@unmatched_placeholders_and_components AsciiCase.ascii Example.unmatched)
    as [Hplaceholder Hcomponent].
  split.
  - apply (Hplaceholder ["Header"; "Footer"] "SIDEBAR" "<!-- HEADER -->" ""
             "<nav></nav><!-- SIDEBAR -->" Example.unmatched); vm_compute; reflexivity.
  - apply (Hcomponent ["Header"] "Footer" [] "<!-- HEADER --><!-- SIDEBAR -->"
             "<nav></nav><!-- SIDEBAR -->"); vm_compute; reflexivity.
Defined.

Lemma copyAssets_copies_witness :
  ∃ w', copyAssets Example.assets = Ok tt w'
        ∧ Assets.copied (fs Example.assets) (fs w') imagesDir "images"
        ∧ Assets.copied (fs Example.assets) (fs w') fontsDir "fonts"
        ∧ ∀ p c, fs Example.assets !! p = Some (File c) →
                 p ∉ Assets.destinations (fs Example.assets) →
                 fs w' !! p = Some (File c).
Proof. apply (copyAssets_copies Example.assets). vm_compute; reflexivity. Defined.

(** The build directory of that site after the copy: the logo is the new
    one, the picture without a source is still there. *)
Example copyAssets_assets :
  nodeAfter (copyAssets Example.assets) (Assets.destination "images" "logo.png")
  = Some (File "new logo")
  ∧ nodeAfter (copyAssets Example.assets) (Assets.destination "images" "hero.jpg")
    = Some (File "hero")
  ∧ nodeAfter (copyAssets Example.assets) (Assets.destination "images" "gone.png")
    = Some (File "gone")
  ∧ nodeAfter (copyAssets Example.assets) (Assets.destination "fonts" "text.woff")
    = Some (File "font").
Proof. repeat split; vm_compute; reflexivity. Qed.

Lemma copyAssets_copies_every_entry_witness :
  (∃ w', copyAssets Example.assets = Ok tt w')
  ∧ (∃ e w', copyAssets Example.subfolder = Throw e w')
  ∧ (∃ e w', Example.runBuild Example.subfolder = Throw e w').
Proof.
  split.
  - apply (proj1 (@copyAssets_copies_every_entry AsciiCase.ascii Example.assets)).
    vm_compute; reflexivity.
  - apply (proj2 (@copyAssets_copies_every_entry AsciiCase.ascii Example.subfolder)
             imagesDir "images" ["logo.png"; "icons"; "hero.jpg"] "icons").
    + repeat constructor.
    + vm_compute; reflexivity.
    + repeat constructor.
    + vm_compute; reflexivity.
Defined.

(** What the run on that site throws, and where. *)
Example runBuild_subfolder :
  thrown (Example.runBuild Example.subfolder)
  = Some (EISDIR ["core"; "assets"; "images"; "icons"]).
Proof. vm_compute. reflexivity. Qed.


(** * Text that a substitution cannot bring back *)

Module OverlapFacts.
Import Str StrFacts Overlap.

Lemma clash_startsWith v r t : clash v r = true → startsWith v (r +:+ t) = false.
Proof.
  revert r. induction v as [|a v IH]; intros r H; [by destruct r|].
  destruct r as [|b r]; [done|]. cbn in *.
  destruct (Ascii.eqb a b); [by apply IH|done].
Qed.

Lemma includes_cons q c s :
  includes q (String c s) = startsWith q (String c s) || includes q s.
Proof. cbn [includes]. by destruct (startsWith q (String c s)). Qed.

Lemma includes_tail q c s : includes q (String c s) = false → includes q s = false.
Proof. rewrite includes_cons. by intros [_ ?]%orb_false_elim. Qed.

Lemma includes_head q s : includes q s = false → startsWith q s = false.
Proof. destruct s; cbn [includes]; by destruct (startsWith q _). Qed.

(** A text that does not contain [q] does not contain it either with
    [r] put before it, when [q] cannot start inside [r]. *)
Lemma includes_prepend q r t :
  forallb (clash q) (suffixes r) = true → includes q t = false →
  includes q (r +:+ t) = false.
Proof.
  induction r as [|c r IH]; intros H Ht; [done|].
  cbn [suffixes forallb] in H. apply andb_prop in H as [Hc H].
  change (String c r +:+ t) with (String c (r +:+ t)). rewrite includes_cons.
  rewrite (IH H Ht), orb_false_r.
  by apply (clash_startsWith q (String c r) t).
Qed.

Section Substitute.
Variables (patterns : list string) (replacement : string).
Hypothesis patterns_nonEmpty : Forall RewriteFacts.nonEmpty patterns.

Local Abbreviation out := (Spec.substituteFrom patterns replacement).

(** Where the substituted text starts with an end of [q], so did the
    text. *)
Lemma startsWith_substitute q :
  forallb (λ v, clash v replacement) (suffixes q) = true →
  ∀ s v, v ∈ suffixes q → startsWith v (out 0 s) = true → startsWith v s = true.
Proof.
  intros Hq. assert (Hsuf : ∀ v, v ∈ suffixes q → clash v replacement = true).
  { intros v Hv. rewrite forallb_forall in Hq. by apply Hq, list_elem_of_In. }
  assert (Htail : ∀ d v, String d v ∈ suffixes q → v = EmptyString ∨ v ∈ suffixes q).
  { clear. induction q as [|c q' IH]; intros d v H; [by apply elem_of_nil in H|].
    cbn [suffixes] in *. apply elem_of_cons in H as [[= -> ->]|H].
    - destruct q' as [|e q'']; [by left|]. right. right. by left.
    - destruct (IH _ _ H) as [->|?]; [by left|]. right. by right. }
  induction s as [|c s IH]; intros v Hv H.
  - by destruct v.
  - cbn [Spec.substituteFrom] in H.
    destruct (List.find _ _) as [p|] eqn:E.
    + by rewrite (clash_startsWith _ _ _ (Hsuf v Hv)) in H.
    + destruct v as [|d v]; [done|]. cbn [startsWith] in *.
      destruct (Ascii.eqb d c); [|done].
      destruct (Htail _ _ Hv) as [->|Hv']; [by destruct s|]. by apply IH.
Qed.

(** No occurrence of a pattern is left. *)
Lemma substitute_complete p :
  p ∈ patterns → separate p replacement = true →
  ∀ s skip, includes p (out skip s) = false.
Proof.
  intros Hp [Hsuf Hpre]%andb_prop.
  assert (Hne : p ≠ EmptyString).
  { rewrite Forall_forall in patterns_nonEmpty. by apply patterns_nonEmpty. }
  induction s as [|c s IH]; intros skip.
  - cbn. by destruct p.
  - cbn [Spec.substituteFrom]. destruct skip as [|k]; [|apply IH].
    destruct (List.find _ _) as [p'|] eqn:E.
    + by apply includes_prepend.
    + rewrite includes_cons, IH, orb_false_r.
      destruct (startsWith p (String c (out 0 s))) eqn:Es; [|done].
      assert (Hin : p ∈ suffixes p) by (destruct p; [done|by left]).
      pose proof (startsWith_substitute p Hsuf (String c s) p Hin) as H.
      cbn [Spec.substituteFrom] in H. rewrite E in H. specialize (H Es).
      apply list_elem_of_In in Hp. apply (find_none _ _ E) in Hp. by rewrite H in Hp.
Qed.

(** No occurrence of another text appears. *)
Lemma substitute_adds_none q :
  q ≠ EmptyString → separate q replacement = true →
  ∀ s skip, includes q s = false → includes q (out skip s) = false.
Proof.
  intros Hne [Hsuf Hpre]%andb_prop.
  induction s as [|c s IH]; intros skip Hs.
  - cbn. by destruct q.
  - cbn [Spec.substituteFrom]. pose proof (includes_tail _ _ _ Hs) as Hs'.
    destruct skip as [|k]; [|by apply IH].
    destruct (List.find _ _) as [p'|] eqn:E.
    + apply includes_prepend; [done|by apply IH].
    + rewrite includes_cons, IH, orb_false_r by done.
      destruct (startsWith q (String c (out 0 s))) eqn:Es; [|done].
      assert (Hin : q ∈ suffixes q) by (destruct q; [done|by left]).
      pose proof (startsWith_substitute q Hsuf (String c s) q Hin) as H.
      cbn [Spec.substituteFrom] in H. rewrite E in H. specialize (H Es).
      apply includes_head in Hs. by rewrite H in Hs.
Qed.

End Substitute.
End OverlapFacts.

Module RewriteMore.
Import Str StrFacts Overlap OverlapFacts.

Lemma rewriteHtml_complete s p :
  p ∈ [Spec.srcImages; Spec.hrefImages] → includes p (rewriteHtml s) = false.
Proof.
  intros Hp. rewrite RewriteFacts.rewriteHtml_substitute. unfold Spec.substituteAll.
  apply elem_of_cons in Hp as [->|[->|[]%elem_of_nil]%elem_of_cons].
  - apply substitute_adds_none; [done|by vm_compute|].
    apply substitute_complete; [by repeat constructor|by left|by vm_compute].
  - apply substitute_complete; [by repeat constructor|by left|by vm_compute].
Qed.

Lemma rewriteCss_complete s p :
  p ∈ Spec.urlForms "core/assets/images/" ++ Spec.urlForms "core/assets/fonts/" →
  includes p (rewriteCss s) = false.
Proof.
  intros Hp. rewrite RewriteFacts.rewriteCss_substitute. unfold Spec.substituteAll.
  apply elem_of_app in Hp as [Hp|Hp].
  - apply substitute_adds_none.
    + apply elem_of_cons in Hp as [->|[->|[->|[]%elem_of_nil]%elem_of_cons]%elem_of_cons];
        done.
    + apply elem_of_cons in Hp as [->|[->|[->|[]%elem_of_nil]%elem_of_cons]%elem_of_cons];
        by vm_compute.
    + apply substitute_complete; [by repeat constructor|done|].
      apply elem_of_cons in Hp as [->|[->|[->|[]%elem_of_nil]%elem_of_cons]%elem_of_cons];
        by vm_compute.
  - apply substitute_complete; [by repeat constructor|done|].
    apply elem_of_cons in Hp as [->|[->|[->|[]%elem_of_nil]%elem_of_cons]%elem_of_cons];
      by vm_compute.
Qed.

Lemma rewriteHtml_again s : rewriteHtml (rewriteHtml s) = rewriteHtml s.
Proof.
  rewrite (RewriteFacts.rewriteHtml_substitute (rewriteHtml s)). unfold Spec.substituteAll.
  rewrite (RewriteFacts.substituteFrom_absent [Spec.srcImages]).
  - apply RewriteFacts.substituteFrom_absent. repeat constructor.
    apply rewriteHtml_complete. right. by left.
  - repeat constructor. apply rewriteHtml_complete. by left.
Qed.

Lemma rewriteCss_again s : rewriteCss (rewriteCss s) = rewriteCss s.
Proof.
  rewrite (RewriteFacts.rewriteCss_substitute (rewriteCss s)). unfold Spec.substituteAll.
  rewrite (RewriteFacts.substituteFrom_absent (Spec.urlForms "core/assets/images/")).
  - apply RewriteFacts.substituteFrom_absent. apply Forall_forall.
    intros p Hp. apply rewriteCss_complete, elem_of_app. by right.
  - apply Forall_forall.
    intros p Hp. apply rewriteCss_complete, elem_of_app. by left.
Qed.

(** Patterns that do not occur in the text can be left out of the
    substitution. *)
Lemma substituteFrom_listed p others replacement s : ∀ skip,
  Forall (λ q, includes q s = false) others →
  Spec.substituteFrom (p :: others) replacement skip s
  = Spec.substituteFrom [p] replacement skip s.
Proof.
  induction s as [|c s IH]; intros skip H; [done|].
  assert (Hs : Forall (λ q, includes q s = false) others).
  { eapply Forall_impl; [exact H|]. intros q Hq. by apply (includes_tail q c). }
  cbn [Spec.substituteFrom]. destruct skip as [|k]; [|by apply IH].
  cbn [List.find]. destruct (startsWith p (String c s)); [by rewrite IH|].
  replace (List.find (λ q, startsWith q (String c s)) others) with (@None string);
    [by rewrite IH|].
  symmetry. clear -H. induction others as [|q others IHo]; [done|].
  apply Forall_cons in H as [Hq H]. cbn [List.find].
  by rewrite (includes_head _ _ Hq), IHo.
Qed.

Lemma rewriteCss_listed css :
  forallb (λ p, negb (includes p css))
    (Spec.urlOthers "core/assets/images/" ++ Spec.urlOthers "core/assets/fonts/") = true →
  rewriteCss css
  = Spec.substituteAll [Spec.urlQuoted "core/assets/fonts/"] Re.urlBuildFonts
      (Spec.substituteAll [Spec.urlQuoted "core/assets/images/"] Re.urlBuildImages css).
Proof.
  rewrite forallb_app. intros [Hi Hf]%andb_prop. rewrite forallb_forall in Hi, Hf.
  assert (Ha : ∀ l, (∀ p, In p l → negb (includes p css) = true) →
                    Forall (λ q, includes q css = false) l).
  { intros l H. apply Forall_forall. intros q Hq%list_elem_of_In. by apply negb_true_iff, H. }
  rewrite RewriteFacts.rewriteCss_substitute. unfold Spec.substituteAll.
  change (Spec.urlForms "core/assets/images/")
    with (Spec.urlQuoted "core/assets/images/" :: Spec.urlOthers "core/assets/images/").
  change (Spec.urlForms "core/assets/fonts/")
    with (Spec.urlQuoted "core/assets/fonts/" :: Spec.urlOthers "core/assets/fonts/").
  rewrite (substituteFrom_listed _ (Spec.urlOthers "core/assets/images/")) by by apply Ha.
  apply substituteFrom_listed. apply Forall_forall. intros q Hq.
  pose proof (Ha _ Hf) as Hf'. rewrite Forall_forall in Hf'.
  apply substitute_adds_none; [| |by apply Hf'].
  - apply elem_of_cons in Hq as [->|[->|[]%elem_of_nil]%elem_of_cons]; done.
  - apply elem_of_cons in Hq as [->|[->|[]%elem_of_nil]%elem_of_cons]; by vm_compute.
Qed.

End RewriteMore.

(** * The rewriting of the asset paths *)

(** C3 (amended): on the merged page [updateAssetPaths] substitutes
    every occurrence of the two literal prefixes. On a merged style
    sheet where the images and fonts prefixes follow [url(] only after a
    single quote, it substitutes every occurrence of the two
    single-quoted literals by the build ones and changes nothing else.
    The pattern matches the double-quoted and the unquoted form as well:
    whatever the sheet, none of the three forms is left in the sheet
    written. A page or a sheet in which none of these texts occurs is
    written back as it is. *)
Theorem updateAssetPaths_substitutes w html css :
  fs w !! path.join config.buildDir ["index.html"] = Some (File html) →
  fs w !! path.join config.buildDir ["styles.css"] = Some (File css) →
  ∃ w' page sheet,
    updateAssetPaths w = Ok tt w'
    ∧ fs w' !! path.join config.buildDir ["index.html"] = Some (File page)
    ∧ fs w' !! path.join config.buildDir ["styles.css"] = Some (File sheet)
    ∧ page = Spec.substituteAll [Spec.hrefImages] Re.hrefBuild
               (Spec.substituteAll [Spec.srcImages] Re.srcBuild html)
    ∧ (forallb (λ p, negb (Str.includes p css))
         (Spec.urlOthers "core/assets/images/" ++ Spec.urlOthers "core/assets/fonts/") = true →
       sheet = Spec.substituteAll [Spec.urlQuoted "core/assets/fonts/"] Re.urlBuildFonts
                 (Spec.substituteAll [Spec.urlQuoted "core/assets/images/"]
                    Re.urlBuildImages css))
    ∧ (∀ p, p ∈ Spec.urlForms "core/assets/images/" ++ Spec.urlForms "core/assets/fonts/" →
            Str.includes p sheet = false)
    ∧ (forallb (λ p, negb (Str.includes p html)) [Spec.srcImages; Spec.hrefImages] = true →
       page = html)
    ∧ (forallb (λ p, negb (Str.includes p css))
         (Spec.urlForms "core/assets/images/" ++ Spec.urlForms "core/assets/fonts/") = true →
       sheet = css).
Proof.
  intros Hh Hc. exists (mkWorld
             (<[path.join config.buildDir ["styles.css"] := File (rewriteCss css)]>
                (<[path.join config.buildDir ["index.html"] := File (rewriteHtml html)]>
                   (fs w)))
             ((console w ++ ["Updating asset paths..."]) ++ ["Asset paths updated."])),
    (rewriteHtml html), (rewriteCss css).
  split; [by apply updateAssetPaths_eq|]. cbn [fs].
  split; [by rewrite lookup_insert_ne, lookup_insert_eq|].
  split; [by rewrite lookup_insert_eq|].
  split; [apply RewriteFacts.rewriteHtml_substitute|].
  split; [apply RewriteMore.rewriteCss_listed|].
  split; [intros p Hp; by apply RewriteMore.rewriteCss_complete|].
  split.
  - rewrite forallb_forall. intros H. rewrite RewriteFacts.rewriteHtml_substitute.
    unfold Spec.substituteAll.
    rewrite (RewriteFacts.substituteFrom_absent [Spec.srcImages]).
    + apply RewriteFacts.substituteFrom_absent. repeat constructor.
      apply negb_true_iff, H. right. by left.
    + repeat constructor. apply negb_true_iff, H. by left.
  - rewrite forallb_app. intros [Hi Hf]%andb_prop. rewrite forallb_forall in Hi, Hf.
    rewrite RewriteFacts.rewriteCss_substitute. unfold Spec.substituteAll.
    rewrite (RewriteFacts.substituteFrom_absent (Spec.urlForms "core/assets/images/")).
    + apply RewriteFacts.substituteFrom_absent. apply Forall_forall.
      intros p Hp%list_elem_of_In. by apply negb_true_iff, Hf.
    + apply Forall_forall. intros p Hp%list_elem_of_In. by apply negb_true_iff, Hi.
Qed.

Lemma updateAssetPaths_substitutes_witness :
  (∃ w', updateAssetPaths Example.merged = Ok tt w'
         ∧ fs w' !! path.join config.buildDir ["index.html"]
           = Some (File (Spec.substituteAll [Spec.hrefImages] Re.hrefBuild
                           (Spec.substituteAll [Spec.srcImages] Re.srcBuild
                              (Example.imgTag +:+ Example.linkTag))))
         ∧ fs w' !! path.join config.buildDir ["styles.css"]
           = Some (File "@font-face{src:url('build/assets/fonts/text.woff')}"))
  ∧ (∃ w', updateAssetPaths Example.lookalike = Ok tt w'
           ∧ fs w' !! path.join config.buildDir ["index.html"]
             = Some (File "<p>src=core/assets/images-extra/x.png</p>")
           ∧ fs w' !! path.join config.buildDir ["styles.css"]
             = Some (File "a{background:URL(core/assets/images/x.png)}")).
Proof.
  split.
  - destruct (updateAssetPaths_substitutes Example.merged
                (Example.imgTag +:+ Example.linkTag) Example.fontFace)
      as (w' & page & sheet & E & Hp & Hs & -> & Hlisted & _);
      [vm_compute; reflexivity..|].
    exists w'. split; [exact E|]. split; [exact Hp|].
    rewrite Hs, Hlisted by (vm_compute; reflexivity). vm_compute. reflexivity.
  - destruct (updateAssetPaths_substitutes Example.lookalike
                "<p>src=core/assets/images-extra/x.png</p>"
                "a{background:URL(core/assets/images/x.png)}")
      as (w' & page & sheet & E & Hp & Hs & _ & _ & _ & Hpage & Hsheet);
      [vm_compute; reflexivity..|].
    exists w'. split; [exact E|].
    rewrite Hp, Hs, Hpage, Hsheet by (vm_compute; reflexivity). done.
Defined.

(** * What a call leaves alone *)

Module FootprintFacts.
Import Frame FrameFacts Footprint.

Lemma only_bind {A B : Type} W (c : M A) (f : A → M B) w :
  only W c w → (∀ a w1, c w = Ok a w1 → only W (f a) w1) → only W (c ≫= f) w.
Proof.
  unfold only, mbind, M_bind. intros Hc Hf q Hq. specialize (Hc q Hq).
  destruct (c w) as [a w1|e w1]; [|done].
  by rewrite (Hf a w1 eq_refl q Hq).
Qed.

Lemma only_mono {A : Type} (W W' : path → Prop) (c : M A) w :
  (∀ q, W q → W' q) → only W c w → only W' c w.
Proof. intros HW H q Hq. apply H. intros ?%HW. done. Qed.

Lemma only_Ok {A : Type} W (c : M A) w a w' :
  only W c w → c w = Ok a w' → ∀ q, ¬ W q → fs w' !! q = fs w !! q.
Proof. unfold only. intros H E. by rewrite E in H. Qed.

(** A call that leaves the file system as it is. *)
Lemma only_same {A : Type} W (c : M A) w : fs (worldAfter (c w)) = fs w → only W c w.
Proof. intros H q _. by rewrite H. Qed.

Lemma only_lift W D f w :
  (∀ m', f (fs w) = inr m' → change W D (fs w) m') →
  only (λ q, W q ∨ D q) (Fs.lift f) w.
Proof.
  unfold only, Fs.lift. intros H q Hq. destruct (f (fs w)) as [e|m'] eqn:E; [done|].
  cbn [worldAfter fs setFs]. apply (change_other _ _ _ _ _ (H m' eq_refl)); tauto.
Qed.

Lemma only_writeFileSync p t w :
  only (λ q, q = p ∨ q = removelast p) (Fs.writeFileSync p t) w.
Proof. apply only_lift. intros m'. apply change_write. Qed.

Lemma only_mkdirSync p w : only (between [] p) (Fs.mkdirSync p) w.
Proof.
  eapply only_mono; [|apply (only_lift (λ _, False) (between [] p))].
  - cbn beta. tauto.
  - intros m'. apply change_mkdirFrom.
Qed.

Lemma only_copyFileSync src dest w :
  only (λ q, q = dest ∨ q = removelast dest) (Fs.copyFileSync src dest) w.
Proof.
  unfold only, Fs.copyFileSync. destruct (fs w !! src) as [[c|?]|]; [|done..].
  apply only_writeFileSync.
Qed.

Lemma only_forEach {A : Type} W (l : list A) (body : A → M unit) w :
  (∀ a w1, only W (body a) w1) → only W (forEach l body) w.
Proof.
  intros H. revert w. induction l as [|a l IH]; intros w; [by apply only_same|].
  cbn [forEach]. apply only_bind; [apply H|]. intros _ w1 _. apply IH.
Qed.

Lemma only_emit start finish text out w :
  only (output out) (Pure.emit start finish text (path.join config.buildDir [out])) w.
Proof.
  unfold Pure.emit. intros q Hq. destruct (text (fs w)) as [e|t]; [done|].
  destruct (Fs.write _ t (fs w)) as [e|m'] eqn:E; [done|]. cbn [worldAfter fs].
  apply change_write in E. unfold path.join in E. rewrite removelast_last in E.
  apply (change_other _ _ _ _ _ E); unfold output in Hq; tauto.
Qed.

Lemma only_rewriteFile file rewrite w : only (λ q, q = file) (rewriteFile file rewrite) w.
Proof.
  intros q Hq. rewrite rewriteFile_eq. destruct (fs w !! file) as [[c|?]|]; [|done..].
  cbn [worldAfter fs setFs]. by rewrite lookup_insert_ne by congruence.
Qed.

Lemma assets_between q : between [] Assets.buildAssetsDir q → assets q.
Proof.
  intros [[|[|k]] ->]; [by left|right; by left|]. right. right. exists [].
  cbn. by rewrite take_nil.
Qed.

Lemma assets_between_kind kind q :
  between [] (path.join Assets.buildAssetsDir [kind]) q → assets q.
Proof.
  intros [[|[|[|k]]] ->]; [by left|right; by left|right; right; by exists []|].
  right. right. exists [kind]. cbn. by rewrite take_nil.
Qed.

Lemma only_copyDir sourceDir kind w :
  only assets (copyDir sourceDir Assets.buildAssetsDir kind) w.
Proof.
  unfold copyDir. apply only_bind; [by apply only_same|]. intros b w1 _.
  destruct b; [|by apply only_same]. cbv zeta.
  apply only_bind; [by apply only_same|]. intros b' w2 _.
  apply only_bind.
  { destruct b'; [by apply only_same|]. cbn [negb].
    eapply only_mono; [apply assets_between_kind|apply only_mkdirSync]. }
  intros _ w3 _. apply only_bind.
  { apply only_same. unfold Fs.readdirSync. by destruct (fs w3 !! sourceDir) as [[?|?]|]. }
  intros files w4 _. apply only_forEach. intros f w5.
  eapply only_mono; [|apply only_copyFileSync]. cbn beta.
  intros q [->| ->]; right; right.
  - by exists [kind; f].
  - exists [kind]. unfold path.join. by rewrite removelast_last.
Qed.

Lemma only_copyAssets w : only assets copyAssets w.
Proof.
  unfold copyAssets. apply only_bind; [by apply only_same|]. intros _ w1 _. cbv zeta.
  apply only_bind; [by apply only_same|]. intros b w2 _.
  apply only_bind.
  { destruct b; [by apply only_same|]. cbn [negb].
    eapply only_mono; [apply assets_between|apply only_mkdirSync]. }
  intros _ w3 _. apply only_bind; [apply only_copyDir|]. intros _ w4 _.
  apply only_bind; [apply only_copyDir|]. intros _ w5 _. by apply only_same.
Qed.

Lemma only_updateAssetPaths w : only rewritten updateAssetPaths w.
Proof.
  unfold updateAssetPaths. apply only_bind; [by apply only_same|]. intros _ w1 _.
  apply only_bind.
  { eapply only_mono; [|apply only_rewriteFile]. intros q ->. by left. }
  intros _ w2 _. apply only_bind.
  { eapply only_mono; [|apply only_rewriteFile]. intros q ->. by right. }
  intros _ w3 _. by apply only_same.
Qed.

(** The console. *)
Lemma silent_bind {A B : Type} (c : M A) (f : A → M B) w :
  silent c w → (∀ a w1, c w = Ok a w1 → silent (f a) w1) → silent (c ≫= f) w.
Proof.
  unfold silent, mbind, M_bind. intros Hc Hf.
  destruct (c w) as [a w1|e w1]; [|done]. by rewrite (Hf a w1 eq_refl).
Qed.

Lemma silent_lift f w : silent (Fs.lift f) w.
Proof. unfold silent, Fs.lift. by destruct (f (fs w)). Qed.

Lemma silent_existsSync p w : silent (Fs.existsSync p) w.
Proof. done. Qed.

Lemma silent_readFileSync p w : silent (Fs.readFileSync p) w.
Proof. unfold silent, Fs.readFileSync. by destruct (fs w !! p) as [[?|?]|]. Qed.

Lemma silent_readdirSync p w : silent (Fs.readdirSync p) w.
Proof. unfold silent, Fs.readdirSync. by destruct (fs w !! p) as [[?|?]|]. Qed.

Lemma silent_copyFileSync src dest w : silent (Fs.copyFileSync src dest) w.
Proof.
  unfold silent, Fs.copyFileSync. destruct (fs w !! src) as [[?|?]|]; [|done..].
  apply silent_lift.
Qed.

Lemma silent_forEach {A : Type} (l : list A) (body : A → M unit) w :
  (∀ a w1, silent (body a) w1) → silent (forEach l body) w.
Proof.
  intros H. revert w. induction l as [|a l IH]; intros w; [done|].
  cbn [forEach]. apply silent_bind; [apply H|]. intros _ w1 _. apply IH.
Qed.

Lemma silent_copyDir sourceDir buildAssetsDir kind w :
  silent (copyDir sourceDir buildAssetsDir kind) w.
Proof.
  unfold copyDir. apply silent_bind; [done|]. intros b w1 _.
  destruct b; [|done]. cbv zeta.
  apply silent_bind; [done|]. intros b' w2 _.
  apply silent_bind; [destruct b'; [done|apply silent_lift]|].
  intros _ w3 _. apply silent_bind; [apply silent_readdirSync|].
  intros files w4 _. apply silent_forEach. intros f w5. apply silent_copyFileSync.
Qed.

Lemma silent_rewriteFile file rewrite w : silent (rewriteFile file rewrite) w.
Proof.
  unfold silent. rewrite rewriteFile_eq. by destruct (fs w !! file) as [[c|?]|].
Qed.

End FootprintFacts.

(** * Dollar signs *)

Module DollarFacts.
Import Dollar.

(** A replacement text without a pattern is put in as it is. *)
Lemma getSubstitution_verbatim matched preceding following r :
  special r = false → JS.getSubstitution matched preceding following r = r.
Proof.
  induction r as [|c r IH]; [done|]. cbn [special JS.getSubstitution].
  destruct r as [|d r].
  - intros _. by destruct (Ascii.eqb c "$").
  - intros [Hpair Hrest]%orb_false_elim. specialize (IH Hrest).
    destruct (Ascii.eqb c "$"); [|by rewrite IH]. cbn [andb] in Hpair.
    apply bool_decide_eq_false in Hpair. unfold patternChars in Hpair.
    rewrite !not_elem_of_cons in Hpair. destruct Hpair as (H1 & H2 & H3 & H4 & _).
    apply Ascii.eqb_neq in H1, H2, H3, H4. rewrite H1, H2, H3, H4. by rewrite IH.
Qed.

End DollarFacts.

(** * Templates as text and slots *)

Module SlotFacts.
Import Str StrFacts Placeholder PlaceholderFacts Slots.





Section Occurrences.
Variable U : string.
Hypothesis plain_U : plain U = true.


End Occurrences.

Section WithCase.
Context {caseMapping : CaseMapping}.












End WithCase.
End SlotFacts.

(** * The order of the components *)

Module OrderFacts.
Import Slots Order.
Section WithCase.
Context {caseMapping : CaseMapping}.

Lemma withHtml_cons m n names :
  withHtml m (n :: names)
  = if Frame.isFile m (componentFile n ".html") then toUpperCase n :: withHtml m names
    else withHtml m names.
Proof. unfold withHtml. cbn [List.filter]. by destruct (Frame.isFile m _). Qed.

Lemma fileText_isFile_iff m p :
  Frame.isFile m p = bool_decide (is_Some (Bundle.fileText m p)).
Proof.
  unfold Frame.isFile, Bundle.fileText. destruct (m !! p) as [[?|?]|]; symmetry;
    [apply bool_decide_eq_true_2; eauto|apply bool_decide_eq_false_2; by intros [? ?]..].
Qed.

Lemma markup_withHtml m names N h :
  markup m names N = Some h → N ∈ withHtml m names.
Proof.
  induction names as [|n names IH]; [done|]. cbn [markup]. rewrite withHtml_cons.
  rewrite fileText_isFile_iff.
  destruct (Bundle.fileText m (componentFile n ".html")) as [h'|].
  - rewrite bool_decide_eq_true_2 by eauto.
    destruct (String.eqb_spec (toUpperCase n) N) as [->|_]; [by left|].
    intros H. right. by apply IH.
  - by rewrite bool_decide_eq_false_2 by (by intros [? ?]).
Qed.






End WithCase.
End OrderFacts.

(** * The stages and the run *)

Section RunFacts.
Context {caseMapping : CaseMapping}.
Import Frame FrameFacts Footprint FootprintFacts.

Local Abbreviation index := (path.join config.buildDir ["index.html"]).
Local Abbreviation styles := (path.join config.buildDir ["styles.css"]).
Local Abbreviation scripts := (path.join config.buildDir ["scripts.js"]).

Lemma only_buildHTML w : only (output "index.html") buildHTML w.
Proof. unfold only. rewrite buildHTML_emit. apply only_emit. Qed.

Lemma only_buildCSS w : only (output "styles.css") buildCSS w.
Proof. unfold only. rewrite buildCSS_emit. apply only_emit. Qed.

Lemma only_buildJS w : only (output "scripts.js") buildJS w.
Proof. unfold only. rewrite buildJS_emit. apply only_emit. Qed.

Lemma output_inBuild out q : output out q → inBuild q.
Proof. by intros [->| ->]. Qed.

Lemma assets_inBuild q : assets q → inBuild q.
Proof. by intros [->|[->|[r ->]]]. Qed.

Lemma rewritten_inBuild q : rewritten q → inBuild q.
Proof. by intros [->| ->]. Qed.

Lemma only_runBuild w : only inBuild runBuild w.
Proof.
  unfold runBuild. apply only_bind; [by apply only_same|]. intros _ w0 _.
  apply only_bind; [eapply only_mono; [apply output_inBuild|apply only_buildHTML]|].
  intros _ w1 _.
  apply only_bind; [eapply only_mono; [apply output_inBuild|apply only_buildCSS]|].
  intros _ w2 _.
  apply only_bind; [eapply only_mono; [apply output_inBuild|apply only_buildJS]|].
  intros _ w3 _.
  apply only_bind; [eapply only_mono; [apply assets_inBuild|apply only_copyAssets]|].
  intros _ w4 _.
  apply only_bind; [eapply only_mono; [apply rewritten_inBuild|apply only_updateAssetPaths]|].
  intros _ w5 _. by apply only_same.
Qed.

Lemma only_main w : only inBuild main w.
Proof.
  unfold main. apply only_bind; [by apply only_same|]. intros b w1 _.
  apply only_bind; [|intros _ w2 _; apply only_runBuild].
  destruct b; [by apply only_same|]. cbn [negb].
  eapply only_mono; [|apply only_mkdirSync]. apply inBuild_between.
Qed.

(** X8: whether it returns or throws, each stage leaves every node of the
    file system as it was but its own: a builder its output and the
    listing of the build directory, [copyAssets] the assets directory of
    the build and what is below it (and the directories above, which it
    makes where they are missing), [updateAssetPaths] the merged page and
    the merged style sheet. *)
Theorem stages_keep_to_their_outputs w :
  Footprint.only (Footprint.output "index.html") buildHTML w
  ∧ Footprint.only (Footprint.output "styles.css") buildCSS w
  ∧ Footprint.only (Footprint.output "scripts.js") buildJS w
  ∧ Footprint.only Footprint.assets copyAssets w
  ∧ Footprint.only Footprint.rewritten updateAssetPaths w.
Proof.
  split; [apply only_buildHTML|]. split; [apply only_buildCSS|].
  split; [apply only_buildJS|]. split; [apply only_copyAssets|apply only_updateAssetPaths].
Qed.

(** X7: the script as a whole, whether it returns or throws, leaves every
    node outside the build directory as it was: the template, the
    components and the core files are read only. *)
Theorem main_keeps_sources w q :
  Frame.outside q = true → fs (worldAfter (main w)) !! q = fs w !! q.
Proof. intros Hq. apply only_main. unfold inBuild. congruence. Qed.

(** *** A builder writes last *)

Lemma emit_Throw start finish text out w e w' :
  Pure.emit start finish text out w = Throw e w' → fs w' = fs w.
Proof.
  unfold Pure.emit. destruct (text (fs w)) as [e'|t]; [by intros [= _ <-]|].
  destruct (Fs.write out t (fs w)) as [e'|m']; [by intros [= _ <-]|done].
Qed.

(** X9: a builder that throws has written nothing: it reads all its
    inputs before its one write, so the file system is as it found it. *)
Theorem builders_write_last w e w' :
  (buildHTML w = Throw e w' → fs w' = fs w)
  ∧ (buildCSS w = Throw e w' → fs w' = fs w)
  ∧ (buildJS w = Throw e w' → fs w' = fs w).
Proof.
  rewrite buildHTML_emit, buildCSS_emit, buildJS_emit.
  repeat split; apply emit_Throw.
Qed.

(** *** Each stage a second time *)

Lemma emit_again start finish text out w w1 :
  (∀ m m', agree m m' → text m' = text m) →
  Pure.emit start finish text (path.join config.buildDir [out]) w = Ok tt w1 →
  ∃ w2, Pure.emit start finish text (path.join config.buildDir [out]) w1 = Ok tt w2
        ∧ fs w2 = fs w1.
Proof.
  intros Htext (t & Ht & Hw)%emit_Ok.
  assert (Hag : agree (fs w) (fs w1)).
  { apply change_agree. eapply change_mono; [| |exact (change_write _ _ _ _ Hw)];
      cbn beta; by intros q ->. }
  apply (emit_run start finish text _ w1 t).
  - by rewrite (Htext _ _ Hag).
  - rewrite (FsFacts.write_existing _ _ _ t) by by eapply FsFacts.write_lookup.
    f_equal. apply insert_id. by eapply FsFacts.write_lookup.
Qed.

(** X15: a builder run again on the file system it has left returns and
    changes nothing. *)
Theorem builders_idempotent w w1 :
  (buildHTML w = Ok tt w1 → ∃ w2, buildHTML w1 = Ok tt w2 ∧ fs w2 = fs w1)
  ∧ (buildCSS w = Ok tt w1 → ∃ w2, buildCSS w1 = Ok tt w2 ∧ fs w2 = fs w1)
  ∧ (buildJS w = Ok tt w1 → ∃ w2, buildJS w1 = Ok tt w2 ∧ fs w2 = fs w1).
Proof.
  rewrite !buildHTML_emit, !buildCSS_emit, !buildJS_emit.
  split; [|split]; apply emit_again.
  - intros m m'. apply htmlText_agree.
  - intros m m' H. by apply bundleText_agree.
  - intros m m' H. by apply bundleText_agree.
Qed.

(** X16: [copyAssets] run again on the file system it has left returns
    and changes nothing. *)
Theorem copyAssets_idempotent w w1 :
  copyAssets w = Ok tt w1 → ∃ w2, copyAssets w1 = Ok tt w2 ∧ fs w2 = fs w1.
Proof.
  intros H. destruct (AssetFacts.copyAssets_Ok _ _ H) as (Hch & Hi & Hf & Ha & Hsi & Hsf).
  assert (Hag : agree (fs w) (fs w1))
    by exact (change_agree _ _ (changes_Ok _ _ _ _ _ _ (AssetFacts.copyAssets_changes w) H)).
  rewrite AssetFacts.copyAssets_again; [by eexists|done..| |done|].
  - by apply (copied_self (fs w)).
  - by apply (copied_self (fs w)).
Qed.

Lemma rewriteFile_settled file rewrite w :
  (∀ c, fs w !! file = Some (File c) → rewrite c = c) →
  Fs.isDir (fs w) file = false →
  rewriteFile file rewrite w = Ok tt w.
Proof.
  intros H Hd. rewrite rewriteFile_eq. unfold Fs.isDir in Hd.
  destruct (fs w !! file) as [[c|?]|] eqn:E; [|done..].
  rewrite (H c eq_refl), insert_id by done. by destruct w.
Qed.

Lemma updateAssetPaths_Ok w w1 :
  updateAssetPaths w = Ok tt w1 →
  (∀ c, fs w1 !! index = Some (File c) → ∃ c0, fs w !! index = Some (File c0) ∧ c = rewriteHtml c0)
  ∧ (∀ c, fs w1 !! styles = Some (File c) → ∃ c0, fs w !! styles = Some (File c0) ∧ c = rewriteCss c0)
  ∧ Fs.isDir (fs w1) index = false ∧ Fs.isDir (fs w1) styles = false.
Proof.
  unfold updateAssetPaths, mbind, M_bind. rewrite log_eq, !rewriteFile_eq. cbn [fs].
  unfold Fs.isDir.
  destruct (fs w !! index) as [[h|?]|] eqn:Eh; [|done|]; cbn [fs setFs];
    rewrite rewriteFile_eq; cbn [fs setFs]; rewrite ?lookup_insert_ne by done;
    (destruct (fs w !! styles) as [[s|?]|] eqn:Es; [|done|]); cbn [fs setFs];
    intros [= <-]; cbn [fs]; rewrite ?lookup_insert_eq, ?lookup_insert_ne by done;
    rewrite ?lookup_insert_eq, ?Eh, ?Es; repeat split; try done;
    intros c [= <-]; by eexists.
Qed.

(** X18: [updateAssetPaths] run again on the file system it has left
    returns and changes nothing: no rewritten path is rewritten a second
    time. *)
Theorem updateAssetPaths_idempotent w w1 :
  updateAssetPaths w = Ok tt w1 →
  ∃ w2, updateAssetPaths w1 = Ok tt w2 ∧ fs w2 = fs w1.
Proof.
  intros (Hh & Hs & Hdh & Hds)%updateAssetPaths_Ok.
  unfold updateAssetPaths, mbind, M_bind. rewrite log_eq.
  rewrite rewriteFile_settled; cbn [fs]; [|intros c Hc|done].
  - rewrite rewriteFile_settled; cbn [fs]; [by eexists|intros c Hc|done].
    destruct (Hs c Hc) as (c0 & _ & ->). apply RewriteMore.rewriteCss_again.
  - destruct (Hh c Hc) as (c0 & _ & ->). apply RewriteMore.rewriteHtml_again.
Qed.

(** *** The outputs of a run *)

Lemma htmlLoop_page m names template html :
  Pure.htmlLoop m names template = inr html → html = Page.merged m names template.
Proof.
  unfold Pure.htmlLoop. revert template. induction names as [|n names IH]; intros template.
  - by intros [= <-].
  - cbn [Pure.fold Page.merged]. unfold Pure.step, Bundle.fileText.
    destruct (m !! componentFile n ".html") as [[c|?]|]; [apply IH|done|apply IH].
Qed.

Lemma coreLoop_inr dir m files combined t :
  Pure.coreLoop dir m files combined = inr t →
  t = combined +:+ Bundle.coreSection m dir files.
Proof.
  unfold Pure.coreLoop. revert combined. induction files as [|f files IH]; intros combined.
  - cbn. intros [= <-]. by rewrite StrFacts.app_nil_r.
  - cbn [Pure.fold Bundle.coreSection]. unfold Pure.step, Bundle.fileText.
    destruct (m !! path.join dir [f]) as [[c|?]|]; [|done|apply IH].
    intros ->%IH. unfold Pure.addCore. by rewrite !StrFacts.app_assoc.
Qed.

Lemma componentLoop_inr extension label m names combined t :
  Pure.componentLoop extension label m names combined = inr t →
  t = combined +:+ Bundle.componentSection m extension label names.
Proof.
  unfold Pure.componentLoop. revert combined.
  induction names as [|n names IH]; intros combined.
  - cbn. intros [= <-]. by rewrite StrFacts.app_nil_r.
  - cbn [Pure.fold Bundle.componentSection]. unfold Pure.step, Bundle.fileText.
    destruct (m !! componentFile n extension) as [[c|?]|]; [|done|apply IH].
    intros ->%IH. unfold Pure.addComponent, Bundle.banner. by rewrite !StrFacts.app_assoc.
Qed.

Lemma componentNames_inr m names :
  Pure.componentNames m = inr names →
  ∃ entries, m !! config.componentsDir = Some (Dir entries)
             ∧ names = Pure.dirNames m config.componentsDir entries.
Proof.
  unfold Pure.componentNames, Pure.listing.
  destruct (m !! config.componentsDir) as [[?|entries]|]; [done| |done].
  intros [= <-]. by exists entries.
Qed.

Lemma bundleText_inr dir files extension label m t :
  Pure.bundleText dir files extension label m = inr t →
  ∃ entries, m !! config.componentsDir = Some (Dir entries)
             ∧ t = Bundle.merged dir files extension label m entries.
Proof.
  unfold Pure.bundleText, Bundle.merged.
  destruct (Pure.coreLoop dir m files EmptyString) as [e|core] eqn:Ec; [done|].
  apply coreLoop_inr in Ec. cbn in Ec. subst core.
  destruct (Pure.componentNames m) as [e|names] eqn:En; [done|].
  apply componentNames_inr in En as (entries & He & ->).
  intros ->%componentLoop_inr. by exists entries.
Qed.

Lemma htmlText_inr m html :
  Pure.htmlText m = inr html →
  ∃ template entries,
    m !! config.templateFile = Some (File template)
    ∧ m !! config.componentsDir = Some (Dir entries)
    ∧ html = Page.merged m (Pure.dirNames m config.componentsDir entries) template.
Proof.
  unfold Pure.htmlText.
  destruct (m !! config.templateFile) as [[template|?]|]; [|done..].
  destruct (Pure.componentNames m) as [e|names] eqn:En; [done|].
  apply componentNames_inr in En as (entries & He & ->).
  intros ->%htmlLoop_page. by exists template, entries.
Qed.

Lemma only_agree {A : Type} W (c : M A) w :
  only W c w → (∀ q, W q → inBuild q) → agree (fs w) (fs (worldAfter (c w))).
Proof. intros H HW q Hq. apply H. intros ?%HW. unfold inBuild in *. congruence. Qed.

(** What a run that returns has read and written. *)
Lemma runBuild_Ok w w' :
  runBuild w = Ok tt w' →
  ∃ html css js,
    Pure.htmlText (fs w) = inr html
    ∧ Pure.cssText (fs w) = inr css
    ∧ Pure.jsText (fs w) = inr js
    ∧ fs w' !! index = Some (File (rewriteHtml html))
    ∧ fs w' !! styles = Some (File (rewriteCss css))
    ∧ fs w' !! scripts = Some (File js).
Proof.
  intros H. rewrite runBuild_eq in H.
  set (w0 := mkWorld (fs w) (console w ++ ["Starting build process..."])) in H.
  change (fs w) with (fs w0). clearbody w0.
  destruct (buildHTML w0) as [[] w1|] eqn:E1; [|done].
  destruct (buildCSS w1) as [[] w2|] eqn:E2; [|done].
  destruct (buildJS w2) as [[] w3|] eqn:E3; [|done].
  destruct (copyAssets w3) as [[] w4|] eqn:E4; [|done].
  destruct (updateAssetPaths w4) as [[] w5|] eqn:E5; [|done].
  injection H as <-. cbn [fs].
  pose proof (only_Ok _ _ _ _ _ (only_buildHTML w0) E1) as O1.
  pose proof (only_Ok _ _ _ _ _ (only_buildCSS w1) E2) as O2.
  pose proof (only_Ok _ _ _ _ _ (only_buildJS w2) E3) as O3.
  pose proof (only_Ok _ _ _ _ _ (only_copyAssets w3) E4) as O4.
  assert (A1 : agree (fs w0) (fs w1)).
  { intros q Hq. apply O1. intros ?%output_inBuild. unfold inBuild in *. congruence. }
  assert (A2 : agree (fs w1) (fs w2)).
  { intros q Hq. apply O2. intros ?%output_inBuild. unfold inBuild in *. congruence. }
  rewrite buildHTML_emit in E1. apply emit_Ok in E1 as (html & Th & Wh).
  rewrite buildCSS_emit in E2. apply emit_Ok in E2 as (css & Tc & Wc).
  rewrite buildJS_emit in E3. apply emit_Ok in E3 as (js & Tj & Wj).
  apply FsFacts.write_lookup in Wh, Wc, Wj.
  assert (Hi4 : fs w4 !! index = Some (File html)).
  { rewrite O4, O3, O2 by (first [by intros [?|?]|by intros [?|[?|[r ?]]]]). done. }
  assert (Hs4 : fs w4 !! styles = Some (File css)).
  { rewrite O4, O3 by (first [by intros [?|?]|by intros [?|[?|[r ?]]]]). done. }
  assert (Hj4 : fs w4 !! scripts = Some (File js)).
  { rewrite O4 by (by intros [?|[?|[r ?]]]). done. }
  rewrite (updateAssetPaths_eq _ _ _ Hi4 Hs4) in E5. injection E5 as <-. cbn [fs].
  exists html, css, js. split; [done|]. split; [|split; [|split; [|split]]].
  - rewrite <- Tc. symmetry. by apply bundleText_agree.
  - rewrite <- Tj. symmetry. apply bundleText_agree; [|done]. by eapply agree_trans.
  - rewrite lookup_insert_ne by done. apply lookup_insert_eq.
  - apply lookup_insert_eq.
  - by rewrite !lookup_insert_ne.
Qed.

(** X1: a run that returns has read a template and a components
    directory and leaves three outputs computed from the file system it
    started in: [index.html] is the merged page with its asset paths
    rewritten, [styles.css] the merged style sheet with its asset paths
    rewritten, and [scripts.js] the merged script as merged, which no
    rewrite touches. *)
Theorem runBuild_outputs w w' :
  runBuild w = Ok tt w' →
  ∃ template entries,
    fs w !! config.templateFile = Some (File template)
    ∧ fs w !! config.componentsDir = Some (Dir entries)
    ∧ fs w' !! path.join config.buildDir ["index.html"]
      = Some (File (rewriteHtml
                      (Page.merged (fs w)
                         (Pure.dirNames (fs w) config.componentsDir entries) template)))
    ∧ fs w' !! path.join config.buildDir ["styles.css"]
      = Some (File (rewriteCss
                      (Bundle.merged config.coreStylesDir coreStyles ".css" "Styles"
                         (fs w) entries)))
    ∧ fs w' !! path.join config.buildDir ["scripts.js"]
      = Some (File (Bundle.merged config.coreScriptsDir coreScripts ".js" "Script"
                      (fs w) entries)).
Proof.
  intros (html & css & js & Th & Tc & Tj & Hi & Hs & Hj)%runBuild_Ok.
  apply htmlText_inr in Th as (template & entries & Ht & He & ->).
  apply bundleText_inr in Tc as (entries1 & He1 & ->).
  apply bundleText_inr in Tj as (entries2 & He2 & ->).
  assert (entries1 = entries) as -> by congruence.
  assert (entries2 = entries) as -> by congruence.
  by exists template, entries.
Qed.

(** X2: the outputs of a run do not depend on what the build directory
    held before: two runs that return, started in file systems with the
    same nodes outside the build directory, leave the same [index.html],
    [styles.css] and [scripts.js]. *)
Theorem runBuild_regenerates w x w' x' :
  Frame.agree (fs w) (fs x) →
  runBuild w = Ok tt w' → runBuild x = Ok tt x' →
  ∀ out, out ∈ ["index.html"; "styles.css"; "scripts.js"] →
    fs x' !! path.join config.buildDir [out] = fs w' !! path.join config.buildDir [out].
Proof.
  intros Hag (html & css & js & Th & Tc & Tj & Hi & Hs & Hj)%runBuild_Ok
    (html' & css' & js' & Th' & Tc' & Tj' & Hi' & Hs' & Hj')%runBuild_Ok out Hout.
  rewrite (htmlText_agree _ _ Hag) in Th'.
  unfold Pure.cssText, Pure.jsText in *.
  rewrite (bundleText_agree _ _ _ _ _ _ Hag) in Tc' by done.
  rewrite (bundleText_agree _ _ _ _ _ _ Hag) in Tj' by done.
  assert (html' = html) as -> by congruence.
  assert (css' = css) as -> by congruence.
  assert (js' = js) as -> by congruence.
  apply elem_of_cons in Hout as [->|[->|[->|[]%elem_of_nil]%elem_of_cons]%elem_of_cons];
    congruence.
Qed.

(** X10: when [buildHTML] would return but the run throws, the run leaves
    [index.html] as [buildHTML] writes it: the merged page is in the
    build directory, its asset paths not rewritten. *)
Theorem failed_run_leaves_page_unrewritten w w1 e w' :
  buildHTML w = Ok tt w1 → runBuild w = Throw e w' →
  fs w' !! path.join config.buildDir ["index.html"]
  = fs w1 !! path.join config.buildDir ["index.html"].
Proof.
  intros H1 H. rewrite runBuild_eq in H.
  set (w0 := mkWorld (fs w) (console w ++ ["Starting build process..."])) in H.
  rewrite buildHTML_emit in H1. apply emit_Ok in H1 as (html & Th & Wh).
  destruct (emit_run "Building HTML..." "HTML build complete." Pure.htmlText index w0
              html (fs w1) Th Wh) as (w1' & E1 & Hw1).
  rewrite buildHTML_emit, E1 in H. rewrite <- Hw1. clear E1 Th. clearbody w0.
  apply FsFacts.write_lookup in Wh. rewrite <- Hw1 in Wh. clear Hw1 w1.
  pose proof (only_buildCSS w1') as O2. unfold only in O2.
  destruct (buildCSS w1') as [[] w2|e2 w2] eqn:E2; cbn [worldAfter] in O2.
  2:{ injection H as _ <-. apply O2. by intros [?|?]. }
  rewrite buildCSS_emit in E2. apply emit_Ok in E2 as (css & _ & Wc%FsFacts.write_lookup).
  pose proof (only_buildJS w2) as O3. unfold only in O3.
  destruct (buildJS w2) as [[] w3|e3 w3] eqn:E3; cbn [worldAfter] in O3.
  2:{ injection H as _ <-. rewrite O3, O2 by by intros [?|?]. done. }
  pose proof (only_copyAssets w3) as O4. unfold only in O4.
  destruct (copyAssets w3) as [[] w4|e4 w4] eqn:E4; cbn [worldAfter] in O4.
  2:{ injection H as _ <-. rewrite O4, O3, O2 by (first [by intros [?|?]|by intros [?|[?|[r ?]]]]). done. }
  assert (Hi4 : fs w4 !! index = Some (File html)).
  { rewrite O4, O3, O2 by (first [by intros [?|?]|by intros [?|[?|[r ?]]]]). done. }
  assert (Hs4 : fs w4 !! styles = Some (File css)).
  { rewrite O4, O3 by (first [by intros [?|?]|by intros [?|[?|[r ?]]]]). done. }
  by rewrite (updateAssetPaths_eq _ _ _ Hi4 Hs4) in H.
Qed.

(** *** The console *)

Lemma stage_emit start finish text out w :
  Log.stage start finish (Pure.emit start finish text out) w.
Proof.
  unfold Log.stage, Pure.emit. destruct (text (fs w)) as [e|t]; [done|].
  destruct (Fs.write out t (fs w)) as [e|m']; [done|]. cbn [console].
  by rewrite <- app_assoc.
Qed.

Lemma stage_copyAssets w : Log.stage "Copying assets..." "Assets copied." copyAssets w.
Proof.
  unfold Log.stage. rewrite AssetFacts.copyAssets_eq. cbv zeta.
  set (w0 := mkWorld (fs w) (console w ++ ["Copying assets..."])).
  assert (H0 : console w0 = console w ++ ["Copying assets..."]) by done. clearbody w0.
  assert (H1 : silent (λ w0, match fs w0 !! Assets.buildAssetsDir with
                             | Some _ => Ok tt w0
                             | None => Fs.mkdirSync Assets.buildAssetsDir w0
                             end) w0).
  { unfold silent. destruct (fs w0 !! _); [done|apply silent_lift]. }
  unfold silent in H1.
  destruct (match fs w0 !! Assets.buildAssetsDir with Some _ => _ | None => _ end)
    as [[] w1|e w1]; cbn [worldAfter] in H1; [|congruence].
  pose proof (silent_copyDir imagesDir Assets.buildAssetsDir "images" w1) as H2.
  unfold silent in H2.
  destruct (copyDir imagesDir _ _ w1) as [[] w2|e w2]; cbn [worldAfter] in H2; [|congruence].
  pose proof (silent_copyDir fontsDir Assets.buildAssetsDir "fonts" w2) as H3.
  unfold silent in H3.
  destruct (copyDir fontsDir _ _ w2) as [[] w3|e w3]; cbn [worldAfter] in H3; [|congruence].
  cbn [console]. rewrite H3, H2, H1, H0. by rewrite <- app_assoc.
Qed.

Lemma stage_updateAssetPaths w :
  Log.stage "Updating asset paths..." "Asset paths updated." updateAssetPaths w.
Proof.
  unfold Log.stage, updateAssetPaths, mbind, M_bind. rewrite log_eq.
  set (w0 := mkWorld (fs w) (console w ++ ["Updating asset paths..."])).
  assert (H0 : console w0 = console w ++ ["Updating asset paths..."]) by done. clearbody w0.
  pose proof (silent_rewriteFile index rewriteHtml w0) as H1. unfold silent in H1.
  destruct (rewriteFile index rewriteHtml w0) as [[] w1|e w1]; cbn [worldAfter] in H1;
    [|congruence].
  pose proof (silent_rewriteFile styles rewriteCss w1) as H2. unfold silent in H2.
  destruct (rewriteFile styles rewriteCss w1) as [[] w2|e w2]; cbn [worldAfter] in H2;
    [|congruence].
  rewrite log_eq. cbn [console]. rewrite H2, H1, H0. by rewrite <- app_assoc.
Qed.

(** X5: a run that returns has written its twelve lines on the console,
    in order; a run that throws has written the first line of the stage
    that threw and both lines of every stage before it, so the last line
    on the console names the stage that failed. *)
Theorem runBuild_console w :
  match runBuild w with
  | Ok _ w' => console w' = console w ++ Log.lines
  | Throw _ w' => ∃ k, k < 5 ∧ console w' = console w ++ take (2 * k + 2) Log.lines
  end.
Proof.
  rewrite runBuild_eq.
  set (w0 := mkWorld (fs w) (console w ++ ["Starting build process..."])).
  assert (H0 : console w0 = console w ++ ["Starting build process..."]) by done.
  clearbody w0.
  pose proof (stage_emit "Building HTML..." "HTML build complete." Pure.htmlText index w0)
    as H1. unfold Log.stage in H1. rewrite <- buildHTML_emit in H1.
  destruct (buildHTML w0) as [[] w1|e w1].
  2:{ exists 0. split; [lia|]. rewrite H1, H0. by rewrite <- app_assoc. }
  pose proof (stage_emit "Building CSS..." "CSS build complete." Pure.cssText styles w1)
    as H2. unfold Log.stage in H2. rewrite <- buildCSS_emit in H2.
  destruct (buildCSS w1) as [[] w2|e w2].
  2:{ exists 1. split; [lia|]. rewrite H2, H1, H0. by rewrite <- !app_assoc. }
  pose proof (stage_emit "Building JavaScript..." "JavaScript build complete." Pure.jsText
                scripts w2) as H3. unfold Log.stage in H3. rewrite <- buildJS_emit in H3.
  destruct (buildJS w2) as [[] w3|e w3].
  2:{ exists 2. split; [lia|]. rewrite H3, H2, H1, H0. by rewrite <- !app_assoc. }
  pose proof (stage_copyAssets w3) as H4. unfold Log.stage in H4.
  destruct (copyAssets w3) as [[] w4|e w4].
  2:{ exists 3. split; [lia|]. rewrite H4, H3, H2, H1, H0. by rewrite <- !app_assoc. }
  pose proof (stage_updateAssetPaths w4) as H5. unfold Log.stage in H5.
  destruct (updateAssetPaths w4) as [[] w5|e w5].
  2:{ exists 4. split; [lia|]. rewrite H5, H4, H3, H2, H1, H0. by rewrite <- !app_assoc. }
  cbn [console]. rewrite H5, H4, H3, H2, H1, H0. by rewrite <- !app_assoc.
Qed.

(** *** What is required *)

Lemma emit_inl start finish text out w e :
  text (fs w) = inl e → ∃ e' w', Pure.emit start finish text out w = Throw e' w' ∧ fs w' = fs w.
Proof. intros H. unfold Pure.emit. rewrite H. by eexists _, _. Qed.

Lemma componentNames_inl m :
  Fs.isDir m config.componentsDir = false → ∃ e, Pure.componentNames m = inl e.
Proof.
  unfold Fs.isDir, Pure.componentNames, Pure.listing.
  destruct (m !! config.componentsDir) as [[?|?]|]; [|done|]; by eexists.
Qed.

Lemma htmlText_components m :
  Fs.isDir m config.componentsDir = false → ∃ e, Pure.htmlText m = inl e.
Proof.
  intros [e He]%componentNames_inl. unfold Pure.htmlText. rewrite He.
  destruct (m !! config.templateFile) as [[?|?]|]; by eexists.
Qed.

Lemma bundleText_components dir files extension label m :
  Fs.isDir m config.componentsDir = false →
  ∃ e, Pure.bundleText dir files extension label m = inl e.
Proof.
  intros [e He]%componentNames_inl. unfold Pure.bundleText. rewrite He.
  destruct (Pure.coreLoop _ _ _ _); by eexists.
Qed.

(** X11: the components directory is as required as the template: where
    it is missing, or is a regular file, each of the three builders
    throws, and so does the run, with the file system as it was. *)
Theorem components_directory_required w :
  Fs.isDir (fs w) config.componentsDir = false →
  (∃ e w', buildHTML w = Throw e w' ∧ fs w' = fs w)
  ∧ (∃ e w', buildCSS w = Throw e w' ∧ fs w' = fs w)
  ∧ (∃ e w', buildJS w = Throw e w' ∧ fs w' = fs w)
  ∧ (∃ e w', runBuild w = Throw e w' ∧ fs w' = fs w).
Proof.
  intros H. rewrite buildHTML_emit, buildCSS_emit, buildJS_emit.
  destruct (htmlText_components _ H) as [eh Hh].
  destruct (bundleText_components config.coreStylesDir coreStyles ".css" "Styles" _ H)
    as [ec Hc].
  destruct (bundleText_components config.coreScriptsDir coreScripts ".js" "Script" _ H)
    as [ej Hj].
  split; [by eapply emit_inl|]. split; [by eapply emit_inl|]. split; [by eapply emit_inl|].
  rewrite runBuild_eq, buildHTML_emit.
  destruct (emit_inl "Building HTML..." "HTML build complete." Pure.htmlText index
              (mkWorld (fs w) (console w ++ ["Starting build process..."])) eh Hh)
    as (e & w' & -> & Hw'). by exists e, w'.
Qed.

(** A loop over optional files throws at a directory. *)
Lemma fold_throws {A S : Type} (file : A → path) (g : S → A → string → S) m l a :
  a ∈ l → Fs.isDir m (file a) = true → ∀ s, ∃ e, Pure.fold file g m l s = inl e.
Proof.
  intros Ha Hd. induction l as [|b l IH]; intros s; [by apply elem_of_nil in Ha|].
  cbn [Pure.fold]. unfold Pure.step. apply elem_of_cons in Ha as [<-|Ha].
  - unfold Fs.isDir in Hd. destruct (m !! file a) as [[?|?]|]; [done| |done]. by eexists.
  - destruct (m !! file b) as [[?|?]|]; [by apply IH|by eexists|by apply IH].
Qed.

Lemma bundleText_core dir files extension label m f :
  f ∈ files → Fs.isDir m (path.join dir [f]) = true →
  ∃ e, Pure.bundleText dir files extension label m = inl e.
Proof.
  intros Hf Hd. unfold Pure.bundleText, Pure.coreLoop.
  destruct (fold_throws (λ f, path.join dir [f]) Pure.addCore m files f Hf Hd EmptyString)
    as [e ->]. by eexists.
Qed.

Lemma dirNames_elem m dir entries n :
  n ∈ entries → Fs.isDir m (dir ++ [n]) = true → n ∈ Pure.dirNames m dir entries.
Proof.
  intros Hn Hd. unfold Pure.dirNames. apply list_elem_of_In, filter_In.
  split; [by apply list_elem_of_In|done].
Qed.

Lemma bundleText_component dir files extension label m entries n :
  m !! config.componentsDir = Some (Dir entries) → n ∈ entries →
  Fs.isDir m (path.join config.componentsDir [n]) = true →
  Fs.isDir m (componentFile n extension) = true →
  ∃ e, Pure.bundleText dir files extension label m = inl e.
Proof.
  intros He Hn Hdn Hd. unfold Pure.bundleText.
  destruct (Pure.coreLoop _ _ _ _) as [e|core]; [by eexists|].
  unfold Pure.componentNames, Pure.listing. rewrite He. unfold Pure.componentLoop.
  apply (fold_throws _ _ _ _ n); [by apply dirNames_elem|done].
Qed.

Lemma htmlText_component m entries n :
  m !! config.componentsDir = Some (Dir entries) → n ∈ entries →
  Fs.isDir m (path.join config.componentsDir [n]) = true →
  Fs.isDir m (componentFile n ".html") = true →
  ∃ e, Pure.htmlText m = inl e.
Proof.
  intros He Hn Hdn Hd. unfold Pure.htmlText.
  destruct (m !! config.templateFile) as [[template|?]|]; [|by eexists..].
  unfold Pure.componentNames, Pure.listing. rewrite He. unfold Pure.htmlLoop.
  apply (fold_throws _ _ _ _ n); [by apply dirNames_elem|done].
Qed.

(** X12: [existsSync] does not tell a file from a directory: where a
    directory stands at the place of a core style sheet or script, or of
    a component's HTML file, style sheet or script, the builder that
    looks for that file throws, with the file system as it was; it does
    not pass over the entry. *)
Theorem directory_for_optional_file_aborts w :
  (∀ f, f ∈ coreStyles → Fs.isDir (fs w) (path.join config.coreStylesDir [f]) = true →
        ∃ e w', buildCSS w = Throw e w' ∧ fs w' = fs w)
  ∧ (∀ f, f ∈ coreScripts → Fs.isDir (fs w) (path.join config.coreScriptsDir [f]) = true →
          ∃ e w', buildJS w = Throw e w' ∧ fs w' = fs w)
  ∧ (∀ entries n,
       fs w !! config.componentsDir = Some (Dir entries) → n ∈ entries →
       Fs.isDir (fs w) (path.join config.componentsDir [n]) = true →
       (Fs.isDir (fs w) (componentFile n ".html") = true →
        ∃ e w', buildHTML w = Throw e w' ∧ fs w' = fs w)
       ∧ (Fs.isDir (fs w) (componentFile n ".css") = true →
          ∃ e w', buildCSS w = Throw e w' ∧ fs w' = fs w)
       ∧ (Fs.isDir (fs w) (componentFile n ".js") = true →
          ∃ e w', buildJS w = Throw e w' ∧ fs w' = fs w)).
Proof.
  rewrite buildHTML_emit, buildCSS_emit, buildJS_emit. split; [|split].
  - intros f Hf Hd.
    destruct (bundleText_core config.coreStylesDir coreStyles ".css" "Styles" _ f Hf Hd)
      as [e He]. by eapply emit_inl.
  - intros f Hf Hd.
    destruct (bundleText_core config.coreScriptsDir coreScripts ".js" "Script" _ f Hf Hd)
      as [e He]. by eapply emit_inl.
  - intros entries n He Hn Hdn. split; [|split]; intros Hd.
    + destruct (htmlText_component _ _ _ He Hn Hdn Hd) as [e Ht]. by eapply emit_inl.
    + destruct (bundleText_component config.coreStylesDir coreStyles ".css" "Styles"
                  _ _ _ He Hn Hdn Hd) as [e Ht]. by eapply emit_inl.
    + destruct (bundleText_component config.coreScriptsDir coreScripts ".js" "Script"
                  _ _ _ He Hn Hdn Hd) as [e Ht]. by eapply emit_inl.
Qed.

(** X13: where [build] is a regular file the script does not make the
    directory (the path exists) and the run throws at its first write,
    if not before, with the file system as it was. *)
Theorem build_as_regular_file w c :
  fs w !! config.buildDir = Some (File c) →
  fs w !! path.join config.buildDir ["index.html"] = None →
  ∃ e w', main w = Throw e w' ∧ fs w' = fs w.
Proof.
  intros Hb Hi. unfold main, mbind, M_bind, Fs.existsSync.
  rewrite bool_decide_eq_true_2 by eauto. cbn [negb mret M_ret].
  rewrite runBuild_eq, buildHTML_emit. unfold Pure.emit. cbn [fs console].
  destruct (Pure.htmlText (fs w)) as [e|html]; [by eexists _, _|].
  unfold Fs.write, Fs.create. rewrite Hi. unfold path.join. rewrite removelast_last, Hb.
  by eexists _, _.
Qed.

(** *** The directories [copyAssets] makes *)

Lemma only_copyDir_kind sourceDir kind w :
  only (λ q, between [] (path.join Assets.buildAssetsDir [kind]) q
             ∨ ∃ f, q = Assets.destination kind f)
    (copyDir sourceDir Assets.buildAssetsDir kind) w.
Proof.
  unfold copyDir. apply only_bind; [by apply only_same|]. intros b w1 _.
  destruct b; [|by apply only_same]. cbv zeta.
  apply only_bind; [by apply only_same|]. intros b' w2 _.
  apply only_bind.
  { destruct b'; [by apply only_same|]. cbn [negb].
    eapply only_mono; [|apply only_mkdirSync]. cbn beta. tauto. }
  intros _ w3 _. apply only_bind.
  { apply only_same. unfold Fs.readdirSync. by destruct (fs w3 !! sourceDir) as [[?|?]|]. }
  intros files w4 _. apply only_forEach. intros f w5.
  eapply only_mono; [|apply only_copyFileSync]. cbn beta.
  intros q [->| ->].
  - right. by exists f.
  - left. exists 3. unfold path.join. by rewrite removelast_last.
Qed.

Lemma copyDir_absent sourceDir kind w :
  fs w !! sourceDir = None → copyDir sourceDir Assets.buildAssetsDir kind w = Ok tt w.
Proof. intros H. by rewrite AssetFacts.copyDir_eq, H. Qed.

Lemma below_kind_not_between kind r :
  ¬ between [] Assets.buildAssetsDir (Assets.buildAssetsDir ++ kind :: r).
Proof. intros [[|[|[|k]]] H]; done. Qed.

Lemma below_kind_other kind kind' r :
  kind ≠ kind' →
  ¬ (between [] (path.join Assets.buildAssetsDir [kind']) (Assets.buildAssetsDir ++ kind :: r)
     ∨ ∃ f, Assets.buildAssetsDir ++ kind :: r = Assets.destination kind' f).
Proof.
  intros Hne [[[|[|[|[|k]]]] H]|[f H]]; try done; injection H; congruence.
Qed.

(** X17: [copyAssets], when it returns, has made sure of [build/assets]
    even where there is nothing to copy; the directory for the images
    or the fonts is there if their source directory exists, even an
    empty one, and where the source directory does not exist nothing at
    or below that directory of the build is made or changed. *)
Theorem copyAssets_directories w w' :
  copyAssets w = Ok tt w' →
  is_Some (fs w' !! Assets.buildAssetsDir)
  ∧ ∀ dir kind, (dir, kind) ∈ [(imagesDir, "images"); (fontsDir, "fonts")] →
      (is_Some (fs w !! dir) →
       is_Some (fs w' !! path.join Assets.buildAssetsDir [kind]))
      ∧ (fs w !! dir = None →
         ∀ r, fs w' !! (Assets.buildAssetsDir ++ kind :: r)
              = fs w !! (Assets.buildAssetsDir ++ kind :: r)).
Proof.
  intros H. destruct (AssetFacts.copyAssets_Ok _ _ H) as (_ & _ & _ & Ha & Hsi & Hsf).
  assert (Hag : agree (fs w) (fs w'))
    by exact (change_agree _ _ (changes_Ok _ _ _ _ _ _ (AssetFacts.copyAssets_changes w) H)).
  split; [done|]. intros dir kind Hk. split.
  - intros Hs.
    apply elem_of_cons in Hk as [[= -> ->]|[[= -> ->]|[]%elem_of_nil]%elem_of_cons].
    + apply Hsi. by rewrite (Hag imagesDir).
    + apply Hsf. by rewrite (Hag fontsDir).
  - intros Hnone r. rewrite AssetFacts.copyAssets_eq in H. cbv zeta in H.
    set (w0 := mkWorld (fs w) (console w ++ ["Copying assets..."])) in H.
    change (fs w) with (fs w0) in Hnone |- *. clearbody w0.
    assert (O1 : only (between [] Assets.buildAssetsDir)
                   (λ w0, match fs w0 !! Assets.buildAssetsDir with
                          | Some _ => Ok tt w0
                          | None => Fs.mkdirSync Assets.buildAssetsDir w0
                          end) w0).
    { unfold only. destruct (fs w0 !! Assets.buildAssetsDir); [done|].
      apply only_mkdirSync. }
    unfold only in O1.
    destruct (match fs w0 !! Assets.buildAssetsDir with Some _ => _ | None => _ end)
      as [[] w1|e w1]; [|done]. cbn [worldAfter] in O1.
    destruct (copyDir imagesDir _ _ w1) as [[] w2|e w2] eqn:E2; [|done].
    destruct (copyDir fontsDir _ _ w2) as [[] w3|e w3] eqn:E3; [|done].
    injection H as <-. cbn [fs].
    pose proof (only_Ok _ _ _ _ _ (only_copyDir_kind imagesDir "images" w1) E2) as O2.
    pose proof (only_Ok _ _ _ _ _ (only_copyDir_kind fontsDir "fonts" w2) E3) as O3.
    apply elem_of_cons in Hk as [[= -> ->]|[[= -> ->]|[]%elem_of_nil]%elem_of_cons].
    + rewrite copyDir_absent in E2.
      2:{ rewrite O1; [done|]. intros [[|[|[|k]]] ?]; done. }
      injection E2 as <-.
      rewrite O3 by by apply below_kind_other. apply O1, below_kind_not_between.
    + rewrite copyDir_absent in E3.
      2:{ rewrite O2, O1; [done|intros [[|[|[|k]]] ?]; done|].
          intros [[[|[|[|[|k]]]] ?]|[f ?]]; done. }
      injection E3 as <-.
      rewrite O2 by by apply below_kind_other. apply O1, below_kind_not_between.
Qed.

(** X19: once [updateAssetPaths] has returned, the merged page contains
    neither of the two prefixes it rewrites and the merged style sheet
    none of the six forms ([url(] with a single quote, a double quote or
    no quote, before the images or the fonts prefix): every occurrence
    is rewritten and the rewriting brings in no new one. *)
Theorem updateAssetPaths_complete w w' :
  updateAssetPaths w = Ok tt w' →
  (∀ html p, fs w' !! path.join config.buildDir ["index.html"] = Some (File html) →
             p ∈ [Spec.srcImages; Spec.hrefImages] → Str.includes p html = false)
  ∧ (∀ css p, fs w' !! path.join config.buildDir ["styles.css"] = Some (File css) →
              p ∈ Spec.urlForms "core/assets/images/" ++ Spec.urlForms "core/assets/fonts/" →
              Str.includes p css = false).
Proof.
  intros (Hh & Hs & _)%updateAssetPaths_Ok. split.
  - intros html p (c0 & _ & ->)%Hh Hp. by apply RewriteMore.rewriteHtml_complete.
  - intros css p (c0 & _ & ->)%Hs Hp. by apply RewriteMore.rewriteCss_complete.
Qed.

(** *** Nothing is cleaned *)

Lemma rewriteFile_changes file rewrite w :
  changes (λ q, q = file) (λ _, False) (rewriteFile file rewrite) w.
Proof.
  unfold changes. rewrite rewriteFile_eq.
  destruct (fs w !! file) as [[c|?]|] eqn:E; [|unchanged..].
  cbn [fs setFs]. intros q. destruct (decide (q = file)) as [->|Hq].
  - right. left. unfold isFile, Fs.isDir. by rewrite lookup_insert_eq, E.
  - left. by rewrite lookup_insert_ne.
Qed.

Lemma updateAssetPaths_changes w :
  changes (λ q, q = index ∨ q = styles) (λ _, False) updateAssetPaths w.
Proof.
  unfold updateAssetPaths. apply changes_bind; [unchanged|]. intros _ w1 _.
  apply changes_bind.
  { eapply changes_mono; [| |apply rewriteFile_changes]; cbn beta; [by left|done]. }
  intros _ w2 _. apply changes_bind.
  { eapply changes_mono; [| |apply rewriteFile_changes]; cbn beta; [by right|done]. }
  intros _ w3 _. unchanged.
Qed.

(** What a run that returns has changed. *)
Lemma runBuild_change w w' :
  runBuild w = Ok tt w' →
  change (λ q, q ∈ [index; styles; scripts] ∨ q ∈ Assets.destinations (fs w)) inBuild
    (fs w) (fs w').
Proof.
  intros H. rewrite runBuild_eq in H.
  set (w0 := mkWorld (fs w) (console w ++ ["Starting build process..."])) in H.
  change (fs w) with (fs w0). clearbody w0.
  destruct (buildHTML w0) as [[] w1|] eqn:E1; [|done].
  destruct (buildCSS w1) as [[] w2|] eqn:E2; [|done].
  destruct (buildJS w2) as [[] w3|] eqn:E3; [|done].
  destruct (copyAssets w3) as [[] w4|] eqn:E4; [|done].
  destruct (updateAssetPaths w4) as [[] w5|] eqn:E5; [|done].
  injection H as <-. cbn [fs].
  assert (A03 : agree (fs w0) (fs w3)).
  { apply change_agree.
    eapply change_trans; [exact (changes_Ok _ _ _ _ _ _ (buildHTML_changes w0) E1)|].
    eapply change_trans; [exact (changes_Ok _ _ _ _ _ _ (buildCSS_changes w1) E2)|].
    exact (changes_Ok _ _ _ _ _ _ (buildJS_changes w2) E3). }
  assert (Hd : Assets.destinations (fs w3) = Assets.destinations (fs w0)).
  { unfold Assets.destinations.
    by rewrite (AssetFacts.listed_agree _ _ _ (A03 imagesDir eq_refl)),
      (AssetFacts.listed_agree _ _ _ (A03 fontsDir eq_refl)). }
  rewrite buildHTML_emit in E1. rewrite buildCSS_emit in E2. rewrite buildJS_emit in E3.
  pose proof (changes_Ok _ _ _ _ _ _ (emit_changes _ _ _ _ w0) E1) as C1.
  pose proof (changes_Ok _ _ _ _ _ _ (emit_changes _ _ _ _ w1) E2) as C2.
  pose proof (changes_Ok _ _ _ _ _ _ (emit_changes _ _ _ _ w2) E3) as C3.
  destruct (AssetFacts.copyAssets_Ok _ _ E4) as (C4 & _). rewrite Hd in C4.
  pose proof (changes_Ok _ _ _ _ _ _ (updateAssetPaths_changes w4) E5) as C5.
  eapply change_trans; [eapply change_mono; [| |exact C1]|]; cbn beta.
  { intros q ->. left. by left. }
  { by intros q ->. }
  eapply change_trans; [eapply change_mono; [| |exact C2]|]; cbn beta.
  { intros q ->. left. right. by left. }
  { by intros q ->. }
  eapply change_trans; [eapply change_mono; [| |exact C3]|]; cbn beta.
  { intros q ->. left. right. right. by left. }
  { by intros q ->. }
  eapply change_trans; [eapply change_mono; [| |exact C4]|]; cbn beta.
  { intros q ?. by right. }
  { done. }
  eapply change_mono; [| |exact C5]; cbn beta.
  - intros q [->| ->]; left; [by left|right; by left].
  - done.
Qed.

(** X6: a run that returns cleans nothing: every node that was there is
    still there, and every regular file other than the three outputs and
    the destinations of the assets to copy holds what it held, among
    them whatever an earlier run left in the build directory. *)
Theorem runBuild_cleans_nothing w w' :
  runBuild w = Ok tt w' →
  (∀ q, is_Some (fs w !! q) → is_Some (fs w' !! q))
  ∧ (∀ q c, fs w !! q = Some (File c) →
            q ∉ [path.join config.buildDir ["index.html"];
                 path.join config.buildDir ["styles.css"];
                 path.join config.buildDir ["scripts.js"]] →
            q ∉ Assets.destinations (fs w) →
            fs w' !! q = Some (File c)).
Proof.
  intros Hch%runBuild_change. split.
  - intros q. by apply (change_is_Some _ _ _ _ _ Hch).
  - intros q c Hq Hout Hdest. apply (change_file _ _ _ _ _ _ Hch); [tauto|done].
Qed.

(** *** When the run returns *)

Lemma allRegular_kept W D m m' ps :
  change W D m m' → (∀ p, p ∈ ps → ¬ D p) →
  Bundle.allRegular m ps = true → Bundle.allRegular m' ps = true.
Proof.
  unfold Bundle.allRegular. rewrite !forallb_forall. intros Hch HD H p Hp.
  apply negb_true_iff. apply (change_not_isDir _ _ _ _ _ Hch).
  - apply HD. by apply list_elem_of_In.
  - by apply negb_true_iff, H.
Qed.

Lemma paths_not_build dir files extension out entries p :
  length dir = 2 → p ∈ Bundle.paths dir files extension out entries → p ≠ config.buildDir.
Proof.
  intros Hdir Hp E. apply (f_equal length) in E. unfold Bundle.paths in Hp.
  apply elem_of_app in Hp as [(f & -> & _)%list_elem_of_fmap|Hp].
  { unfold path.join in E. rewrite length_app in E. cbn in E. lia. }
  apply elem_of_app in Hp as [(n & -> & _)%list_elem_of_fmap|Hp]; [done|].
  by apply list_elem_of_singleton in Hp as ->.
Qed.

Lemma htmlPaths_not_build entries p : p ∈ Bundle.htmlPaths entries → p ≠ config.buildDir.
Proof.
  unfold Bundle.htmlPaths.
  intros [(n & -> & _)%list_elem_of_fmap| ->%list_elem_of_singleton]%elem_of_app; done.
Qed.

Lemma isDir_Dir m p : Fs.isDir m p = true → ∃ l, m !! p = Some (Dir l).
Proof. unfold Fs.isDir. destruct (m !! p) as [[?|l]|]; [done| |done]. by exists l. Qed.

Lemma ready_kept W m m' :
  change W (λ q, q = config.buildDir) m m' →
  (∀ q, W q → q ∈ [index; styles; scripts]) →
  Assets.ready m = true → Assets.ready m' = true.
Proof.
  intros Hch HW. unfold Assets.ready, Assets.buildReady.
  intros [[[[[Hb Ha]%andb_prop Hi]%andb_prop Hf]%andb_prop Hsi]%andb_prop Hsf]%andb_prop.
  apply negb_true_iff in Ha, Hi, Hf.
  assert (HW' : ∀ q, W q → inBuild q).
  { intros q [->|[->|[->|[]%elem_of_nil]%elem_of_cons]%elem_of_cons]%HW%elem_of_cons;
      done. }
  assert (Hnot : ∀ q, q ∉ [index; styles; scripts] → ¬ W q).
  { intros q Hq ?%HW. done. }
  assert (Hno : ∀ q, q = Assets.buildAssetsDir ∨ length q = 3 → ¬ W q).
  { intros q Hq. apply Hnot.
    intros [->|[->|[->|[]%elem_of_nil]%elem_of_cons]%elem_of_cons]%elem_of_cons;
      by destruct Hq. }
  rewrite (change_isDir _ _ _ _ _ Hch Hb).
  rewrite (change_not_isFile _ _ _ _ _ Hch (Hno Assets.buildAssetsDir ltac:(by left)) Ha).
  rewrite (change_not_isFile _ _ _ _ _ Hch
             (Hno (path.join Assets.buildAssetsDir ["images"]) ltac:(by right)) Hi).
  rewrite (change_not_isFile _ _ _ _ _ Hch
             (Hno (path.join Assets.buildAssetsDir ["fonts"]) ltac:(by right)) Hf).
  rewrite (AssetFacts.sourceReady_kept _ _ imagesDir _ _ _ eq_refl Hch HW'); try done;
    [|by intros q ->].
  rewrite (AssetFacts.sourceReady_kept _ _ fontsDir _ _ _ eq_refl Hch HW'); try done.
  by intros q ->.
Qed.

Lemma runBuild_ok w template entries :
  fs w !! config.templateFile = Some (File template) →
  fs w !! config.componentsDir = Some (Dir entries) →
  Bundle.allRegular (fs w)
    (Bundle.htmlPaths entries ++ Bundle.cssPaths entries ++ Bundle.jsPaths entries) = true →
  Assets.ready (fs w) = true →
  ∃ w', runBuild w = Ok tt w'.
Proof.
  intros Ht He [Rh [Rc Rj]%allRegular_app]%allRegular_app Hready.
  rewrite runBuild_eq.
  set (w0 := mkWorld (fs w) (console w ++ ["Starting build process..."])).
  change (fs w) with (fs w0) in Ht, He, Rh, Rc, Rj, Hready. clearbody w0.
  assert (Hb : Fs.isDir (fs w0) config.buildDir = true).
  { unfold Assets.ready, Assets.buildReady in Hready.
    by apply andb_prop in Hready as [[[[[? _]%andb_prop _]%andb_prop _]%andb_prop _]%andb_prop _]. }
  destruct (isDir_Dir _ _ Hb) as [b0 Hb0].
  destruct (emit_html w0 template entries b0 Ht He Hb0 Rh) as [w1 E1]. rewrite E1.
  pose proof E1 as E1'. rewrite buildHTML_emit in E1'.
  pose proof (changes_Ok _ _ _ _ _ _ (emit_changes _ _ _ _ w0) E1') as C1.
  apply emit_Ok in E1' as (html & _ & Wh%FsFacts.write_lookup).
  unfold path.join in C1. rewrite removelast_last in C1.
  (* the style sheet *)
  destruct (isDir_Dir _ _ (change_isDir _ _ _ _ _ C1 Hb)) as [b1 Hb1].
  assert (He1 : fs w1 !! config.componentsDir = Some (Dir entries)).
  { rewrite <- He. by apply (change_other _ _ _ _ _ C1). }
  destruct (emit_bundle "Building CSS..." "CSS build complete." config.coreStylesDir
              coreStyles ".css" "Styles" "styles.css" w1 entries b1 He1 Hb1) as (w2 & E2 & _).
  { apply (allRegular_kept _ _ _ _ _ C1); [|done].
    intros p Hp. by apply paths_not_build in Hp. }
  pose proof E2 as E2'.
  assert (buildCSS w1 = Ok tt w2) as E2b by (rewrite buildCSS_emit; exact E2).
  clear E2. rename E2b into E2. rewrite E2.
  pose proof (changes_Ok _ _ _ _ _ _ (emit_changes _ _ _ _ w1) E2') as C2.
  apply emit_Ok in E2' as (css & _ & Wc%FsFacts.write_lookup).
  unfold path.join in C2. rewrite removelast_last in C2.
  (* the script *)
  destruct (isDir_Dir _ _ (change_isDir _ _ _ _ _ C2 (change_isDir _ _ _ _ _ C1 Hb)))
    as [b2 Hb2].
  assert (He2 : fs w2 !! config.componentsDir = Some (Dir entries)).
  { rewrite <- He1. by apply (change_other _ _ _ _ _ C2). }
  destruct (emit_bundle "Building JavaScript..." "JavaScript build complete."
              config.coreScriptsDir coreScripts ".js" "Script" "scripts.js" w2 entries b2
              He2 Hb2) as (w3 & E3 & _).
  { apply (allRegular_kept _ _ _ _ _ C2); [intros p Hp; by apply paths_not_build in Hp|].
    apply (allRegular_kept _ _ _ _ _ C1); [intros p Hp; by apply paths_not_build in Hp|].
    done. }
  pose proof E3 as E3'.
  assert (buildJS w2 = Ok tt w3) as E3b by (rewrite buildJS_emit; exact E3).
  clear E3. rename E3b into E3. rewrite E3.
  pose proof (changes_Ok _ _ _ _ _ _ (emit_changes _ _ _ _ w2) E3') as C3.
  unfold path.join in C3. rewrite removelast_last in C3.
  (* the assets *)
  assert (C03 : change (λ q, q ∈ [index; styles; scripts]) (λ q, q = config.buildDir)
                  (fs w0) (fs w3)).
  { eapply change_trans; [eapply change_mono; [| |exact C1]|]; cbn beta.
    { intros q ->. by left. }
    { done. }
    eapply change_trans; (eapply change_mono; [| |eassumption]); cbn beta; try done.
    - intros q ->. right. by left.
    - intros q ->. right. right. by left. }
  destruct (AssetFacts.copyAssets_ok w3) as [w4 E4].
  { by apply (ready_kept _ _ _ C03). }
  rewrite E4.
  (* the rewrite *)
  pose proof (only_Ok _ _ _ _ _ (only_buildCSS w1) E2) as O2.
  pose proof (only_Ok _ _ _ _ _ (only_buildJS w2) E3) as O3.
  pose proof (only_Ok _ _ _ _ _ (only_copyAssets w3) E4) as O4.
  assert (Hi4 : fs w4 !! index = Some (File html)).
  { rewrite O4, O3, O2 by (first [by intros [?|?]|by intros [?|[?|[r ?]]]]). done. }
  assert (Hs4 : fs w4 !! styles = Some (File css)).
  { rewrite O4, O3 by (first [by intros [?|?]|by intros [?|[?|[r ?]]]]). done. }
  rewrite (updateAssetPaths_eq _ _ _ Hi4 Hs4). by eexists.
Qed.

(** X3: the run returns on every file system with a template, a
    components directory and a build directory in which no directory
    stands where a builder looks for a file or writes one, the asset
    sources hold regular files only and nothing in the build directory
    is in the way of the copies. *)
Theorem runBuild_returns w template entries :
  fs w !! config.templateFile = Some (File template) →
  fs w !! config.componentsDir = Some (Dir entries) →
  Bundle.allRegular (fs w)
    (Bundle.htmlPaths entries ++ Bundle.cssPaths entries ++ Bundle.jsPaths entries) = true →
  Assets.ready (fs w) = true →
  ∃ w', runBuild w = Ok tt w'.
Proof. apply runBuild_ok. Qed.

(** *** The first run *)

(** The file system once the script has made the build directory. *)
Local Abbreviation made m l :=
  (<[config.buildDir := Dir []]> (<[[] := Dir (l ++ ["build"])]> m)).

Lemma main_fresh w l :
  fs w !! [] = Some (Dir l) → fs w !! config.buildDir = None →
  main w = runBuild (setFs w (made (fs w) l)).
Proof.
  intros Hr Hb. unfold main, mbind, M_bind, Fs.existsSync.
  rewrite bool_decide_eq_false_2 by (rewrite Hb; by intros [? ?]). cbn [negb].
  unfold Fs.mkdirSync, Fs.lift, config.buildDir in *.
  cbn [Fs.mkdirFrom app]. rewrite Hb. unfold Fs.create. cbn [removelast]. by rewrite Hr.
Qed.

Lemma made_lookup (m : gmap path node) l q :
  q ≠ [] → q ≠ config.buildDir → made m l !! q = m !! q.
Proof. intros. by rewrite !lookup_insert_ne. Qed.

Lemma made_allRegular (m : gmap path node) l ps :
  (∀ p, p ∈ ps → p ≠ [] ∧ p ≠ config.buildDir) →
  Bundle.allRegular m ps = true → Bundle.allRegular (made m l) ps = true.
Proof.
  unfold Bundle.allRegular. rewrite !forallb_forall. intros Hps H p Hp.
  destruct (Hps p ltac:(by apply list_elem_of_In)) as [? ?].
  unfold Fs.isDir. rewrite made_lookup by done. by apply H.
Qed.

Lemma made_sourceReady (m : gmap path node) l dir kind :
  outside dir = true →
  Assets.sourceReady m dir kind = true → Assets.sourceReady (made m l) dir kind = true.
Proof.
  intros Hdir. unfold Assets.sourceReady.
  assert (Hout : ∀ q, outside q = true → q ≠ [] ∧ q ≠ config.buildDir).
  { intros q Hq. split; intros ->; done. }
  rewrite made_lookup by by apply Hout.
  destruct (m !! dir) as [[?|entries]|]; [done| |done].
  rewrite !forallb_forall. intros H f Hf. specialize (H f Hf).
  unfold isFile, Fs.isDir in *. rewrite !made_lookup; try done.
  all: by apply Hout, AssetFacts.outside_app.
Qed.

Lemma paths_long dir files extension out entries p :
  length dir = 2 → p ∈ Bundle.paths dir files extension out entries →
  p ≠ [] ∧ p ≠ config.buildDir.
Proof.
  intros Hdir Hp. split; [|by eapply paths_not_build].
  intros ->. unfold Bundle.paths in Hp.
  apply elem_of_app in Hp as [(f & E & _)%list_elem_of_fmap|Hp]; [by destruct dir|].
  apply elem_of_app in Hp as [(n & E & _)%list_elem_of_fmap|Hp]; [done|].
  by apply list_elem_of_singleton in Hp.
Qed.

Lemma htmlPaths_long entries p :
  p ∈ Bundle.htmlPaths entries → p ≠ [] ∧ p ≠ config.buildDir.
Proof.
  intros Hp. split; [|by eapply htmlPaths_not_build]. intros ->.
  unfold Bundle.htmlPaths in Hp.
  by apply elem_of_app in Hp as [(n & E & _)%list_elem_of_fmap|?%list_elem_of_singleton].
Qed.

(** X4: on a working directory without a build directory the script
    makes it and the run returns, given a template, a components
    directory with no directory where a file is looked for, and asset
    sources that hold regular files only. *)
Theorem main_on_fresh_checkout w rootEntries template entries :
  fs w !! [] = Some (Dir rootEntries) →
  (∀ r, fs w !! (config.buildDir ++ r) = None) →
  fs w !! config.templateFile = Some (File template) →
  fs w !! config.componentsDir = Some (Dir entries) →
  Bundle.allRegular (fs w)
    (Bundle.htmlPaths entries ++ Bundle.cssPaths entries ++ Bundle.jsPaths entries) = true →
  Assets.sourceReady (fs w) imagesDir "images" = true →
  Assets.sourceReady (fs w) fontsDir "fonts" = true →
  ∃ w', main w = Ok tt w' ∧ Fs.isDir (fs w') config.buildDir = true.
Proof.
  intros Hr Hb Ht He Hreg Hsi Hsf.
  rewrite (main_fresh w rootEntries Hr (Hb [])).
  set (w1 := setFs w (made (fs w) rootEntries)).
  assert (Hd : Fs.isDir (fs w1) config.buildDir = true).
  { unfold Fs.isDir. cbn [w1 fs setFs]. by rewrite lookup_insert_eq. }
  destruct (runBuild_ok w1 template entries) as [w' Hw'].
  - cbn [w1 fs setFs]. by rewrite made_lookup.
  - cbn [w1 fs setFs]. by rewrite made_lookup.
  - cbn [w1 fs setFs]. apply made_allRegular; [|done].
    intros p [Hp|[Hp|Hp]%elem_of_app]%elem_of_app;
      [by apply htmlPaths_long in Hp|by apply paths_long in Hp..].
  - unfold Assets.ready, Assets.buildReady. rewrite Hd.
    cbn [w1 fs setFs]. rewrite !made_sourceReady by done.
    unfold isFile. rewrite !made_lookup by done.
    change Assets.buildAssetsDir with (config.buildDir ++ ["assets"]).
    change (path.join (config.buildDir ++ ["assets"]) ["images"])
      with (config.buildDir ++ ["assets"; "images"]).
    change (path.join (config.buildDir ++ ["assets"]) ["fonts"])
      with (config.buildDir ++ ["assets"; "fonts"]).
    by rewrite !Hb.
  - exists w'. split; [done|].
    by apply (change_isDir _ _ _ _ _ (runBuild_change _ _ Hw')).
Qed.

(** *** Entries of the components directory that are no directories *)

Lemma fold_ext {A S : Type} (file : A → path) (g : S → A → string → S) m m' l s :
  (∀ a, m' !! file a = m !! file a) → Pure.fold file g m' l s = Pure.fold file g m l s.
Proof.
  intros H. revert s. induction l as [|a l IH]; intros s; [done|].
  cbn [Pure.fold]. unfold Pure.step. rewrite H.
  destruct (m !! file a) as [[c|?]|]; [apply IH|done|apply IH].
Qed.

Section Stray.
Variables (m : gmap path node) (before after : list string) (n : string).
Hypothesis listing : m !! config.componentsDir = Some (Dir (before ++ n :: after)).
Hypothesis stray : Fs.isDir m (path.join config.componentsDir [n]) = false.

Local Abbreviation m' := (<[config.componentsDir := Dir (before ++ after)]> m).

Lemma stray_lookup q : q ≠ config.componentsDir → m' !! q = m !! q.
Proof. intros. by rewrite lookup_insert_ne. Qed.

Lemma stray_names : Pure.componentNames m' = Pure.componentNames m.
Proof.
  unfold Pure.componentNames, Pure.listing. rewrite lookup_insert_eq, listing. f_equal.
  unfold Pure.dirNames. rewrite !List.filter_app. cbn [List.filter].
  unfold path.join in stray. rewrite stray. f_equal; apply filter_ext; intros x;
    unfold Fs.isDir; by rewrite stray_lookup.
Qed.

Lemma stray_html : Pure.htmlText m' = Pure.htmlText m.
Proof.
  unfold Pure.htmlText. rewrite stray_lookup by done.
  destruct (m !! config.templateFile) as [[template|?]|]; [|done..].
  rewrite stray_names. destruct (Pure.componentNames m) as [e|names]; [done|].
  apply fold_ext. intros a. by apply stray_lookup.
Qed.

Lemma stray_bundle dir files extension label :
  length dir = 2 →
  Pure.bundleText dir files extension label m' = Pure.bundleText dir files extension label m.
Proof.
  intros Hdir. unfold Pure.bundleText, Pure.coreLoop, Pure.componentLoop.
  rewrite (fold_ext _ _ m m').
  2:{ intros f. apply stray_lookup. intros E. apply (f_equal length) in E.
      unfold path.join in E. rewrite length_app in E. cbn in E. lia. }
  destruct (Pure.fold _ _ m files EmptyString) as [e|core]; [done|].
  rewrite stray_names. destruct (Pure.componentNames m) as [e|names]; [done|].
  apply fold_ext. intros a. by apply stray_lookup.
Qed.

Lemma stray_emit start finish text out w x :
  fs w = m → fs x = m' → text m' = text m →
  nodeAfter (Pure.emit start finish text (path.join config.buildDir [out]) x)
    (path.join config.buildDir [out])
  = nodeAfter (Pure.emit start finish text (path.join config.buildDir [out]) w)
      (path.join config.buildDir [out]).
Proof.
  intros Hw Hx Ht. unfold Pure.emit. rewrite Hw, Hx, Ht.
  destruct (text m) as [e|t]; [done|].
  unfold Fs.write, Fs.create. rewrite !stray_lookup by done.
  destruct (m !! path.join config.buildDir [out]) as [[?|?]|]; cbn [nodeAfter fs].
  - by rewrite !lookup_insert_eq.
  - done.
  - unfold path.join. rewrite removelast_last.
    destruct (m !! config.buildDir) as [[?|?]|]; cbn [nodeAfter fs]; [done| |done].
    by rewrite !lookup_insert_eq.
Qed.

End Stray.

(** X14: an entry of the components directory that is no directory, a
    stray file, counts for nothing: each builder writes what it writes
    on the file system whose listing of the components directory does
    not have the entry. *)
Theorem stray_entries_are_ignored w x before n after :
  fs w !! config.componentsDir = Some (Dir (before ++ n :: after)) →
  Fs.isDir (fs w) (path.join config.componentsDir [n]) = false →
  fs x = <[config.componentsDir := Dir (before ++ after)]> (fs w) →
  nodeAfter (buildHTML x) (path.join config.buildDir ["index.html"])
  = nodeAfter (buildHTML w) (path.join config.buildDir ["index.html"])
  ∧ nodeAfter (buildCSS x) (path.join config.buildDir ["styles.css"])
    = nodeAfter (buildCSS w) (path.join config.buildDir ["styles.css"])
  ∧ nodeAfter (buildJS x) (path.join config.buildDir ["scripts.js"])
    = nodeAfter (buildJS w) (path.join config.buildDir ["scripts.js"]).
Proof.
  intros Hl Hn Hx. rewrite !buildHTML_emit, !buildCSS_emit, !buildJS_emit.
  split; [|split]; eapply stray_emit; try done.
  - by eapply stray_html.
  - by eapply stray_bundle.
  - by eapply stray_bundle.
Qed.

(** *** The page of a well-formed template *)



(** *** Dollar signs in a component *)

(** X22: the dollar signs that matter are those followed by another
    dollar sign, an ampersand, a backquote or a quote: the markup of a
    component that has none of these pairs is put in place of the leftmost
    placeholder as it stands in the file, whatever other dollar signs it
    has. *)
Theorem insertComponent_verbatim template componentName componentHtml before after w :
  fs w !! componentFile componentName ".html" = Some (File componentHtml) →
  Dollar.special componentHtml = false →
  Str.splitFirst (placeholderOf componentName) template = Some (before, after) →
  insertComponent template componentName w = Ok (before +:+ componentHtml +:+ after) w.
Proof.
  intros Hfile Hplain Hsplit. rewrite insertComponent_eq, Hfile. unfold JS.replace.
  by rewrite Hsplit, DollarFacts.getSubstitution_verbatim.
Qed.

End RunFacts.


(** * The stages and the run on example sites *)

Lemma stages_keep_to_their_outputs_witness :
  fs (worldAfter (Example.buildHTML Example.merged)) !! Example.stylesCss
  = fs Example.merged !! Example.stylesCss
  ∧ fs (worldAfter (Example.buildCSS Example.merged)) !! Example.indexHtml
    = fs Example.merged !! Example.indexHtml
  ∧ fs (worldAfter (Example.buildJS Example.merged)) !! Example.indexHtml
    = fs Example.merged !! Example.indexHtml
  ∧ fs (worldAfter (copyAssets Example.merged)) !! Example.indexHtml
    = fs Example.merged !! Example.indexHtml
  ∧ fs (worldAfter (updateAssetPaths Example.merged)) !! config.templateFile
    = fs Example.merged !! config.templateFile.
Proof.
  destruct (@stages_keep_to_their_outputs AsciiCase.ascii Example.merged)
    as (Hhtml & Hcss & Hjs & Hassets & Hrewrite).
  split; [|split; [|split; [|split]]].
  - apply Hhtml. by intros [?|?].
  - apply Hcss. by intros [?|?].
  - apply Hjs. by intros [?|?].
  - apply Hassets. by intros [?|[?|[r ?]]].
  - apply Hrewrite. by intros [?|?].
Defined.

Lemma main_keeps_sources_witness :
  fs (worldAfter (Example.main Example.bundle)) !! config.templateFile
  = fs Example.bundle !! config.templateFile.
Proof. apply (@main_keeps_sources AsciiCase.ascii Example.bundle). reflexivity. Defined.

Lemma builders_write_last_witness :
  fs (worldAfter (Example.buildHTML Example.noTemplate)) = fs Example.noTemplate
  ∧ fs (worldAfter (Example.buildCSS Example.noTemplate)) = fs Example.noTemplate
  ∧ fs (worldAfter (Example.buildJS Example.noTemplate)) = fs Example.noTemplate.
Proof.
  split; [|split].
  - apply (proj1 (@builders_write_last AsciiCase.ascii Example.noTemplate
                    (ENOENT config.templateFile) _)).
    vm_compute; reflexivity.
  - apply (proj1 (proj2 (@builders_write_last AsciiCase.ascii Example.noTemplate
                           (ENOENT Example.stylesCss) _))).
    vm_compute; reflexivity.
  - apply (proj2 (proj2 (@builders_write_last AsciiCase.ascii Example.noTemplate
                           (ENOENT Example.scriptsJs) _))).
    vm_compute; reflexivity.
Defined.

Lemma builders_idempotent_witness :
  (∃ w2, Example.buildHTML (worldAfter (Example.buildHTML Example.bundle)) = Ok tt w2
         ∧ fs w2 = fs (worldAfter (Example.buildHTML Example.bundle)))
  ∧ (∃ w2, Example.buildCSS (worldAfter (Example.buildCSS Example.bundle)) = Ok tt w2
           ∧ fs w2 = fs (worldAfter (Example.buildCSS Example.bundle)))
  ∧ (∃ w2, Example.buildJS (worldAfter (Example.buildJS Example.bundle)) = Ok tt w2
           ∧ fs w2 = fs (worldAfter (Example.buildJS Example.bundle))).
Proof.
  split; [|split].
  - apply (proj1 (@builders_idempotent AsciiCase.ascii Example.bundle _)).
    vm_compute; reflexivity.
  - apply (proj1 (proj2 (@builders_idempotent AsciiCase.ascii Example.bundle _))).
    vm_compute; reflexivity.
  - apply (proj2 (proj2 (@builders_idempotent AsciiCase.ascii Example.bundle _))).
    vm_compute; reflexivity.
Defined.

Lemma copyAssets_idempotent_witness :
  ∃ w2, copyAssets (worldAfter (copyAssets Example.assets)) = Ok tt w2
        ∧ fs w2 = fs (worldAfter (copyAssets Example.assets)).
Proof. apply (copyAssets_idempotent Example.assets). vm_compute; reflexivity. Defined.

Lemma updateAssetPaths_idempotent_witness :
  ∃ w2, updateAssetPaths (worldAfter (updateAssetPaths Example.merged)) = Ok tt w2
        ∧ fs w2 = fs (worldAfter (updateAssetPaths Example.merged)).
Proof. apply (updateAssetPaths_idempotent Example.merged). vm_compute; reflexivity. Defined.

Lemma runBuild_outputs_witness :
  ∃ template entries,
    fs Example.bundle !! config.templateFile = Some (File template)
    ∧ fs Example.bundle !! config.componentsDir = Some (Dir entries)
    ∧ fs (worldAfter (Example.runBuild Example.bundle))
        !! path.join config.buildDir ["index.html"]
      = Some (File (rewriteHtml
                      (Page.merged (caseMapping := AsciiCase.ascii) (fs Example.bundle)
                         (Pure.dirNames (fs Example.bundle) config.componentsDir entries)
                         template)))
    ∧ fs (worldAfter (Example.runBuild Example.bundle))
        !! path.join config.buildDir ["styles.css"]
      = Some (File (rewriteCss
                      (Bundle.merged (caseMapping := AsciiCase.ascii)
                         config.coreStylesDir coreStyles ".css" "Styles"
                         (fs Example.bundle) entries)))
    ∧ fs (worldAfter (Example.runBuild Example.bundle))
        !! path.join config.buildDir ["scripts.js"]
      = Some (File (Bundle.merged (caseMapping := AsciiCase.ascii)
                      config.coreScriptsDir coreScripts ".js" "Script"
                      (fs Example.bundle) entries)).
Proof.
  apply (@runBuild_outputs AsciiCase.ascii Example.bundle). vm_compute; reflexivity.
Defined.

(** The outputs of that run, spelled out. *)
Example runBuild_bundle :
  nodeAfter (Example.runBuild Example.bundle) Example.indexHtml
  = Some (File "<body><nav></nav><!-- FOOTER --></body>")
  ∧ nodeAfter (Example.runBuild Example.bundle) (Assets.destination "images" "logo.png")
    = Some (File "logo").
Proof. split; vm_compute; reflexivity. Qed.

Lemma runBuild_regenerates_witness :
  fs (worldAfter (Example.runBuild Site.stale)) !! path.join config.buildDir ["index.html"]
  = fs (worldAfter (Example.runBuild Example.bundle))
      !! path.join config.buildDir ["index.html"].
Proof.
  apply (@runBuild_regenerates AsciiCase.ascii Example.bundle Site.stale).
  - eapply agree_trans; by apply agree_insert.
  - vm_compute; reflexivity.
  - vm_compute; reflexivity.
  - by left.
Defined.

Lemma failed_run_leaves_page_unrewritten_witness :
  fs (worldAfter (Example.runBuild Example.subfolder))
    !! path.join config.buildDir ["index.html"]
  = fs (worldAfter (Example.buildHTML Example.subfolder))
      !! path.join config.buildDir ["index.html"].
Proof.
  apply (@failed_run_leaves_page_unrewritten AsciiCase.ascii Example.subfolder _
           (EISDIR ["core"; "assets"; "images"; "icons"])); vm_compute; reflexivity.
Defined.

(** The console of the run that throws at the folder among the images:
    the last line names the stage. *)
Example runBuild_console_subfolder :
  console (worldAfter (Example.runBuild Example.subfolder)) = take 8 Log.lines
  ∧ last (console (worldAfter (Example.runBuild Example.subfolder)))
    = Some "Copying assets...".
Proof. split; vm_compute; reflexivity. Qed.

Lemma components_directory_required_witness :
  (∃ e w', Example.buildHTML Site.noComponents = Throw e w' ∧ fs w' = fs Site.noComponents)
  ∧ (∃ e w', Example.buildCSS Site.noComponents = Throw e w' ∧ fs w' = fs Site.noComponents)
  ∧ (∃ e w', Example.buildJS Site.noComponents = Throw e w' ∧ fs w' = fs Site.noComponents)
  ∧ (∃ e w', Example.runBuild Site.noComponents = Throw e w' ∧ fs w' = fs Site.noComponents).
Proof.
  apply (@components_directory_required AsciiCase.ascii Site.noComponents).
  vm_compute; reflexivity.
Defined.

(** What the run on that site throws. *)
Example runBuild_noComponents :
  thrown (Example.runBuild Site.noComponents) = Some (ENOENT config.componentsDir).
Proof. vm_compute. reflexivity. Qed.

Lemma directory_for_optional_file_aborts_witness :
  ∃ e w', Example.buildCSS Site.folderForFile = Throw e w' ∧ fs w' = fs Site.folderForFile.
Proof.
  apply (proj2 (proj2 (@directory_for_optional_file_aborts AsciiCase.ascii
                         Site.folderForFile)) ["Header"] "Header").
  - vm_compute; reflexivity.
  - by left.
  - vm_compute; reflexivity.
  - vm_compute; reflexivity.
Defined.

Lemma build_as_regular_file_witness :
  ∃ e w', Example.main Site.buildIsFile = Throw e w' ∧ fs w' = fs Site.buildIsFile.
Proof.
  apply (@build_as_regular_file AsciiCase.ascii Site.buildIsFile "notes");
    vm_compute; reflexivity.
Defined.

(** What the script throws there. *)
Example main_buildIsFile :
  thrown (Example.main Site.buildIsFile) = Some (ENOTDIR Example.indexHtml).
Proof. vm_compute. reflexivity. Qed.

Lemma copyAssets_directories_witness :
  is_Some (fs (worldAfter (copyAssets Example.bundle)) !! Assets.buildAssetsDir)
  ∧ ∀ dir kind, (dir, kind) ∈ [(imagesDir, "images"); (fontsDir, "fonts")] →
      (is_Some (fs Example.bundle !! dir) →
       is_Some (fs (worldAfter (copyAssets Example.bundle))
                  !! path.join Assets.buildAssetsDir [kind]))
      ∧ (fs Example.bundle !! dir = None →
         ∀ r, fs (worldAfter (copyAssets Example.bundle))
                !! (Assets.buildAssetsDir ++ kind :: r)
              = fs Example.bundle !! (Assets.buildAssetsDir ++ kind :: r)).
Proof. apply (copyAssets_directories Example.bundle). vm_compute; reflexivity. Defined.

Lemma updateAssetPaths_complete_witness :
  (∀ html p,
     fs (worldAfter (updateAssetPaths Example.merged))
       !! path.join config.buildDir ["index.html"] = Some (File html) →
     p ∈ [Spec.srcImages; Spec.hrefImages] → Str.includes p html = false)
  ∧ (∀ css p,
       fs (worldAfter (updateAssetPaths Example.merged))
         !! path.join config.buildDir ["styles.css"] = Some (File css) →
       p ∈ Spec.urlForms "core/assets/images/" ++ Spec.urlForms "core/assets/fonts/" →
       Str.includes p css = false).
Proof. apply (updateAssetPaths_complete Example.merged). vm_compute; reflexivity. Defined.

Lemma runBuild_cleans_nothing_witness :
  (∀ q, is_Some (fs Example.assets !! q) →
        is_Some (fs (worldAfter (Example.runBuild Example.assets)) !! q))
  ∧ (∀ q c, fs Example.assets !! q = Some (File c) →
            q ∉ [path.join config.buildDir ["index.html"];
                 path.join config.buildDir ["styles.css"];
                 path.join config.buildDir ["scripts.js"]] →
            q ∉ Assets.destinations (fs Example.assets) →
            fs (worldAfter (Example.runBuild Example.assets)) !! q = Some (File c)).
Proof.
  apply (@runBuild_cleans_nothing AsciiCase.ascii Example.assets). vm_compute; reflexivity.
Defined.

Lemma runBuild_returns_witness : ∃ w', Example.runBuild Example.bundle = Ok tt w'.
Proof.
  apply (@runBuild_returns AsciiCase.ascii Example.bundle
           "<body><!-- HEADER --><!-- FOOTER --></body>" ["Header"; "Footer"]);
    vm_compute; reflexivity.
Defined.

Lemma main_on_fresh_checkout_witness :
  ∃ w', Example.main Site.fresh = Ok tt w' ∧ Fs.isDir (fs w') config.buildDir = true.
Proof.
  apply (@main_on_fresh_checkout AsciiCase.ascii Site.fresh
           ["index-template.html"; "components"; "core"]
           "<body><!-- HEADER --></body>" ["Header"]);
    try (vm_compute; reflexivity).
  intros r. apply not_elem_of_list_to_map_1. cbn.
  rewrite !not_elem_of_cons. repeat split; try done. apply not_elem_of_nil.
Defined.

Lemma stray_entries_are_ignored_witness :
  nodeAfter (Example.buildHTML Site.tidy) (path.join config.buildDir ["index.html"])
  = nodeAfter (Example.buildHTML Site.stray) (path.join config.buildDir ["index.html"])
  ∧ nodeAfter (Example.buildCSS Site.tidy) (path.join config.buildDir ["styles.css"])
    = nodeAfter (Example.buildCSS Site.stray) (path.join config.buildDir ["styles.css"])
  ∧ nodeAfter (Example.buildJS Site.tidy) (path.join config.buildDir ["scripts.js"])
    = nodeAfter (Example.buildJS Site.stray) (path.join config.buildDir ["scripts.js"]).
Proof.
  apply (@stray_entries_are_ignored AsciiCase.ascii Site.stray Site.tidy [] "README.md"
           ["Header"]); [vm_compute; reflexivity..|reflexivity].
Defined.


(** The page of that site. *)
Example buildHTML_page :
  nodeAfter (Example.buildHTML Site.page) Example.indexHtml
  = Some (File "<main><h1>hero</h1><!-- intro --><p>about</p></main>").
Proof. vm_compute. reflexivity. Qed.


Lemma insertComponent_verbatim_witness :
  Example.insertComponent "<p><!-- PRICE --></p>" "Price"
    (Example.site "" [("Price", [("price.html", "<b>US$5 & $1</b>")])] [])
  = Ok "<p><b>US$5 & $1</b></p>"
      (Example.site "" [("Price", [("price.html", "<b>US$5 & $1</b>")])] []).
Proof.
  apply (@insertComponent_verbatim AsciiCase.ascii "<p><!-- PRICE --></p>" "Price"
           "<b>US$5 & $1</b>" "<p>" "</p>"); vm_compute; reflexivity.
Defined.
